(** * thongssh-gtk: the SFTP engine of [thongssh_gtk/sftp_widget.py]

    A shallow embedding of the transfer engine of the SFTP widget
    (authentication passes, remote listing, upload and download workers,
    progress callbacks, recursive remote delete, teardown) together with the
    properties its specification states about it.

    Python integers are [Z]; [str] is [string]; a [dict] with string keys is
    a [gmap string _]; exceptions are values of [exn]; a method that mutates
    the widget is a function in the state-and-exception monad [M].

    The widget around the engine follows: the handlers of its buttons, views
    and context menu, the closures the main loop runs from the UI queue, and
    the two dialogs of [thongssh_gtk/dialogs.py] it opens. A method of the
    widget is a function in the monad [G], whose state holds the engine, the
    UI queue, the two panels, and the threads started, the dialogs presented
    and the calls made so far. *)

From Stdlib Require Import ZArith String Ascii List Lia Bool.
From Stdlib Require Import Floats.SpecFloat.
From Stdlib Require Import DecimalString OctalString.
From Stdlib Require Import Sorted Permutation OrderedTypeEx.
From stdpp Require Import base option list strings gmap.
Import ListNotations.

Local Open Scope string_scope.
Local Open Scope Z_scope.

(** ** Python values the engine handles *)

(** The exception classes the module raises, catches or can meet. The
    handlers of the module distinguish only
    [paramiko.PasswordRequiredException], [paramiko.AuthenticationException]
    (its base class) and [Exception]. *)
Inductive exn_class :=
| PasswordRequiredException
| AuthenticationException
| SSHException
| IOError
| OSError
| NameError
| UnboundLocalError
| TypeError
| ValueError
| IndexError
| OverflowError
| AttributeError.

Record exn := Exn { exn_cls : exn_class; exn_str : string }.

Definition exn_class_eqb (a b : exn_class) : bool :=
  match a, b with
  | PasswordRequiredException, PasswordRequiredException
  | AuthenticationException, AuthenticationException
  | SSHException, SSHException
  | IOError, IOError
  | OSError, OSError
  | NameError, NameError
  | UnboundLocalError, UnboundLocalError
  | TypeError, TypeError
  | ValueError, ValueError
  | IndexError, IndexError
  | OverflowError, OverflowError
  | AttributeError, AttributeError => true
  | _, _ => false
  end.

(** [isinstance(e, cls)] for the two paramiko classes the connect worker
    names in its handlers: a [PasswordRequiredException] is an
    [AuthenticationException]. *)
Definition is_PasswordRequired (e : exn) : bool :=
  exn_class_eqb (exn_cls e) PasswordRequiredException.

Definition is_Authentication (e : exn) : bool :=
  exn_class_eqb (exn_cls e) AuthenticationException
  || exn_class_eqb (exn_cls e) PasswordRequiredException.

(** The outcome of a Python expression: a value or a raised exception. *)
Inductive result (A : Type) :=
| Ok (a : A)
| Raise (e : exn).
Arguments Ok {A} a.
Arguments Raise {A} e.

(** Truthiness of [str] and of [Optional[str]]. *)
Definition str_truthy (s : string) : bool :=
  match s with EmptyString => false | _ => true end.

Definition opt_truthy (o : option string) : bool :=
  match o with Some s => str_truthy s | None => false end.

(** [str(n)] for an integer. *)
Definition str_of_int (z : Z) : string := NilZero.string_of_int (Z.to_int z).

(** ** String helpers ([in], [split], [replace], [os.path]) *)

Definition slash : ascii := "/"%char.
Definition backslash : ascii := "\"%char.
Definition at_sign : ascii := "@"%char.

(** [c in s] *)
Fixpoint str_contains (c : ascii) (s : string) : bool :=
  match s with
  | EmptyString => false
  | String a s' => Ascii.eqb a c || str_contains c s'
  end.

(** [s.split(c, 1)] when [c in s]: the text before and after the first [c]. *)
Fixpoint split_once (c : ascii) (s : string) : option (string * string) :=
  match s with
  | EmptyString => None
  | String a s' =>
      if Ascii.eqb a c then Some (EmptyString, s')
      else match split_once c s' with
           | Some (u, v) => Some (String a u, v)
           | None => None
           end
  end.

(** [s.replace('\\', '/')] *)
Fixpoint replace_backslash (s : string) : string :=
  match s with
  | EmptyString => EmptyString
  | String a s' =>
      String (if Ascii.eqb a backslash then slash else a) (replace_backslash s')
  end.

Definition starts_with_slash (s : string) : bool :=
  match s with String a _ => Ascii.eqb a slash | EmptyString => false end.

Fixpoint ends_with_slash (s : string) : bool :=
  match s with
  | EmptyString => false
  | String a EmptyString => Ascii.eqb a slash
  | String _ s' => ends_with_slash s'
  end.

(** [posixpath.join(a, b)] *)
Definition os_path_join (a b : string) : string :=
  if starts_with_slash b then b
  else if negb (str_truthy a) || ends_with_slash a then a +:+ b
  else a +:+ "/" +:+ b.

(** [posixpath.basename(p)]: the text after the last slash. *)
Fixpoint os_path_basename (p : string) : string :=
  match p with
  | EmptyString => EmptyString
  | String a p' =>
      if str_contains slash p then
        (if Ascii.eqb a slash && negb (str_contains slash p') then p'
         else os_path_basename p')
      else p
  end.

(** [os.path.join(a, b).replace('\\', '/')], the remote path of an entry. *)
Definition remote_join (a b : string) : string :=
  replace_backslash (os_path_join a b).

(** ** [_format_size] *)

(** [int.bit_length] *)
Definition bit_length (n : Z) : Z :=
  if n =? 0 then 0 else Z.log2 (Z.abs n) + 1.

Definition size_name : list string := ["B"; "KiB"; "MiB"; "GiB"; "TiB"].

(** The unit index [int(size_bytes.bit_length() / 10)]. *)
Definition size_unit_index (size_bytes : Z) : Z := bit_length size_bytes / 10.

Section FormatSize.
(** The text Python prints for [round(size_bytes / p, 1)], a float. *)
Variable str_round1 : Z -> Z -> string.

Definition _format_size (size_bytes : Z) : result string :=
  if size_bytes =? 0 then Ok "0 B"
  else
    let i := size_unit_index size_bytes in
    let p := 1024 ^ i in
    let s := str_round1 size_bytes p in
    match size_name !! Z.to_nat i with
    | Some unit_name => Ok (s +:+ " " +:+ unit_name)
    | None => Raise (Exn IndexError "tuple index out of range")
    end.
End FormatSize.

(** ** [_make_progress_callback]

    The percentage is [int((bytes_transferred / total_size) * 100)]: a true
    division of two integers (the correctly rounded binary64 quotient), a
    binary64 product, and a truncation towards zero. The three are computed
    here on the IEEE 754 model of the Standard Library. *)

Definition binary64_of_int (z : Z) : spec_float :=
  match z with
  | Z0 => S754_zero false
  | Zpos m => S754_finite false m 0
  | Zneg m => S754_finite true m 0
  end.

Definition float_truediv (a b : Z) : spec_float :=
  SFdiv 53 1024 (binary64_of_int a) (binary64_of_int b).

Definition float_mul (x y : spec_float) : spec_float := SFmul 53 1024 x y.

(** [int(x)] for a float [x]. *)
Definition int_of_float (x : spec_float) : result Z :=
  match x with
  | S754_zero _ => Ok 0
  | S754_finite sg m e =>
      let a := if 0 <=? e then Z.shiftl (Zpos m) e else Z.shiftr (Zpos m) (- e) in
      Ok (if sg then - a else a)
  | S754_infinity _ =>
      Raise (Exn OverflowError "cannot convert float infinity to integer")
  | S754_nan => Raise (Exn ValueError "cannot convert float NaN to integer")
  end.

Definition percent_of (bytes_transferred total_size : Z) : result Z :=
  int_of_float
    (float_mul (float_truediv bytes_transferred total_size) (binary64_of_int 100)).

(** The closure [progress] with its captured variables; [last_percent] is
    the [nonlocal] the closure updates. *)
Record progress_callback := ProgressCallback {
  pc_filename : string;
  pc_total_size : Z;
  last_percent : Z
}.

Definition _make_progress_callback (filename : string) (total_size : Z)
  : progress_callback :=
  ProgressCallback filename total_size (-1).

(** One invocation [progress(bytes_transferred, _total_bytes)]: the closure
    afterwards, and the percentage handed to [_log_message], if any. *)
Definition progress (cb : progress_callback) (bytes_transferred : Z)
  : result (progress_callback * option Z) :=
  if pc_total_size cb =? 0 then Ok (cb, None)
  else
    match percent_of bytes_transferred (pc_total_size cb) with
    | Raise e => Raise e
    | Ok percent =>
        if last_percent cb + 10 <=? percent
        then Ok (ProgressCallback (pc_filename cb) (pc_total_size cb) percent,
                 Some percent)
        else Ok (cb, None)
    end.

(** The text of a forwarded progress event. *)
Definition progress_message (filename : string) (percent : Z) : string :=
  "Transferring " +:+ filename +:+ ": " +:+ str_of_int percent +:+ "%".

(** The transport invokes the callback once per chunk with the running byte
    count. [run_progress] feeds a sequence of such invocations to the
    closure: the forwarded percentages in order, and the exception that
    ended the sequence, if one did. *)
Fixpoint run_progress (cb : progress_callback) (calls : list Z)
  : list Z * option exn :=
  match calls with
  | [] => ([], None)
  | b :: rest =>
      match progress cb b with
      | Raise e => ([], Some e)
      | Ok (cb', fw) =>
          let '(out, r) := run_progress cb' rest in
          (match fw with Some p => p :: out | None => out end, r)
      end
  end.

(** The percentages a transfer of [filename], [total_size] bytes long,
    forwards when the transport reports [calls]. *)
Definition forwarded (filename : string) (total_size : Z) (calls : list Z)
  : list Z :=
  fst (run_progress (_make_progress_callback filename total_size) calls).

(** The reports of a transport that sends [chunk] bytes at a time and
    reports after each chunk: [chunk, 2*chunk, ...] and finally [size]. *)
Fixpoint chunk_reports (n : nat) (chunk sent size : Z) : list Z :=
  match n with
  | O => []
  | S n' =>
      if size <=? sent then []
      else
        let sent' := Z.min size (sent + chunk) in
        sent' :: chunk_reports n' chunk sent' size
  end.

(** ** The widget, its collaborators and the calls it issues *)

(** A host entry of [hosts.json] as the host dialog writes it and the
    migration of [config.py] completes it: every key is present, [name] and
    [host] are strings, [port] an integer or [None], [key_path] a string or
    [None]. [None] here is the JSON [null]. *)
Record HostConfig := {
  cfg_name : option string;
  cfg_host : option string;
  cfg_port : option Z;
  cfg_key_path : option string
}.

(** The keyword arguments of one [SSHClient.connect] call. *)
Record connect_args := {
  ca_host : string;
  ca_port : Z;
  ca_username : string;
  ca_password : option string;
  ca_key_filename : option string;
  ca_timeout : Z;
  ca_allow_agent : bool;
  ca_look_for_keys : bool
}.

(** An entry of [listdir_attr] ([paramiko.SFTPAttributes]). *)
Record SFTPAttributes := {
  filename : string;
  st_size : Z;
  st_mode : Z;
  st_mtime : Z
}.

(** [stat.S_ISDIR(mode)]: [S_IFMT(mode) == S_IFDIR]. *)
Definition S_IFMT : Z := 0xF000.   (* 0o170000 *)
Definition S_IFDIR : Z := 0x4000.  (* 0o040000 *)
Definition S_ISDIR (mode : Z) : bool := Z.land mode S_IFMT =? S_IFDIR.

(** A row of a panel's list store, its ten columns in order. *)
Record row := {
  COL_ICON : string;
  COL_NAME : string;
  COL_SIZE_STR : string;
  COL_SIZE_BYTES : Z;
  COL_PERMS_STR : string;
  COL_PERMS_MODE : Z;
  COL_MODIFIED_STR : string;
  COL_MODIFIED_TS : Z;
  COL_IS_DIR : bool;
  COL_FULL_PATH : string
}.

(** A prompt the connect worker hands to the main loop with
    [GLib.idle_add]: the passphrase dialog of a key file, or the password
    dialog of [user@host]. *)
Inductive prompt :=
| prompt_for_key_password (key_filename : string)
| prompt_for_password (user host : string).

(** The calls the engine issues on its collaborators: the SSH and SFTP
    clients, the local file system, file monitors, the main loop. *)
Inductive call :=
| SshConnect (a : connect_args)
| SshOpenSftp
| SshClose
| SftpClose
| SftpNormalize (path : string)
| SftpListdirAttr (path : string)
| SftpStat (path : string)
| SftpMkdir (path : string)
| SftpPut (localpath remotepath : string)
| SftpGet (remotepath localpath : string)
| SftpRemove (path : string)
| SftpRmdir (path : string)
| OsGetsize (path : string)
| OsWalk (top : string)
| OsMakedirs (path : string)
| OsRemove (path : string)
| ShutilRmtree (path : string)
| MonitorCancel (monitor : nat)
| IdleAdd (p : prompt).

(** One step of [os.walk]: [(dirpath, subdirs, filenames)]. *)
Definition walk_entry : Type := string * (list string * list string).

Inductive value :=
| VNone
| VStr (s : string)
| VInt (z : Z)
| VAttr (a : SFTPAttributes)
| VAttrs (l : list SFTPAttributes)
| VWalk (l : list walk_entry)
| VReports (l : list Z).

Inductive outcome :=
| Returned (v : value)
| Raised (e : exn).

(** A call as it happened: what was called and how it ended. *)
Record event := Ev { ev_call : call; ev_outcome : outcome }.

(** The collaborators. How a call ends may depend on everything issued
    before it, so each answer is a function of the history of events and of
    the call's arguments. [sftp_put] and [sftp_get] also give the byte
    counts the transport reports to the progress callback while it copies.
    The last five fields are pure library functions whose text is not
    modelled: [str.lower], [stat.filemode],
    [datetime.fromtimestamp(ts).strftime(...)], the text of
    [round(size / p, 1)], and [os.path.relpath]. *)
Record Env := {
  ssh_connect : list event -> connect_args -> option exn;
  ssh_open_sftp : list event -> option exn;
  ssh_close : list event -> option exn;
  sftp_close : list event -> option exn;
  sftp_normalize : list event -> string -> result string;
  sftp_listdir_attr : list event -> string -> result (list SFTPAttributes);
  sftp_stat : list event -> string -> result SFTPAttributes;
  sftp_mkdir : list event -> string -> option exn;
  sftp_put : list event -> string -> string -> list Z * option exn;
  sftp_get : list event -> string -> string -> list Z * option exn;
  sftp_remove : list event -> string -> option exn;
  sftp_rmdir : list event -> string -> option exn;
  os_getsize : list event -> string -> result Z;
  os_walk : list event -> string -> list walk_entry;
  os_makedirs : list event -> string -> option exn;
  os_remove : list event -> string -> option exn;
  shutil_rmtree : list event -> string -> option exn;
  str_lower : string -> string;
  stat_filemode : Z -> string;
  strftime_of_timestamp : Z -> result string;
  str_round1 : Z -> Z -> string;
  os_path_relpath : string -> string -> string
}.

(** A unit of work on the UI queue: the closures the engine enqueues. *)
Inductive ui_work :=
| append_log (message : string) (is_error : bool)
| update_ui (rows_to_add : list row) (path : string)
| set_buttons_sensitive
| refresh_remote_view
| refresh_local_view.

(** The client objects: an [SSHClient] knows the arguments it connected
    with once [connect] has succeeded; an [SFTPClient] the connection it
    was opened on. *)
Record SSHClient := { connected_with : option connect_args }.
Record SFTPClient := { opened_on : option connect_args }.

(** The attributes of [SftpWidget] the engine reads and writes, the secret
    service behind [KeyringManager] (passwords by [host_name]), and the
    record of the calls issued so far. [file_monitors] keeps the insertion
    order of the dictionary: [local_temp_path -> (monitor, remote_path)]. *)
Record widget := {
  host_config : HostConfig;
  secret_service : gmap string string;
  ssh_client : option SSHClient;
  sftp_client : option SFTPClient;
  current_local_path : string;
  current_remote_path : option string;
  temp_dir : string;
  file_monitors : list (string * (nat * string));
  ui_queue : list ui_work;
  issued : list event
}.

Definition set_ssh_client (c : option SSHClient) (w : widget) : widget :=
  {| host_config := host_config w; secret_service := secret_service w;
     ssh_client := c; sftp_client := sftp_client w;
     current_local_path := current_local_path w;
     current_remote_path := current_remote_path w;
     temp_dir := temp_dir w; file_monitors := file_monitors w;
     ui_queue := ui_queue w; issued := issued w |}.

Definition set_sftp_client (c : option SFTPClient) (w : widget) : widget :=
  {| host_config := host_config w; secret_service := secret_service w;
     ssh_client := ssh_client w; sftp_client := c;
     current_local_path := current_local_path w;
     current_remote_path := current_remote_path w;
     temp_dir := temp_dir w; file_monitors := file_monitors w;
     ui_queue := ui_queue w; issued := issued w |}.

Definition set_file_monitors (m : list (string * (nat * string))) (w : widget)
  : widget :=
  {| host_config := host_config w; secret_service := secret_service w;
     ssh_client := ssh_client w; sftp_client := sftp_client w;
     current_local_path := current_local_path w;
     current_remote_path := current_remote_path w;
     temp_dir := temp_dir w; file_monitors := m;
     ui_queue := ui_queue w; issued := issued w |}.

Definition set_ui_queue (q : list ui_work) (w : widget) : widget :=
  {| host_config := host_config w; secret_service := secret_service w;
     ssh_client := ssh_client w; sftp_client := sftp_client w;
     current_local_path := current_local_path w;
     current_remote_path := current_remote_path w;
     temp_dir := temp_dir w; file_monitors := file_monitors w;
     ui_queue := q; issued := issued w |}.

Definition set_issued (t : list event) (w : widget) : widget :=
  {| host_config := host_config w; secret_service := secret_service w;
     ssh_client := ssh_client w; sftp_client := sftp_client w;
     current_local_path := current_local_path w;
     current_remote_path := current_remote_path w;
     temp_dir := temp_dir w; file_monitors := file_monitors w;
     ui_queue := ui_queue w; issued := t |}.

(** ** The monad of widget methods

    A method runs from a widget state to a completion and a widget state;
    what it changed before raising stays changed. [OutOfFuel] is not a
    completion of Python: it marks a run of the model that reached the
    recursion bound given to a recursive worker, and no handler catches
    it. *)
Inductive completion (A : Type) :=
| Returns (a : A)
| Throws (e : exn)
| OutOfFuel.
Arguments Returns {A} a.
Arguments Throws {A} e.
Arguments OutOfFuel {A}.

Definition M (A : Type) : Type := widget -> completion A * widget.

Definition ret {A} (a : A) : M A := fun w => (Returns a, w).

Definition raise {A} (e : exn) : M A := fun w => (Throws e, w).

Definition out_of_fuel {A} : M A := fun w => (OutOfFuel, w).

Definition bind {A B} (m : M A) (k : A -> M B) : M B :=
  fun w =>
    match m w with
    | (Returns a, w') => k a w'
    | (Throws e, w') => (Throws e, w')
    | (OutOfFuel, w') => (OutOfFuel, w')
    end.

Notation "x <- m ;; k" := (bind m (fun x => k))
  (at level 100, m at next level, right associativity).
Notation "m ;; k" := (bind m (fun _ => k))
  (at level 100, right associativity).

(** [try: m except Exception as e: handler(e)] *)
Definition try_except {A} (m : M A) (handler : exn -> M A) : M A :=
  fun w =>
    match m w with
    | (Throws e, w') => handler e w'
    | r => r
    end.

Definition gets {A} (f : widget -> A) : M A := fun w => (Returns (f w), w).

Definition modify (f : widget -> widget) : M unit := fun w => (Returns tt, f w).

Definition lift {A} (r : result A) : M A :=
  match r with
  | Ok a => ret a
  | Raise e => raise e
  end.

(** [for x in l: body(x)] *)
Fixpoint for_each {A} (l : list A) (body : A -> M unit) : M unit :=
  match l with
  | [] => ret tt
  | x :: l' => body x ;; for_each l' body
  end.

(** The same loop over a pure body that can raise, collecting the results. *)
Fixpoint map_result {A B} (f : A -> result B) (l : list A) : result (list B) :=
  match l with
  | [] => Ok []
  | x :: l' =>
      match f x with
      | Ok y =>
          match map_result f l' with
          | Ok ys => Ok (y :: ys)
          | Raise e => Raise e
          end
      | Raise e => Raise e
      end
  end.

Definition record_event (c : call) (o : outcome) : M unit :=
  modify (fun w => set_issued (issued w ++ [Ev c o]) w).

(** A call that returns nothing, answered by [answer] on the history. *)
Definition call_unit (c : call) (answer : list event -> option exn) : M unit :=
  h <- gets issued ;;
  match answer h with
  | None => record_event c (Returned VNone)
  | Some e => record_event c (Raised e) ;; raise e
  end.

(** A call that returns a value. *)
Definition call_value {A} (c : call) (inj : A -> value)
    (answer : list event -> result A) : M A :=
  h <- gets issued ;;
  match answer h with
  | Ok a => record_event c (Returned (inj a)) ;; ret a
  | Raise e => record_event c (Raised e) ;; raise e
  end.

(** [self.sftp_client.attr]: an [AttributeError] while there is no client. *)
Definition the_sftp_client (attr : string) : M SFTPClient :=
  c <- gets sftp_client ;;
  match c with
  | Some client => ret client
  | None =>
      raise (Exn AttributeError
               ("'NoneType' object has no attribute '" +:+ attr +:+ "'"))
  end.

(** [self.ui_queue.put(work)] *)
Definition ui_queue_put (work : ui_work) : M unit :=
  modify (fun w => set_ui_queue (ui_queue w ++ [work]) w).

(** [_log_message]: the log line is appended by a closure on the UI queue. *)
Definition _log_message (message : string) (is_error : bool) : M unit :=
  ui_queue_put (append_log message is_error).

(** ** [KeyringManager] ([keyring.py]) over the secret service *)

Definition save_password (host_name password : option string)
    (store : gmap string string) : gmap string string :=
  match host_name, password with
  | Some n, Some pw =>
      if str_truthy n && str_truthy pw then <[n := pw]> store else store
  | _, _ => store
  end.

Definition load_password (host_name : option string)
    (store : gmap string string) : option string :=
  match host_name with
  | Some n => if str_truthy n then store !! n else None
  | None => None
  end.

Definition clear_password (host_name : option string)
    (store : gmap string string) : gmap string string :=
  match host_name with
  | Some n => if str_truthy n then delete n store else store
  | None => store
  end.

(** ** Sorting a listing

    [list.sort(key=...)] is stable, and the stable sorted arrangement of a
    list is unique: an insertion sort that places an element before the
    entries whose key is not smaller computes the list Python computes.
    Keys are compared as Python compares [str], character by character. *)
Section Sorting.
Context {A : Type} (key : A -> string).

Fixpoint insert_by_key (x : A) (l : list A) : list A :=
  match l with
  | [] => [x]
  | y :: l' =>
      if String.ltb (key y) (key x) then y :: insert_by_key x l'
      else x :: y :: l'
  end.

Definition sort_by_key (l : list A) : list A :=
  fold_right insert_by_key [] l.
End Sorting.

(** ** Names of the module

    The names bound at the top level of [sftp_widget.py]: its imports, the
    translation function, the column constants and the class. A name used
    in a method and bound nowhere else is looked up here; Python raises
    [NameError] when the lookup fails. *)
Definition module_globals : list string :=
  [ "gi"; "Gtk"; "Gdk"; "GLib"; "Gio"; "GObject"; "os"; "Path"; "datetime";
    "stat"; "logging"; "threading"; "tempfile"; "queue"; "SettingsManager";
    "KeyringManager"; "InputDialog"; "PermissionsDialog"; "MessageDialog";
    "IS_PARAMIKO_AVAILABLE"; "paramiko"; "_"; "COL_ICON"; "COL_NAME";
    "COL_SIZE_STR"; "COL_SIZE_BYTES"; "COL_PERMS_STR"; "COL_PERMS_MODE";
    "COL_MODIFIED_STR"; "COL_MODIFIED_TS"; "COL_IS_DIR"; "COL_FULL_PATH";
    "SftpWidget" ].

Definition load_global (name : string) : M unit :=
  if existsb (String.eqb name) module_globals then ret tt
  else raise (Exn NameError ("name '" +:+ name +:+ "' is not defined")).

(** ** The engine *)
Section Engine.
Variable env : Env.

Definition _format_date (timestamp : Z) : result string :=
  strftime_of_timestamp env timestamp.

(** *** [_load_remote_directory] *)

Definition sort_key (attr : SFTPAttributes) : string :=
  str_lower env (filename attr).

Definition dir_row (path : string) (attr : SFTPAttributes) : result row :=
  match _format_date (st_mtime attr) with
  | Raise e => Raise e
  | Ok modified =>
      Ok {| COL_ICON := "folder-symbolic";
            COL_NAME := filename attr;
            COL_SIZE_STR := "<DIR>";
            COL_SIZE_BYTES := -1;
            COL_PERMS_STR := stat_filemode env (st_mode attr);
            COL_PERMS_MODE := st_mode attr;
            COL_MODIFIED_STR := modified;
            COL_MODIFIED_TS := st_mtime attr;
            COL_IS_DIR := true;
            COL_FULL_PATH := os_path_join path (filename attr) |}
  end.

Definition file_row (path : string) (attr : SFTPAttributes) : result row :=
  match _format_size (str_round1 env) (st_size attr) with
  | Raise e => Raise e
  | Ok size_str =>
      match _format_date (st_mtime attr) with
      | Raise e => Raise e
      | Ok modified =>
          Ok {| COL_ICON := "document-symbolic";
                COL_NAME := filename attr;
                COL_SIZE_STR := size_str;
                COL_SIZE_BYTES := st_size attr;
                COL_PERMS_STR := stat_filemode env (st_mode attr);
                COL_PERMS_MODE := st_mode attr;
                COL_MODIFIED_STR := modified;
                COL_MODIFIED_TS := st_mtime attr;
                COL_IS_DIR := false;
                COL_FULL_PATH := os_path_join path (filename attr) |}
      end
  end.

(** The rows of a listing: directories first, each group sorted. *)
Definition rows_of_listing (path : string) (items : list SFTPAttributes)
  : result (list row) :=
  let '(dirs, files) :=
    List.partition (fun attr => S_ISDIR (st_mode attr)) items in
  let dirs := sort_by_key sort_key dirs in
  let files := sort_by_key sort_key files in
  match map_result (dir_row path) dirs with
  | Raise e => Raise e
  | Ok dir_rows =>
      match map_result (file_row path) files with
      | Raise e => Raise e
      | Ok file_rows => Ok (dir_rows ++ file_rows)%list
      end
  end.

Definition listdir_attr (path : string) : M (list SFTPAttributes) :=
  _ <- the_sftp_client "listdir_attr" ;;
  call_value (SftpListdirAttr path) VAttrs
    (fun h => sftp_listdir_attr env h path).

Definition _load_remote_directory (path : string) : M unit :=
  _log_message ("Reading remote directory: " +:+ path +:+ "...") false ;;
  try_except
    (items <- listdir_attr path ;;
     rows_to_add <- lift (rows_of_listing path items) ;;
     ui_queue_put (update_ui rows_to_add path) ;;
     _log_message ("Successfully listed remote directory: " +:+ path) false)
    (fun e =>
       _log_message
         ("Error reading remote directory '" +:+ path +:+ "': " +:+ exn_str e)
         true).

(** *** [_sftp_connect_worker] *)

(** [self.ssh_client = paramiko.SSHClient()], [connect(...)], then
    [self.sftp_client = self.ssh_client.open_sftp()]. *)
Definition connect_and_open (a : connect_args) : M unit :=
  modify (set_ssh_client (Some {| connected_with := None |})) ;;
  call_unit (SshConnect a) (fun h => ssh_connect env h a) ;;
  modify (set_ssh_client (Some {| connected_with := Some a |})) ;;
  call_unit SshOpenSftp (ssh_open_sftp env) ;;
  modify (set_sftp_client (Some {| opened_on := Some a |})).

(** What follows a successful connection: list the session root and
    enable the transfer buttons. *)
Definition show_initial_directory : M unit :=
  _ <- the_sftp_client "normalize" ;;
  initial_path <- call_value (SftpNormalize ".") VStr
                    (fun h => sftp_normalize env h ".") ;;
  _load_remote_directory initial_path ;;
  ui_queue_put set_buttons_sensitive.

(** [user, host] from the host string or the prompted user name. *)
Definition user_and_host (host_str : string)
    (username_from_prompt : option string) : option (string * string) :=
  if str_contains at_sign host_str then split_once at_sign host_str
  else
    match username_from_prompt with
    | Some u => if str_truthy u then Some (u, host_str) else None
    | None => None
    end.

(** [int(cfg.get("port") or 22)] *)
Definition port_of (cfg : HostConfig) : Z :=
  match cfg_port cfg with
  | Some p => if p =? 0 then 22 else p
  | None => 22
  end.

(** Whether a block of the worker falls through to the next one or
    executes [return]. *)
Inductive flow := Continue | Return.

Section Pass.
Variables (user host : string) (port : Z).
Variables (key_filename key_passphrase auth_password : option string).
Variable cfg : HostConfig.

Definition supplied_password_args : connect_args :=
  {| ca_host := host; ca_port := port; ca_username := user;
     ca_password := auth_password; ca_key_filename := None;
     ca_timeout := 10; ca_allow_agent := false;
     ca_look_for_keys := false |}.

Definition key_args : connect_args :=
  {| ca_host := host; ca_port := port; ca_username := user;
     ca_password := key_passphrase; ca_key_filename := key_filename;
     ca_timeout := 10; ca_allow_agent := true;
     ca_look_for_keys := true |}.

Definition saved_password_args (password_from_keyring : string)
  : connect_args :=
  {| ca_host := host; ca_port := port; ca_username := user;
     ca_password := Some password_from_keyring; ca_key_filename := None;
     ca_timeout := 10; ca_allow_agent := false;
     ca_look_for_keys := false |}.

(** 1. Try with the provided [auth_password], if any. *)
Definition try_supplied_password : M flow :=
  if opt_truthy auth_password then
    try_except
      (_log_message "Attempting connection with provided password..." false ;;
       connect_and_open supplied_password_args ;;
       _log_message
         "SFTP connection established successfully with provided password."
         false ;;
       show_initial_directory ;;
       ret Return)
      (fun e =>
         _log_message
           ("Provided password authentication failed: " +:+ exn_str e) true ;;
         ret Continue)
  else ret Continue.

(** 2. Try with the key, if one is configured and nothing connected. *)
Definition try_key : M flow :=
  client <- gets sftp_client ;;
  match key_filename, client with
  | Some key, None =>
      if str_truthy key then
        try_except
          (_log_message "Attempting connection with SSH key..." false ;;
           connect_and_open key_args ;;
           _log_message "SFTP connection established successfully with key."
             false ;;
           ret Continue)
          (fun e =>
             if is_PasswordRequired e then
               _log_message
                 "SSH key is encrypted. Please enter the passphrase." false ;;
               record_event (IdleAdd (prompt_for_key_password key))
                 (Returned VNone) ;;
               ret Return
             else if is_Authentication e then
               _log_message
                 "Key authentication failed. Falling back to password..."
                 false ;;
               ret Continue
             else
               _log_message
                 ("SFTP connection failed with key: " +:+ exn_str e) true ;;
               ret Return)
      else ret Continue
  | _, _ => ret Continue
  end.

(** 3. Try the saved password of the keyring; 4. without one, prompt. *)
Definition try_saved_password : M flow :=
  client <- gets sftp_client ;;
  match client with
  | Some _ => ret Continue
  | None =>
      store <- gets secret_service ;;
      match load_password (cfg_name cfg) store with
      | Some password_from_keyring =>
          if str_truthy password_from_keyring then
            _log_message "Attempting connection with saved password..."
              false ;;
            try_except
              (connect_and_open (saved_password_args password_from_keyring) ;;
               _log_message
                 "SFTP connection established successfully with password."
                 false)
              (fun e =>
                 _log_message
                   ("Saved password authentication failed: " +:+ exn_str e)
                   true) ;;
            ret Continue
          else
            _log_message "No key or saved password. Please enter password."
              false ;;
            record_event (IdleAdd (prompt_for_password user host))
              (Returned VNone) ;;
            ret Return
      | None =>
          _log_message "No key or saved password. Please enter password."
            false ;;
          record_event (IdleAdd (prompt_for_password user host))
            (Returned VNone) ;;
          ret Return
      end
  end.

(** The end of the pass: connected, or every attempt failed. *)
Definition finish_pass : M unit :=
  client <- gets sftp_client ;;
  match client with
  | Some _ => show_initial_directory
  | None =>
      _log_message
        "Authentication failed. Please check credentials and connection."
        true
  end.

Definition negotiate : M unit :=
  f1 <- try_supplied_password ;;
  match f1 with
  | Return => ret tt
  | Continue =>
      f2 <- try_key ;;
      match f2 with
      | Return => ret tt
      | Continue =>
          f3 <- try_saved_password ;;
          match f3 with
          | Return => ret tt
          | Continue => finish_pass
          end
      end
  end.
End Pass.

Definition _sftp_connect_worker
    (username_from_prompt key_passphrase auth_password : option string)
  : M unit :=
  cfg <- gets host_config ;;
  match cfg_host cfg with
  | None =>
      raise (Exn TypeError "argument of type 'NoneType' is not iterable")
  | Some host_str =>
      match user_and_host host_str username_from_prompt with
      | None =>
          _log_message "Authentication failed: Username is missing." true
      | Some (user, host) =>
          negotiate user host (port_of cfg) (cfg_key_path cfg)
            key_passphrase auth_password cfg
      end
  end.

(** *** [_upload_worker] and [_download_worker] *)

(** The percentages the callback forwards become log lines. *)
Definition log_progress (filename : string) (percents : list Z) : M unit :=
  for_each percents
    (fun percent => _log_message (progress_message filename percent) false).

(** A [put] or [get] with a progress callback: the transport reports to
    the callback while it copies; an exception of the callback or of the
    transport ends the transfer. *)
Definition transfer (c : call)
    (answer : list event -> list Z * option exn) (cb : progress_callback)
  : M unit :=
  h <- gets issued ;;
  let '(reports, failure) := answer h in
  let '(percents, cb_failure) := run_progress cb reports in
  log_progress (pc_filename cb) percents ;;
  match cb_failure, failure with
  | Some e, _ => record_event c (Raised e) ;; raise e
  | None, Some e => record_event c (Raised e) ;; raise e
  | None, None => record_event c (Returned (VReports reports))
  end.

Definition put (localpath remotepath : string) (cb : progress_callback)
  : M unit :=
  _ <- the_sftp_client "put" ;;
  transfer (SftpPut localpath remotepath)
    (fun h => sftp_put env h localpath remotepath) cb.

Definition get (remotepath localpath : string) (cb : progress_callback)
  : M unit :=
  _ <- the_sftp_client "get" ;;
  transfer (SftpGet remotepath localpath)
    (fun h => sftp_get env h remotepath localpath) cb.

Definition mkdir (path : string) : M unit :=
  _ <- the_sftp_client "mkdir" ;;
  call_unit (SftpMkdir path) (fun h => sftp_mkdir env h path).

Definition getsize (path : string) : M Z :=
  call_value (OsGetsize path) VInt (fun h => os_getsize env h path).

(** The copy of one file of a directory upload. *)
Definition upload_file (dirpath remote_dir name : string) : M unit :=
  let local_file := os_path_join dirpath name in
  let remote_file := remote_join remote_dir name in
  file_size <- getsize local_file ;;
  let progress_callback := _make_progress_callback name file_size in
  put local_file remote_file progress_callback.

(** One step of the walk: the subdirectories, then the files. *)
Definition upload_walk_entry (local_path remote_path : string)
    (entry : walk_entry) : M unit :=
  let '(dirpath, (subdirs, filenames)) := entry in
  let relative_path := os_path_relpath env dirpath local_path in
  let remote_dir :=
    if String.eqb relative_path "." then remote_path
    else remote_join remote_path relative_path in
  for_each subdirs
    (fun sub_dir =>
       try_except (mkdir (remote_join remote_dir sub_dir))
         (fun _ => ret tt)) ;;
  for_each filenames (upload_file dirpath remote_dir).

Definition upload_directory (local_path remote_path basename : string)
  : M unit :=
  _log_message
    ("Uploading directory " +:+ local_path +:+ " to " +:+ remote_path +:+ "...")
    false ;;
  mkdir remote_path ;;
  walk <- call_value (OsWalk local_path) VWalk
            (fun h => Ok (os_walk env h local_path)) ;;
  for_each walk (upload_walk_entry local_path remote_path) ;;
  _log_message ("Directory upload successful: " +:+ basename) false.

Definition upload_single_file (local_path remote_path basename : string)
  : M unit :=
  file_size <- getsize local_path ;;
  let progress_callback := _make_progress_callback basename file_size in
  _log_message
    ("Uploading file " +:+ local_path +:+ " to " +:+ remote_path +:+ "...")
    false ;;
  put local_path remote_path progress_callback ;;
  _log_message ("File upload successful: " +:+ basename) false.

(** [os.path.join(remote_dest_dir, basename).replace('\\', '/')]: the
    destination the widget hands over is [self.current_remote_path], which
    is [None] until a listing has been shown, and [os.path.join] raises
    [TypeError] for [None]. *)
Definition remote_join_optional (a : option string) (b : string)
  : result string :=
  match a with
  | Some a => Ok (remote_join a b)
  | None =>
      Raise (Exn TypeError
               "expected str, bytes or os.PathLike object, not NoneType")
  end.

(** The remote path is joined before the [try]: its [TypeError] is not
    caught by the worker. *)
Definition _upload_worker (local_path : string)
    (remote_dest_dir : option string) (is_dir : bool) : M unit :=
  client <- gets sftp_client ;;
  match client with
  | None => ret tt
  | Some _ =>
      let basename := os_path_basename local_path in
      remote_path <- lift (remote_join_optional remote_dest_dir basename) ;;
      try_except
        ((if negb is_dir
          then upload_single_file local_path remote_path basename
          else upload_directory local_path remote_path basename) ;;
         ui_queue_put refresh_remote_view)
        (fun e =>
           _log_message
             ("Upload failed for " +:+ basename +:+ ": " +:+ exn_str e) true)
  end.

Definition download_single_file (remote_path local_path basename : string)
  : M unit :=
  _ <- the_sftp_client "stat" ;;
  file_attrs <- call_value (SftpStat remote_path) VAttr
                  (fun h => sftp_stat env h remote_path) ;;
  let progress_callback :=
    _make_progress_callback basename (st_size file_attrs) in
  _log_message
    ("Downloading file " +:+ remote_path +:+ " to " +:+ local_path +:+ "...")
    false ;;
  get remote_path local_path progress_callback ;;
  _log_message ("File download successful: " +:+ basename) false.

(** The worker calls itself on every entry of a remote directory; [fuel]
    bounds the depth of these calls. *)
Fixpoint _download_worker (fuel : nat) (remote_path local_dest_dir : string)
    (is_dir : bool) : M unit :=
  client <- gets sftp_client ;;
  match client with
  | None => ret tt
  | Some _ =>
      match fuel with
      | O => out_of_fuel
      | S fuel' =>
          let basename := os_path_basename remote_path in
          let local_path := os_path_join local_dest_dir basename in
          try_except
            ((if negb is_dir
              then download_single_file remote_path local_path basename
              else
                _log_message
                  ("Downloading directory " +:+ remote_path +:+ " to "
                     +:+ local_path +:+ "...") false ;;
                call_unit (OsMakedirs local_path)
                  (fun h => os_makedirs env h local_path) ;;
                items <- listdir_attr remote_path ;;
                for_each items
                  (fun item =>
                     _download_worker fuel'
                       (remote_join remote_path (filename item)) local_path
                       (S_ISDIR (st_mode item))) ;;
                _log_message ("Directory download successful: " +:+ basename)
                  false) ;;
             ui_queue_put refresh_local_view)
            (fun e =>
               _log_message
                 ("Download failed for " +:+ basename +:+ ": " +:+ exn_str e)
                 true)
      end
  end.

(** *** [_sftp_rm_recursive] and the delete task *)

Definition remove (path : string) : M unit :=
  _ <- the_sftp_client "remove" ;;
  call_unit (SftpRemove path) (fun h => sftp_remove env h path).

Definition rmdir (path : string) : M unit :=
  _ <- the_sftp_client "rmdir" ;;
  call_unit (SftpRmdir path) (fun h => sftp_rmdir env h path).

Fixpoint _sftp_rm_recursive (fuel : nat) (path : string) : M unit :=
  client <- gets sftp_client ;;
  match client with
  | None => ret tt
  | Some _ =>
      match fuel with
      | O => out_of_fuel
      | S fuel' =>
          items <- listdir_attr path ;;
          for_each items
            (fun item =>
               let full_remote_path := remote_join path (filename item) in
               if S_ISDIR (st_mode item)
               then _sftp_rm_recursive fuel' full_remote_path
               else remove full_remote_path) ;;
          rmdir path ;;
          _log_message ("Recursively deleted remote directory: " +:+ path)
            false
      end
  end.

(** [shutil.rmtree(path)]: the name [shutil] is looked up first. *)
Definition rmtree (path : string) : M unit :=
  load_global "shutil" ;;
  call_unit (ShutilRmtree path) (fun h => shutil_rmtree env h path).

(** The [delete_task] closure of [_execute_delete]. *)
Definition delete_task (fuel : nat) (full_path : string)
    (is_dir is_local : bool) : M unit :=
  try_except
    ((if is_local then
        (if is_dir then rmtree full_path
         else call_unit (OsRemove full_path)
                (fun h => os_remove env h full_path)) ;;
        ui_queue_put refresh_local_view
      else
        (if is_dir then _sftp_rm_recursive fuel full_path
         else remove full_path) ;;
        ui_queue_put refresh_remote_view) ;;
     _log_message ("Deleted: " +:+ full_path) false)
    (fun e => _log_message ("Delete failed: " +:+ exn_str e) true).

(** *** [on_widget_destroy] *)

(** The call [_("SFTP connection closed.")] that ends the handler. The
    loop [for monitor, _ in self.file_monitors.values()] makes [_] a local
    variable of the handler: it is unbound when the loop ran no step, and
    the remote path of the last watch otherwise. *)
Definition call_underscore (monitors : list (string * (nat * string)))
  : M string :=
  match last monitors with
  | None =>
      raise (Exn UnboundLocalError
               "cannot access local variable '_' where it is not associated with a value")
  | Some _ => raise (Exn TypeError "'str' object is not callable")
  end.

Definition on_widget_destroy : M unit :=
  sftp <- gets sftp_client ;;
  (match sftp with
   | Some _ => call_unit SftpClose (sftp_close env)
   | None => ret tt
   end) ;;
  ssh <- gets ssh_client ;;
  (match ssh with
   | Some _ => call_unit SshClose (ssh_close env)
   | None => ret tt
   end) ;;
  monitors <- gets file_monitors ;;
  for_each monitors
    (fun entry =>
       record_event (MonitorCancel (fst (snd entry))) (Returned VNone)) ;;
  modify (set_file_monitors []) ;;
  tmp <- gets temp_dir ;;
  try_except
    (rmtree tmp ;;
     _log_message ("Cleaned up temporary directory: " +:+ tmp) false)
    (fun e =>
       _log_message
         ("Failed to clean up temporary directory " +:+ tmp +:+ ": "
            +:+ exn_str e) true) ;;
  message <- call_underscore monitors ;;
  _log_message message false.
End Engine.

(** ** Scenarios

    Collaborators and widgets to run the engine on. In [calm_env] every call
    succeeds, directories are empty and files have no bytes; the functions
    below change one answer of an environment. *)
Definition calm_env : Env :=
  {| ssh_connect := fun _ _ => None;
     ssh_open_sftp := fun _ => None;
     ssh_close := fun _ => None;
     sftp_close := fun _ => None;
     sftp_normalize := fun _ _ => Ok "/home/user";
     sftp_listdir_attr := fun _ _ => Ok [];
     sftp_stat := fun _ path => Ok {| filename := path; st_size := 0;
                                      st_mode := 0x81A4; st_mtime := 0 |};
     sftp_mkdir := fun _ _ => None;
     sftp_put := fun _ _ _ => ([], None);
     sftp_get := fun _ _ _ => ([], None);
     sftp_remove := fun _ _ => None;
     sftp_rmdir := fun _ _ => None;
     os_getsize := fun _ _ => Ok 0;
     os_walk := fun _ _ => [];
     os_makedirs := fun _ _ => None;
     os_remove := fun _ _ => None;
     shutil_rmtree := fun _ _ => None;
     str_lower := fun s => s;
     stat_filemode := fun _ => "-rw-r--r--";
     strftime_of_timestamp := fun _ => Ok "1970-01-01 00:00";
     str_round1 := fun _ _ => "1.0";
     os_path_relpath := fun _ _ => "." |}.

Definition with_connect (f : connect_args -> option exn) (env : Env) : Env :=
  {| ssh_connect := fun _ => f;
     ssh_open_sftp := ssh_open_sftp env; ssh_close := ssh_close env;
     sftp_close := sftp_close env; sftp_normalize := sftp_normalize env;
     sftp_listdir_attr := sftp_listdir_attr env; sftp_stat := sftp_stat env;
     sftp_mkdir := sftp_mkdir env; sftp_put := sftp_put env;
     sftp_get := sftp_get env; sftp_remove := sftp_remove env;
     sftp_rmdir := sftp_rmdir env; os_getsize := os_getsize env;
     os_walk := os_walk env; os_makedirs := os_makedirs env;
     os_remove := os_remove env; shutil_rmtree := shutil_rmtree env;
     str_lower := str_lower env; stat_filemode := stat_filemode env;
     strftime_of_timestamp := strftime_of_timestamp env;
     str_round1 := str_round1 env; os_path_relpath := os_path_relpath env |}.

Definition with_listdir (f : string -> result (list SFTPAttributes))
    (env : Env) : Env :=
  {| ssh_connect := ssh_connect env;
     ssh_open_sftp := ssh_open_sftp env; ssh_close := ssh_close env;
     sftp_close := sftp_close env; sftp_normalize := sftp_normalize env;
     sftp_listdir_attr := fun _ => f; sftp_stat := sftp_stat env;
     sftp_mkdir := sftp_mkdir env; sftp_put := sftp_put env;
     sftp_get := sftp_get env; sftp_remove := sftp_remove env;
     sftp_rmdir := sftp_rmdir env; os_getsize := os_getsize env;
     os_walk := os_walk env; os_makedirs := os_makedirs env;
     os_remove := os_remove env; shutil_rmtree := shutil_rmtree env;
     str_lower := str_lower env; stat_filemode := stat_filemode env;
     strftime_of_timestamp := strftime_of_timestamp env;
     str_round1 := str_round1 env; os_path_relpath := os_path_relpath env |}.

Definition with_mkdir (f : string -> option exn) (env : Env) : Env :=
  {| ssh_connect := ssh_connect env;
     ssh_open_sftp := ssh_open_sftp env; ssh_close := ssh_close env;
     sftp_close := sftp_close env; sftp_normalize := sftp_normalize env;
     sftp_listdir_attr := sftp_listdir_attr env; sftp_stat := sftp_stat env;
     sftp_mkdir := fun _ => f; sftp_put := sftp_put env;
     sftp_get := sftp_get env; sftp_remove := sftp_remove env;
     sftp_rmdir := sftp_rmdir env; os_getsize := os_getsize env;
     os_walk := os_walk env; os_makedirs := os_makedirs env;
     os_remove := os_remove env; shutil_rmtree := shutil_rmtree env;
     str_lower := str_lower env; stat_filemode := stat_filemode env;
     strftime_of_timestamp := strftime_of_timestamp env;
     str_round1 := str_round1 env; os_path_relpath := os_path_relpath env |}.

Definition with_get (f : string -> list Z * option exn) (env : Env) : Env :=
  {| ssh_connect := ssh_connect env;
     ssh_open_sftp := ssh_open_sftp env; ssh_close := ssh_close env;
     sftp_close := sftp_close env; sftp_normalize := sftp_normalize env;
     sftp_listdir_attr := sftp_listdir_attr env; sftp_stat := sftp_stat env;
     sftp_mkdir := sftp_mkdir env; sftp_put := sftp_put env;
     sftp_get := fun _ remotepath _ => f remotepath;
     sftp_remove := sftp_remove env;
     sftp_rmdir := sftp_rmdir env; os_getsize := os_getsize env;
     os_walk := os_walk env; os_makedirs := os_makedirs env;
     os_remove := os_remove env; shutil_rmtree := shutil_rmtree env;
     str_lower := str_lower env; stat_filemode := stat_filemode env;
     strftime_of_timestamp := strftime_of_timestamp env;
     str_round1 := str_round1 env; os_path_relpath := os_path_relpath env |}.

Definition with_walk (f : string -> list walk_entry)
    (relpath : string -> string -> string) (env : Env) : Env :=
  {| ssh_connect := ssh_connect env;
     ssh_open_sftp := ssh_open_sftp env; ssh_close := ssh_close env;
     sftp_close := sftp_close env; sftp_normalize := sftp_normalize env;
     sftp_listdir_attr := sftp_listdir_attr env; sftp_stat := sftp_stat env;
     sftp_mkdir := sftp_mkdir env; sftp_put := sftp_put env;
     sftp_get := sftp_get env; sftp_remove := sftp_remove env;
     sftp_rmdir := sftp_rmdir env; os_getsize := os_getsize env;
     os_walk := fun _ => f; os_makedirs := os_makedirs env;
     os_remove := os_remove env; shutil_rmtree := shutil_rmtree env;
     str_lower := str_lower env; stat_filemode := stat_filemode env;
     strftime_of_timestamp := strftime_of_timestamp env;
     str_round1 := str_round1 env; os_path_relpath := relpath |}.

(** A widget for the host [user@h] with the key file [/bad/key], before any
    connection. *)
Definition fresh_widget (name : option string) (store : gmap string string)
  : widget :=
  {| host_config := {| cfg_name := name; cfg_host := Some "user@h";
                       cfg_port := None; cfg_key_path := Some "/bad/key" |};
     secret_service := store;
     ssh_client := None;
     sftp_client := None;
     current_local_path := "/home/me";
     current_remote_path := None;
     temp_dir := "/tmp/thongssh_sftp_k3";
     file_monitors := [];
     ui_queue := [];
     issued := [] |}.

(** The same widget once connected with a password, one remote file open
    for editing. *)
Definition connected_widget : widget :=
  let a := saved_password_args "user" "h" 22 "s3cret" in
  {| host_config := {| cfg_name := Some "h"; cfg_host := Some "user@h";
                       cfg_port := None; cfg_key_path := Some "/bad/key" |};
     secret_service := {[ "h" := "s3cret" ]};
     ssh_client := Some {| connected_with := Some a |};
     sftp_client := Some {| opened_on := Some a |};
     current_local_path := "/home/me";
     current_remote_path := Some "/home/user";
     temp_dir := "/tmp/thongssh_sftp_k3";
     file_monitors := [("/tmp/thongssh_sftp_k3/notes.txt", (1%nat, "/home/user/notes.txt"))];
     ui_queue := [];
     issued := [] |}.

(** What a run leaves to observe: its completion, the UI queue, the calls
    issued, and whether there is an SFTP client. *)
Definition observe {A} (run : completion A * widget)
  : completion A * list ui_work * list event * bool :=
  (fst run, ui_queue (snd run), issued (snd run),
   bool_decide (is_Some (sftp_client (snd run)))).

(** * The widget around the engine *)

(** ** Texts and numbers ([str.strip], [oct], [int(text, 8)], slices)

    The characters of a text are the code points below 256. *)

(** [str.isspace] of one character. *)
Definition is_space (c : ascii) : bool :=
  let n := N_of_ascii c in
  ((9 <=? n) && (n <=? 13) || (28 <=? n) && (n <=? 32)
   || (n =? 133) || (n =? 160))%N.

(** The white space [int] skips around a literal: [Py_ISSPACE], and the
    white space above code point 126, which [int] turns into spaces
    before it reads the text. *)
Definition is_int_space (c : ascii) : bool :=
  let n := N_of_ascii c in
  ((9 <=? n) && (n <=? 13) || (n =? 32) || (n =? 133) || (n =? 160))%N.

Fixpoint drop_while (f : ascii -> bool) (s : string) : string :=
  match s with
  | String c s' => if f c then drop_while f s' else s
  | EmptyString => EmptyString
  end.

Fixpoint drop_while_end (f : ascii -> bool) (s : string) : string :=
  match s with
  | String c s' =>
      match drop_while_end f s' with
      | EmptyString => if f c then EmptyString else String c EmptyString
      | r => String c r
      end
  | EmptyString => EmptyString
  end.

(** [s.strip()] *)
Definition str_strip (s : string) : string :=
  drop_while_end is_space (drop_while is_space s).

(** [oct(n)] *)
Definition oct (n : Z) : string := OctalString.of_Z n.

(** [s[-n:]] for a positive [n]. *)
Definition str_last (n : nat) (s : string) : string :=
  substring (String.length s - n) n s.

Definition octal_digit (c : ascii) : option Z :=
  let n := N_of_ascii c in
  if ((48 <=? n) && (n <=? 55))%N then Some (Z.of_N n - 48) else None.

(** The digits of a literal, single underscores between them allowed: the
    value read and the text left, or [None] for a doubled or trailing
    underscore. *)
Fixpoint scan_octal (s : string) (after_underscore : bool) (acc : Z)
  : option (Z * string) :=
  match s with
  | String c s' =>
      if Ascii.eqb c "_" then
        if after_underscore then None else scan_octal s' true acc
      else
        match octal_digit c with
        | Some d => scan_octal s' false (8 * acc + d)
        | None => if after_underscore then None else Some (acc, s)
        end
  | EmptyString => if after_underscore then None else Some (acc, EmptyString)
  end.

(** [int(text, 8)]; [None] is the [ValueError] of an invalid literal.
    White space around the literal, a sign, the prefix [0o] or [0O] and an
    underscore after the prefix are accepted. *)
Definition int_base8 (text : string) : option Z :=
  let s := drop_while is_int_space text in
  let '(negative, s) :=
    match s with
    | String "+" s' => (false, s')
    | String "-" s' => (true, s')
    | _ => (false, s)
    end in
  let s :=
    match s with
    | String "0" (String "o" s') | String "0" (String "O" s') =>
        match s' with
        | String "_" s'' => s''
        | _ => s'
        end
    | _ => s
    end in
  match s with
  | String c _ =>
      match octal_digit c with
      | None => None
      | Some _ =>
          match scan_octal s false 0 with
          | Some (n, rest) =>
              match drop_while is_int_space rest with
              | EmptyString => Some (if negative then - n else n)
              | _ => None
              end
          | None => None
          end
      end
  | EmptyString => None
  end.

(** ** [PermissionsDialog] ([dialogs.py]) *)

Module PermissionsDialog.

Definition S_IRUSR : Z := 0x100.  (* 0o400 *)
Definition S_IWUSR : Z := 0x80.   (* 0o200 *)
Definition S_IXUSR : Z := 0x40.   (* 0o100 *)
Definition S_IRGRP : Z := 0x20.   (* 0o040 *)
Definition S_IWGRP : Z := 0x10.   (* 0o020 *)
Definition S_IXGRP : Z := 0x8.    (* 0o010 *)
Definition S_IROTH : Z := 0x4.
Definition S_IWOTH : Z := 0x2.
Definition S_IXOTH : Z := 0x1.

Definition values : list Z :=
  [S_IRUSR; S_IWUSR; S_IXUSR; S_IRGRP; S_IWGRP; S_IXGRP;
   S_IROTH; S_IWOTH; S_IXOTH].

(** The dialog: the check boxes by permission bit, in the order the
    dictionary [checks] was filled, the text of the octal entry, and the
    flag that keeps the two signal handlers from calling each other. *)
Record dialog := {
  checks : list (Z * bool);
  entry_octal : string;
  _is_updating : bool
}.

Definition set_checks (c : list (Z * bool)) (d : dialog) : dialog :=
  {| checks := c; entry_octal := entry_octal d;
     _is_updating := _is_updating d |}.

Definition set_entry_octal (t : string) (d : dialog) : dialog :=
  {| checks := checks d; entry_octal := t; _is_updating := _is_updating d |}.

Definition set_is_updating (b : bool) (d : dialog) : dialog :=
  {| checks := checks d; entry_octal := entry_octal d; _is_updating := b |}.

(** [chk.get_active()] of the box of [val]. *)
Fixpoint get_active (val : Z) (c : list (Z * bool)) : bool :=
  match c with
  | (v, a) :: c' => if v =? val then a else get_active val c'
  | [] => false
  end.

Fixpoint with_active (val : Z) (active : bool) (c : list (Z * bool))
  : list (Z * bool) :=
  match c with
  | (v, a) :: c' =>
      if v =? val then (v, active) :: c'
      else (v, a) :: with_active val active c'
  | [] => []
  end.

(** [chk.set_active(active)]: a box whose state changes emits [toggled],
    which runs the handler connected to it. A handler that runs out of
    [fuel] gives [None]. *)
Definition set_active (toggled : dialog -> option dialog) (val : Z)
    (active : bool) (d : dialog) : option dialog :=
  if Bool.eqb (get_active val (checks d)) active then Some d
  else toggled (set_checks (with_active val active (checks d)) d).

(** [entry.set_text(text)]: [Gtk.Editable.set_text] deletes the text of
    the entry and inserts the new one, of which the entry keeps at most
    [max_length=4] characters; [changed] is emitted after the deletion when
    there was text, and after the insertion when there is. *)
Definition set_text (changed : dialog -> option dialog) (text : string)
    (d : dialog) : option dialog :=
  let deleted :=
    if str_truthy (entry_octal d) then changed (set_entry_octal "" d)
    else Some d in
  match deleted with
  | Some d =>
      let text := substring 0 4 text in
      if str_truthy text then changed (set_entry_octal text d) else Some d
  | None => None
  end.

(** [for val, chk in self.checks.items(): chk.set_active(bool(mode & val))] *)
Fixpoint set_all_active (toggled : dialog -> option dialog) (mode : Z)
    (vals : list Z) (d : dialog) : option dialog :=
  match vals with
  | [] => Some d
  | val :: vals' =>
      match set_active toggled val (negb (Z.land mode val =? 0)) d with
      | Some d' => set_all_active toggled mode vals' d'
      | None => None
      end
  end.

(** The mode the boxes spell: [mode |= val] for every active box. *)
Definition mode_of_checks (c : list (Z * bool)) : Z :=
  fold_left
    (fun mode (check : Z * bool) =>
       if snd check then Z.lor mode (fst check) else mode)
    c 0.

Fixpoint on_check_toggled (fuel : nat) (d : dialog) : option dialog :=
  if _is_updating d then Some d
  else
    match fuel with
    | O => None
    | S fuel' =>
        let d := set_is_updating true d in
        let mode := mode_of_checks (checks d) in
        match set_text (on_octal_changed fuel') (str_last 3 (oct mode)) d with
        | Some d => Some (set_is_updating false d)
        | None => None
        end
    end
with on_octal_changed (fuel : nat) (d : dialog) : option dialog :=
  if _is_updating d then Some d
  else
    match fuel with
    | O => None
    | S fuel' =>
        let d := set_is_updating true d in
        let text := str_strip (entry_octal d) in
        let updated :=
          if str_truthy text then
            match int_base8 text with
            | Some mode =>
                set_all_active (on_check_toggled fuel') mode
                  (map fst (checks d)) d
            | None => Some d
            end
          else Some d in
        match updated with
        | Some d => Some (set_is_updating false d)
        | None => None
        end
    end.

Definition set_mode (fuel : nat) (mode : Z) (d : dialog) : option dialog :=
  let d := set_is_updating true d in
  match set_all_active (on_check_toggled fuel) mode (map fst (checks d)) d with
  | Some d =>
      match set_text (on_octal_changed fuel) (str_last 3 (oct mode)) d with
      | Some d => Some (set_is_updating false d)
      | None => None
      end
  | None => None
  end.

Definition get_mode (d : dialog) : Z :=
  match int_base8 (str_strip (entry_octal d)) with
  | Some mode => mode
  | None => 0
  end.

(** The dialog as [__init__] leaves it. *)
Definition __init__ (fuel : nat) (initial_mode : Z) : option dialog :=
  set_mode fuel initial_mode
    {| checks := map (fun val => (val, false)) values;
       entry_octal := "";
       _is_updating := false |}.

(** What the user does: a click on the box of [val], or an edit that
    leaves [text], cut to [max_length] characters, in the octal entry and
    emits [changed] for it. *)
Definition click_check (fuel : nat) (val : Z) (d : dialog) : option dialog :=
  set_active (on_check_toggled fuel) val (negb (get_active val (checks d))) d.

Definition edit_octal (fuel : nat) (text : string) (d : dialog)
  : option dialog :=
  let text := substring 0 4 text in
  if String.eqb (entry_octal d) text then Some d
  else on_octal_changed fuel (set_entry_octal text d).

(** [on_response] of [run_async]: the mode handed to the callback. *)
Definition on_response (ok : bool) (d : dialog) : option Z :=
  if ok then Some (get_mode d) else None.

End PermissionsDialog.

(** ** [InputDialog] ([dialogs.py])

    The dialog with one text entry that asks for a user name, a new file
    name, a password or a passphrase. Its [OK] button is sensitive only
    while the entry holds more than white space. *)
Module InputDialog.

Record dialog := {
  entry : string;
  ok_button_sensitive : bool
}.

Definition on_validate (d : dialog) : dialog :=
  {| entry := entry d;
     ok_button_sensitive := (0 <? String.length (str_strip (entry d)))%nat |}.

Definition get_text (d : dialog) : string := str_strip (entry d).

Definition __init__ (default_text : string) : dialog :=
  on_validate {| entry := default_text; ok_button_sensitive := false |}.

Inductive ResponseType := OK | CANCEL.

(** What the user does: an edit that leaves [text] in the entry, the
    Enter key in the entry, a click on one of the two buttons. *)
Inductive action :=
| edit (text : string)
| activate
| click_ok
| click_cancel.

(** One action: the dialog goes on, or responds and closes. [changed] runs
    [on_validate]; [activate] responds only if the button is sensitive; a
    button that is not sensitive takes no click. *)
Definition step (a : action) (d : dialog) : dialog + ResponseType :=
  match a with
  | edit text =>
      if String.eqb (entry d) text then inl d
      else inl (on_validate {| entry := text;
                               ok_button_sensitive := ok_button_sensitive d |})
  | activate => if ok_button_sensitive d then inr OK else inl d
  | click_ok => if ok_button_sensitive d then inr OK else inl d
  | click_cancel => inr CANCEL
  end.

(** [on_response] of [run_async]: what the callback is called with. *)
Definition on_response (response : ResponseType) (d : dialog)
  : option string :=
  match response with
  | OK => Some (get_text d)
  | CANCEL => None
  end.

(** [run_async] over what the user does: the argument of the callback,
    once the dialog has responded. *)
Fixpoint run_async (actions : list action) (d : dialog)
  : option (option string) :=
  match actions with
  | [] => None
  | a :: rest =>
      match step a d with
      | inl d' => run_async rest d'
      | inr response => Some (on_response response d)
      end
  end.

End InputDialog.

(** ** [os.path.dirname] *)

(** [p[:p.rfind('/') + 1]] *)
Fixpoint head_to_last_slash (p : string) : string :=
  match p with
  | EmptyString => EmptyString
  | String a p' =>
      if str_contains slash p then String a (head_to_last_slash p')
      else EmptyString
  end.

Fixpoint all_slashes (s : string) : bool :=
  match s with
  | EmptyString => true
  | String a s' => Ascii.eqb a slash && all_slashes s'
  end.

(** [posixpath.dirname(p)] *)
Definition os_path_dirname (p : string) : string :=
  let head := head_to_last_slash p in
  if str_truthy head && negb (all_slashes head)
  then drop_while_end (fun c => Ascii.eqb c slash) head
  else head.

(** ** The widget, its views and the rest of its collaborators *)

Inductive view := local_view | remote_view.

Definition view_eqb (a b : view) : bool :=
  match a, b with
  | local_view, local_view | remote_view, remote_view => true
  | _, _ => false
  end.

(** [threading.Thread(target=..., args=...)]: the targets of the threads
    the widget starts. *)
Inductive thread_target :=
| target_load_remote_directory (path : option string)
| target_sftp_connect_worker
    (username_from_prompt key_passphrase auth_password : option string)
| target_upload_worker (local_path : string) (remote_dest_dir : option string)
    (is_dir : bool)
| target_download_worker (remote_path local_dest_dir : string) (is_dir : bool)
| target_remote_edit_worker (remote_path : string)
| target_rename_task (old_path new_path new_name : string) (is_local : bool)
| target_delete_task (full_path : string) (is_dir is_local : bool)
| target_chmod_task (path : string) (new_mode : Z) (is_local : bool).

(** The dialogs the widget presents itself; each keeps the arguments of its
    callback. The password and passphrase dialogs of the connect worker are
    the [prompt]s of the engine. *)
Inductive presented :=
| username_dialog (host_str : string)
| rename_dialog (old_full_path old_name : string)
| delete_dialog (heading body full_path : string) (is_dir is_local : bool)
| permissions_dialog (full_path : string) (initial_mode : Z).

(** [os.stat_result]: the modification time is a float. *)
Module LocalStat.
Record t := { st_mode : Z; st_size : Z; st_mtime : spec_float }.
End LocalStat.

(** [os.listdir] and [os.stat] fail with an [OSError]; of its subclasses
    the widget names [PermissionError] and [FileNotFoundError]. *)
Inductive os_error :=
| PermissionError (text : string)
| FileNotFoundError (text : string)
| OtherOSError (text : string).

Inductive fs_result (A : Type) :=
| FsOk (a : A)
| FsRaise (f : os_error).
Arguments FsOk {A} a.
Arguments FsRaise {A} f.

Definition os_error_text (f : os_error) : string :=
  match f with
  | PermissionError t | FileNotFoundError t | OtherOSError t => t
  end.

(** The exception as a handler of [Exception] sees it. *)
Definition exn_of_os_error (f : os_error) : exn :=
  Exn OSError (os_error_text f).

(** [isinstance(e, OSError)]; [IOError] is another name of [OSError]. *)
Definition is_OSError (e : exn) : bool :=
  exn_class_eqb (exn_cls e) OSError || exn_class_eqb (exn_cls e) IOError.

(** [Gio.FileMonitorEvent] *)
Inductive FileMonitorEvent :=
| CHANGED
| CHANGES_DONE_HINT
| DELETED
| CREATED
| ATTRIBUTE_CHANGED
| PRE_UNMOUNT
| UNMOUNTED
| MOVED
| RENAMED
| MOVED_IN
| MOVED_OUT.

(** What lies on the UI queue: the closures of the engine and the closure
    of [_remote_edit_worker]. *)
Inductive queued :=
| engine_work (work : ui_work)
| open_and_monitor (local_temp_path remote_path basename : string).

(** What the widget does outside the record of the engine, as it
    happened; [ThreadsPut items]: the widget looks at the UI queue, on
    which the worker threads have put [items] since it last looked. *)
Inductive sys_event :=
| Listdir (path : string) (answer : fs_result (list string))
| Stat (path : string) (answer : fs_result LocalStat.t)
| Isdir (path : string) (answer : bool)
| OsRename (src dst : string) (answer : option exn)
| OsChmod (path : string) (mode : Z) (answer : option exn)
| SftpRename (oldpath newpath : string) (answer : option exn)
| SftpChmod (path : string) (mode : Z) (answer : option exn)
| Launch (path : string) (answer : option exn)
| MonitorFile (path : string) (answer : nat + exn)
| ScrollAdjustment (value upper page_size : spec_float)
| Now (text : string)
| IdleAddDoScroll
| LoggingError (message : string)
| ThreadsPut (items : list queued).

(** The collaborators of the widget that the engine does not use; as in
    [Env] an answer may depend on what happened before. [thread_puts] is
    what the worker threads, which run beside the main loop, have put on
    the UI queue since the widget last looked at it;
    [attribute_error_text cls attr] is the text of the [AttributeError]
    of the binding for a class [cls] without the attribute [attr]. *)
Record Desktop := {
  IS_PARAMIKO_AVAILABLE : bool;
  os_listdir : list sys_event -> string -> fs_result (list string);
  os_stat : list sys_event -> string -> fs_result LocalStat.t;
  os_path_isdir : list sys_event -> string -> bool;
  os_rename : list sys_event -> string -> string -> option exn;
  os_chmod : list sys_event -> string -> Z -> option exn;
  sftp_rename : list sys_event -> string -> string -> option exn;
  sftp_chmod : list sys_event -> string -> Z -> option exn;
  launch : list sys_event -> string -> option exn;
  monitor_file : list sys_event -> string -> option exn;
  scroll_adjustment : list sys_event -> spec_float * spec_float * spec_float;
  now_strftime : list sys_event -> string;
  strftime_of_float : spec_float -> result string;
  thread_puts : list sys_event -> list queued;
  attribute_error_text : string -> string -> string
}.

(** The widget: the engine with its attributes, the UI queue, the two list
    stores and path entries, the sort column of the remote model, the
    transfer buttons, the log buffer, the view last clicked with the right
    button ([None] while the attribute is not set), and the record of the
    threads started, the dialogs presented and the other calls. The
    [ui_queue] of [engine] is only the way by which the closures of a
    method of the engine reach [work]. *)
Record gui := {
  engine : widget;
  work : list queued;
  local_store : list row;
  remote_store : list row;
  local_path_entry : string;
  remote_path_entry : string;
  remote_sort_column : option (Z * bool);
  button_box_sensitive : bool;
  log_buffer : string;
  last_clicked_view : option view;
  threads : list thread_target;
  dialogs : list presented;
  performed : list sys_event
}.

Definition set_engine (w : widget) (g : gui) : gui :=
  {| engine := w; work := work g; local_store := local_store g;
     remote_store := remote_store g; local_path_entry := local_path_entry g;
     remote_path_entry := remote_path_entry g;
     remote_sort_column := remote_sort_column g;
     button_box_sensitive := button_box_sensitive g;
     log_buffer := log_buffer g; last_clicked_view := last_clicked_view g;
     threads := threads g; dialogs := dialogs g; performed := performed g |}.

Definition set_work (q : list queued) (g : gui) : gui :=
  {| engine := engine g; work := q; local_store := local_store g;
     remote_store := remote_store g; local_path_entry := local_path_entry g;
     remote_path_entry := remote_path_entry g;
     remote_sort_column := remote_sort_column g;
     button_box_sensitive := button_box_sensitive g;
     log_buffer := log_buffer g; last_clicked_view := last_clicked_view g;
     threads := threads g; dialogs := dialogs g; performed := performed g |}.

Definition set_local_store (s : list row) (g : gui) : gui :=
  {| engine := engine g; work := work g; local_store := s;
     remote_store := remote_store g; local_path_entry := local_path_entry g;
     remote_path_entry := remote_path_entry g;
     remote_sort_column := remote_sort_column g;
     button_box_sensitive := button_box_sensitive g;
     log_buffer := log_buffer g; last_clicked_view := last_clicked_view g;
     threads := threads g; dialogs := dialogs g; performed := performed g |}.

Definition set_remote_store (s : list row) (g : gui) : gui :=
  {| engine := engine g; work := work g; local_store := local_store g;
     remote_store := s; local_path_entry := local_path_entry g;
     remote_path_entry := remote_path_entry g;
     remote_sort_column := remote_sort_column g;
     button_box_sensitive := button_box_sensitive g;
     log_buffer := log_buffer g; last_clicked_view := last_clicked_view g;
     threads := threads g; dialogs := dialogs g; performed := performed g |}.

Definition set_local_path_entry (t : string) (g : gui) : gui :=
  {| engine := engine g; work := work g; local_store := local_store g;
     remote_store := remote_store g; local_path_entry := t;
     remote_path_entry := remote_path_entry g;
     remote_sort_column := remote_sort_column g;
     button_box_sensitive := button_box_sensitive g;
     log_buffer := log_buffer g; last_clicked_view := last_clicked_view g;
     threads := threads g; dialogs := dialogs g; performed := performed g |}.

Definition set_remote_path_entry (t : string) (g : gui) : gui :=
  {| engine := engine g; work := work g; local_store := local_store g;
     remote_store := remote_store g; local_path_entry := local_path_entry g;
     remote_path_entry := t;
     remote_sort_column := remote_sort_column g;
     button_box_sensitive := button_box_sensitive g;
     log_buffer := log_buffer g; last_clicked_view := last_clicked_view g;
     threads := threads g; dialogs := dialogs g; performed := performed g |}.

Definition set_remote_sort_column (c : option (Z * bool)) (g : gui)
  : gui :=
  {| engine := engine g; work := work g; local_store := local_store g;
     remote_store := remote_store g; local_path_entry := local_path_entry g;
     remote_path_entry := remote_path_entry g;
     remote_sort_column := c;
     button_box_sensitive := button_box_sensitive g;
     log_buffer := log_buffer g; last_clicked_view := last_clicked_view g;
     threads := threads g; dialogs := dialogs g; performed := performed g |}.

Definition set_button_box_sensitive (b : bool) (g : gui) : gui :=
  {| engine := engine g; work := work g; local_store := local_store g;
     remote_store := remote_store g; local_path_entry := local_path_entry g;
     remote_path_entry := remote_path_entry g;
     remote_sort_column := remote_sort_column g;
     button_box_sensitive := b;
     log_buffer := log_buffer g; last_clicked_view := last_clicked_view g;
     threads := threads g; dialogs := dialogs g; performed := performed g |}.

Definition set_log_buffer (t : string) (g : gui) : gui :=
  {| engine := engine g; work := work g; local_store := local_store g;
     remote_store := remote_store g; local_path_entry := local_path_entry g;
     remote_path_entry := remote_path_entry g;
     remote_sort_column := remote_sort_column g;
     button_box_sensitive := button_box_sensitive g;
     log_buffer := t; last_clicked_view := last_clicked_view g;
     threads := threads g; dialogs := dialogs g; performed := performed g |}.

Definition set_last_clicked_view (v : option view) (g : gui) : gui :=
  {| engine := engine g; work := work g; local_store := local_store g;
     remote_store := remote_store g; local_path_entry := local_path_entry g;
     remote_path_entry := remote_path_entry g;
     remote_sort_column := remote_sort_column g;
     button_box_sensitive := button_box_sensitive g;
     log_buffer := log_buffer g; last_clicked_view := v;
     threads := threads g; dialogs := dialogs g; performed := performed g |}.

Definition set_threads (t : list thread_target) (g : gui) : gui :=
  {| engine := engine g; work := work g; local_store := local_store g;
     remote_store := remote_store g; local_path_entry := local_path_entry g;
     remote_path_entry := remote_path_entry g;
     remote_sort_column := remote_sort_column g;
     button_box_sensitive := button_box_sensitive g;
     log_buffer := log_buffer g; last_clicked_view := last_clicked_view g;
     threads := t; dialogs := dialogs g; performed := performed g |}.

Definition set_dialogs (d : list presented) (g : gui) : gui :=
  {| engine := engine g; work := work g; local_store := local_store g;
     remote_store := remote_store g; local_path_entry := local_path_entry g;
     remote_path_entry := remote_path_entry g;
     remote_sort_column := remote_sort_column g;
     button_box_sensitive := button_box_sensitive g;
     log_buffer := log_buffer g; last_clicked_view := last_clicked_view g;
     threads := threads g; dialogs := d; performed := performed g |}.

Definition set_performed (p : list sys_event) (g : gui) : gui :=
  {| engine := engine g; work := work g; local_store := local_store g;
     remote_store := remote_store g; local_path_entry := local_path_entry g;
     remote_path_entry := remote_path_entry g;
     remote_sort_column := remote_sort_column g;
     button_box_sensitive := button_box_sensitive g;
     log_buffer := log_buffer g; last_clicked_view := last_clicked_view g;
     threads := threads g; dialogs := dialogs g; performed := p |}.

Definition set_current_local_path (p : string) (w : widget) : widget :=
  {| host_config := host_config w; secret_service := secret_service w;
     ssh_client := ssh_client w; sftp_client := sftp_client w;
     current_local_path := p;
     current_remote_path := current_remote_path w;
     temp_dir := temp_dir w; file_monitors := file_monitors w;
     ui_queue := ui_queue w; issued := issued w |}.

Definition set_current_remote_path (p : option string) (w : widget) : widget :=
  {| host_config := host_config w; secret_service := secret_service w;
     ssh_client := ssh_client w; sftp_client := sftp_client w;
     current_local_path := current_local_path w;
     current_remote_path := p;
     temp_dir := temp_dir w; file_monitors := file_monitors w;
     ui_queue := ui_queue w; issued := issued w |}.

(** ** The monad of the methods of the widget *)

Definition G (A : Type) : Type := gui -> completion A * gui.

Definition gret {A} (a : A) : G A := fun g => (Returns a, g).

Definition graise {A} (e : exn) : G A := fun g => (Throws e, g).

Definition gout_of_fuel {A} : G A := fun g => (OutOfFuel, g).

Definition gbind {A B} (m : G A) (k : A -> G B) : G B :=
  fun g =>
    match m g with
    | (Returns a, g') => k a g'
    | (Throws e, g') => (Throws e, g')
    | (OutOfFuel, g') => (OutOfFuel, g')
    end.

Declare Scope gui_scope.
Delimit Scope gui_scope with G.
Bind Scope gui_scope with G.
Notation "x <- m ;; k" := (gbind m (fun x => k))
  (at level 100, m at next level, right associativity) : gui_scope.
Notation "m ;; k" := (gbind m (fun _ => k))
  (at level 100, right associativity) : gui_scope.

Definition gtry_except {A} (m : G A) (handler : exn -> G A) : G A :=
  fun g =>
    match m g with
    | (Throws e, g') => handler e g'
    | r => r
    end.

Definition ggets {A} (f : gui -> A) : G A := fun g => (Returns (f g), g).

Definition gmodify (f : gui -> gui) : G unit := fun g => (Returns tt, f g).

Fixpoint gfor_each {A} (l : list A) (body : A -> G unit) : G unit :=
  match l with
  | [] => gret tt
  | x :: l' => (body x ;; gfor_each l' body)%G
  end.

(** A method of the engine run on the widget: the closures it enqueues
    reach the UI queue in their order. *)
Definition engine_run {A} (m : M A) : G A :=
  fun g =>
    let '(r, w) := m (engine g) in
    (r, set_work (work g ++ map engine_work (ui_queue w))
          (set_engine (set_ui_queue [] w) g)).

Definition queue_put (item : queued) : G unit :=
  gmodify (fun g => set_work (work g ++ [item]) g).

(** [self._log_message(message, is_error)] *)
Definition log_message (message : string) (is_error : bool) : G unit :=
  queue_put (engine_work (append_log message is_error)).

Definition perform (ev : sys_event) : G unit :=
  gmodify (fun g => set_performed (performed g ++ [ev]) g).

(** [thread = threading.Thread(...); thread.daemon = True; thread.start()] *)
Definition start_thread (t : thread_target) : G unit :=
  gmodify (fun g => set_threads (threads g ++ [t]) g).

(** [Dialog(...).run_async(callback)] *)
Definition present (d : presented) : G unit :=
  gmodify (fun g => set_dialogs (dialogs g ++ [d]) g).

(** [self.sftp_client.get(remote_path, local_temp_path)], without a
    callback. *)
Definition get_without_callback (env : Env) (remotepath localpath : string)
  : M unit :=
  _ <- the_sftp_client "get" ;;
  h <- gets issued ;;
  match snd (sftp_get env h remotepath localpath) with
  | Some e => record_event (SftpGet remotepath localpath) (Raised e) ;; raise e
  | None => record_event (SftpGet remotepath localpath) (Returned VNone)
  end.

(** [d[key] = value] on a dictionary kept in insertion order. *)
Fixpoint dict_set {V} (key : string) (value : V) (d : list (string * V))
  : list (string * V) :=
  match d with
  | [] => [(key, value)]
  | (k, v) :: d' =>
      if String.eqb k key then (k, value) :: d'
      else (k, v) :: dict_set key value d'
  end.

(** The monitor [monitor_file] makes is a new object: its number is the
    number of monitors made before it. *)
Definition monitors_made (h : list sys_event) : nat :=
  length (List.filter (fun ev => match ev with
                                 | MonitorFile _ (inl _) => true
                                 | _ => false
                                 end) h).

(** ** The methods of the widget *)

Section Widget.
Variable env : Env.
Variable desk : Desktop.
Local Open Scope gui_scope.

Definition the_engine {A} (f : widget -> A) : G A :=
  ggets (fun g => f (engine g)).

(** [self.sftp_client.attr] *)
Definition the_client (attr : string) : G SFTPClient :=
  client <- the_engine sftp_client ;;
  match client with
  | Some client => gret client
  | None =>
      graise (Exn AttributeError
                ("'NoneType' object has no attribute '" +:+ attr +:+ "'"))
  end.

(** *** [_load_local_directory] *)

(** The row of a local entry; [_format_date] and [int] take the float
    [st.st_mtime]. *)
Definition local_row (path filename : string) (st : LocalStat.t)
  : result row :=
  let mode := LocalStat.st_mode st in
  if S_ISDIR mode then
    match strftime_of_float desk (LocalStat.st_mtime st) with
    | Raise e => Raise e
    | Ok modified =>
        match int_of_float (LocalStat.st_mtime st) with
        | Raise e => Raise e
        | Ok ts =>
            Ok {| COL_ICON := "folder-symbolic";
                  COL_NAME := filename;
                  COL_SIZE_STR := "<DIR>";
                  COL_SIZE_BYTES := -1;
                  COL_PERMS_STR := stat_filemode env mode;
                  COL_PERMS_MODE := mode;
                  COL_MODIFIED_STR := modified;
                  COL_MODIFIED_TS := ts;
                  COL_IS_DIR := true;
                  COL_FULL_PATH := os_path_join path filename |}
        end
    end
  else
    match _format_size (str_round1 env) (LocalStat.st_size st) with
    | Raise e => Raise e
    | Ok size_str =>
        match strftime_of_float desk (LocalStat.st_mtime st) with
        | Raise e => Raise e
        | Ok modified =>
            match int_of_float (LocalStat.st_mtime st) with
            | Raise e => Raise e
            | Ok ts =>
                Ok {| COL_ICON := "document-symbolic";
                      COL_NAME := filename;
                      COL_SIZE_STR := size_str;
                      COL_SIZE_BYTES := LocalStat.st_size st;
                      COL_PERMS_STR := stat_filemode env mode;
                      COL_PERMS_MODE := mode;
                      COL_MODIFIED_STR := modified;
                      COL_MODIFIED_TS := ts;
                      COL_IS_DIR := false;
                      COL_FULL_PATH := os_path_join path filename |}
            end
        end
    end.

(** One entry of the listing: [except (OSError, PermissionError):
    continue]. *)
Definition load_local_entry (path filename : string) : G unit :=
  let full_path := os_path_join path filename in
  h <- ggets performed ;;
  let answer := os_stat desk h full_path in
  perform (Stat full_path answer) ;;
  match answer with
  | FsRaise _ => gret tt
  | FsOk st =>
      match local_row path filename st with
      | Ok r => gmodify (fun g => set_local_store (local_store g ++ [r]) g)
      | Raise e => if is_OSError e then gret tt else graise e
      end
  end.

Definition _load_local_directory (path : string) : G unit :=
  gmodify (set_local_store []) ;;
  gmodify (fun g => set_engine (set_current_local_path path (engine g)) g) ;;
  gmodify (set_local_path_entry path) ;;
  h <- ggets performed ;;
  let listing := os_listdir desk h path in
  perform (Listdir path listing) ;;
  match listing with
  | FsOk names => gfor_each names (load_local_entry path)
  | FsRaise (PermissionError t) | FsRaise (FileNotFoundError t) =>
      perform
        (LoggingError
           ("Error loading local directory '" +:+ path +:+ "': " +:+ t))
  | FsRaise (OtherOSError t) => graise (Exn OSError t)
  end.

(** *** Starting the listing and the connection *)

Definition _load_remote_directory_threaded (path : option string) : G unit :=
  client <- the_engine sftp_client ;;
  match client with
  | None => log_message "Error: SFTP client not connected." false
  | Some _ => start_thread (target_load_remote_directory path)
  end.

(** [str(x)] of an optional text. *)
Definition str_of_optional (o : option string) : string :=
  match o with Some s => s | None => "None" end.

Definition _start_sftp_worker_with_user
    (username_from_prompt key_passphrase auth_password : option string)
  : G unit :=
  host <- the_engine (fun w => cfg_host (host_config w)) ;;
  canceled <-
    match username_from_prompt, host with
    | Some _, _ => gret false
    | None, Some host_str => gret (negb (str_contains at_sign host_str))
    | None, None =>
        graise (Exn TypeError "argument of type 'NoneType' is not iterable")
    end ;;
  if (canceled : bool) then
    log_message "SFTP connection canceled (no username provided)." false
  else
    name <- the_engine (fun w => cfg_name (host_config w)) ;;
    log_message ("Connecting to " +:+ str_of_optional name +:+ "...") false ;;
    start_thread
      (target_sftp_connect_worker username_from_prompt key_passphrase
         auth_password).

Definition _connect_sftp : G unit :=
  if negb (IS_PARAMIKO_AVAILABLE desk) then
    log_message "SFTP is disabled. Please install 'paramiko'." true
  else
    host <- the_engine (fun w => cfg_host (host_config w)) ;;
    if negb (opt_truthy host) then
      log_message "Error: host is not set in the config." true
    else
      let host_str := default "" host in
      if negb (str_contains at_sign host_str) then
        present (username_dialog host_str)
      else _start_sftp_worker_with_user None None None.

(** The callbacks of the three dialogs of the connection: the user name
    asked by [_connect_sftp], and the passphrase and the password asked by
    a pass that was run with [username_from_prompt]. *)
Definition on_username_entered (username : option string) : G unit :=
  _start_sftp_worker_with_user username None None.

Definition on_passphrase_entered (username_from_prompt : option string)
    (passphrase : option string) : G unit :=
  _start_sftp_worker_with_user username_from_prompt passphrase None.

Definition on_password_entered (username_from_prompt : option string)
    (pwd : option string) : G unit :=
  match pwd with
  | Some _ => _start_sftp_worker_with_user username_from_prompt None pwd
  | None => log_message "Connection canceled." true
  end.

(** *** The transfer buttons *)

Definition on_upload_clicked (selected : list row) : G unit :=
  match selected with
  | [] => log_message "No local files selected for upload." true
  | _ =>
      gfor_each selected
        (fun r =>
           let local_path := COL_FULL_PATH r in
           let is_dir := COL_IS_DIR r in
           remote_dest_dir <- the_engine current_remote_path ;;
           log_message ("Queueing upload for: " +:+ local_path) false ;;
           start_thread (target_upload_worker local_path remote_dest_dir is_dir))
  end.

Definition on_download_clicked (selected : list row) : G unit :=
  match selected with
  | [] => log_message "No remote files selected for download." true
  | _ =>
      gfor_each selected
        (fun r =>
           let remote_path := COL_FULL_PATH r in
           let is_dir := COL_IS_DIR r in
           local_dest_dir <- the_engine current_local_path ;;
           log_message ("Queueing download for: " +:+ remote_path) false ;;
           start_thread
             (target_download_worker remote_path local_dest_dir is_dir))
  end.

(** *** Moving about *)

Definition on_local_up_clicked : G unit :=
  current <- the_engine current_local_path ;;
  let parent_path := os_path_dirname current in
  if negb (String.eqb parent_path current)
  then _load_local_directory parent_path
  else gret tt.

Definition on_local_path_activated (entry_text : string) : G unit :=
  let new_path := str_strip entry_text in
  h <- ggets performed ;;
  let is_dir := os_path_isdir desk h new_path in
  perform (Isdir new_path is_dir) ;;
  if is_dir then _load_local_directory new_path
  else
    current <- the_engine current_local_path ;;
    gmodify (set_local_path_entry current).

(** [Gio.File.new_for_path(path)] and the launch of [Gtk.FileLauncher]. *)
Definition launch_file (path : string) : G unit :=
  h <- ggets performed ;;
  let answer := launch desk h path in
  perform (Launch path answer) ;;
  match answer with
  | Some e => graise e
  | None => gret tt
  end.

Definition on_local_row_activated (activated : row) : G unit :=
  let is_dir := COL_IS_DIR activated in
  let full_path := COL_FULL_PATH activated in
  if is_dir then _load_local_directory full_path
  else
    gtry_except (launch_file full_path)
      (fun e =>
         log_message
           ("Failed to open local file " +:+ full_path +:+ ": " +:+ exn_str e)
           true).

Definition on_remote_up_clicked : G unit :=
  current <- the_engine current_remote_path ;;
  match current with
  | None => gret tt
  | Some current =>
      if negb (str_truthy current) then gret tt
      else
        let parent_path := os_path_dirname current in
        if negb (String.eqb parent_path current)
        then _load_remote_directory_threaded (Some parent_path)
        else gret tt
  end.

Definition on_remote_path_activated (entry_text : string) : G unit :=
  _load_remote_directory_threaded (Some (str_strip entry_text)).

Definition on_remote_row_activated (activated : row) : G unit :=
  let is_dir := COL_IS_DIR activated in
  let full_path := COL_FULL_PATH activated in
  if is_dir then _load_remote_directory_threaded (Some full_path)
  else
    log_message ("Opening remote file for editing: " +:+ full_path) false ;;
    start_thread (target_remote_edit_worker full_path).

Definition KEY_BackSpace : Z := 0xff08.

Definition on_local_view_key_pressed (keyval : Z) : G bool :=
  if keyval =? KEY_BackSpace then on_local_up_clicked ;; gret true
  else gret false.

Definition on_remote_view_key_pressed (keyval : Z) : G bool :=
  if keyval =? KEY_BackSpace then on_remote_up_clicked ;; gret true
  else gret false.

(** *** Editing a remote file *)

Definition _remote_edit_worker (remote_path : string) : G unit :=
  client <- the_engine sftp_client ;;
  match client with
  | None => gret tt
  | Some _ =>
      let basename := os_path_basename remote_path in
      tmp <- the_engine temp_dir ;;
      let local_temp_path := os_path_join tmp basename in
      gtry_except
        (log_message
           ("Downloading " +:+ basename +:+ " to temporary location...")
           false ;;
         engine_run (get_without_callback env remote_path local_temp_path) ;;
         queue_put (open_and_monitor local_temp_path remote_path basename))
        (fun e =>
           log_message
             ("Failed to download file for editing: " +:+ exn_str e) true)
  end.

(** [gfile.monitor_file(...)] and [monitor.connect("changed", ...)] *)
Definition make_monitor (path : string) : G nat :=
  h <- ggets performed ;;
  match monitor_file desk h path with
  | Some e => perform (MonitorFile path (inr e)) ;; graise e
  | None =>
      let monitor := monitors_made h in
      perform (MonitorFile path (inl monitor)) ;; gret monitor
  end.

(** The closure [open_and_monitor], run by the main loop. *)
Definition run_open_and_monitor (local_temp_path remote_path basename : string)
  : G unit :=
  gtry_except
    (launch_file local_temp_path ;;
     monitor <- make_monitor local_temp_path ;;
     gmodify
       (fun g =>
          set_engine
            (set_file_monitors
               (dict_set local_temp_path (monitor, remote_path)
                  (file_monitors (engine g)))
               (engine g)) g) ;;
     log_message ("Now monitoring " +:+ basename +:+ " for changes.") false)
    (fun e =>
       log_message
         ("Failed to open or monitor temporary file: " +:+ exn_str e) true).

Definition on_temp_file_changed (event_type : FileMonitorEvent)
    (local_path remote_path : string) : G unit :=
  match event_type with
  | CHANGES_DONE_HINT =>
      log_message
        ("Detected changes in " +:+ os_path_basename local_path
           +:+ ". Uploading back to server...") false ;;
      start_thread
        (target_upload_worker local_path (Some (os_path_dirname remote_path))
           false)
  | _ => gret tt
  end.

(** *** [_process_ui_queue] *)

(** [value >= upper - page_size - 5] on floats. *)
Definition is_at_bottom (value upper page_size : spec_float) : bool :=
  let limit :=
    SFsub 53 1024 (SFsub 53 1024 upper page_size) (binary64_of_int 5) in
  match SFcompare value limit with
  | Some Eq | Some Gt => true
  | _ => false
  end.

(** The closure [append_log] of [_log_message]. *)
Definition run_append_log (message : string) : G unit :=
  h <- ggets performed ;;
  let '(value, upper, page_size) := scroll_adjustment desk h in
  perform (ScrollAdjustment value upper page_size) ;;
  h <- ggets performed ;;
  let timestamp := now_strftime desk h in
  perform (Now timestamp) ;;
  let log_line :=
    "[" +:+ timestamp +:+ "] " +:+ message +:+ String "010"%char "" in
  gmodify (fun g => set_log_buffer (log_buffer g +:+ log_line) g) ;;
  if is_at_bottom value upper page_size then perform IdleAddDoScroll
  else gret tt.

(** The closure [update_ui] of [_load_remote_directory]. *)
Definition run_update_ui (rows_to_add : list row) (path : string) : G unit :=
  gmodify (set_remote_store []) ;;
  gfor_each rows_to_add
    (fun r => gmodify (fun g => set_remote_store (remote_store g ++ [r]) g)) ;;
  gmodify
    (fun g => set_engine (set_current_remote_path (Some path) (engine g)) g) ;;
  gmodify (set_remote_path_entry path) ;;
  gmodify (set_remote_sort_column (Some (1, true))).  (* COL_NAME, ascending *)

Definition run_callback (callback : queued) : G unit :=
  match callback with
  | engine_work (append_log message _) => run_append_log message
  | engine_work (update_ui rows_to_add path) => run_update_ui rows_to_add path
  | engine_work set_buttons_sensitive =>
      gmodify (set_button_box_sensitive true)
  | engine_work refresh_remote_view =>
      current <- the_engine current_remote_path ;;
      _load_remote_directory_threaded current
  | engine_work refresh_local_view =>
      current <- the_engine current_local_path ;;
      _load_local_directory current
  | open_and_monitor local_temp_path remote_path basename =>
      run_open_and_monitor local_temp_path remote_path basename
  end.

(** The closures that the worker threads have put in the meantime reach
    the queue, behind those that wait there. *)
Definition absorb_thread_puts : G unit :=
  h <- ggets performed ;;
  let items := thread_puts desk h in
  perform (ThreadsPut items) ;;
  gmodify (fun g => set_work (work g ++ items) g).

(** [while not self.ui_queue.empty(): ...; return True]. The worker
    threads go on putting closures while the loop runs: each test of
    [empty()] sees what they have put until then. [fuel] bounds the number
    of closures run. *)
Fixpoint _process_ui_queue (fuel : nat) : G bool :=
  absorb_thread_puts ;;
  q <- ggets work ;;
  match q with
  | [] => gret true
  | callback :: rest =>
      match fuel with
      | O => gout_of_fuel
      | S fuel' =>
          gmodify (set_work rest) ;;
          run_callback callback ;;
          _process_ui_queue fuel'
      end
  end.

(** *** The context menu *)

(** [self.last_clicked_view]; the attribute is set by the first click with
    the right button. *)
Definition the_last_clicked_view : G view :=
  v <- ggets last_clicked_view ;;
  match v with
  | Some v => gret v
  | None =>
      graise (Exn AttributeError
                "'SftpWidget' object has no attribute 'last_clicked_view'")
  end.

Definition on_rename_activated (selected : option row) : G unit :=
  _ <- the_last_clicked_view ;;
  match selected with
  | None => gret tt
  | Some r =>
      present (rename_dialog (COL_FULL_PATH r) (COL_NAME r))
  end.

Definition _execute_rename (old_path : string) (new_name : option string)
  : G unit :=
  if negb (opt_truthy new_name)
     || String.eqb (os_path_basename old_path) (default "" new_name)
  then gret tt
  else
    let new_name := default "" new_name in
    let new_path := os_path_join (os_path_dirname old_path) new_name in
    v <- the_last_clicked_view ;;
    let is_local := view_eqb v local_view in
    start_thread (target_rename_task old_path new_path new_name is_local).

Definition rename_task (old_path new_path new_name : string)
    (is_local : bool) : G unit :=
  gtry_except
    ((if is_local then
        h <- ggets performed ;;
        let answer := os_rename desk h old_path new_path in
        perform (OsRename old_path new_path answer) ;;
        match answer with
        | Some e => graise e
        | None => queue_put (engine_work refresh_local_view)
        end
      else
        _ <- the_client "rename" ;;
        h <- ggets performed ;;
        let answer := sftp_rename desk h old_path new_path in
        perform (SftpRename old_path new_path answer) ;;
        match answer with
        | Some e => graise e
        | None => queue_put (engine_work refresh_remote_view)
        end) ;;
     log_message
       ("Renamed '" +:+ os_path_basename old_path +:+ "' to '" +:+ new_name
          +:+ "'") false)
    (fun e => log_message ("Rename failed: " +:+ exn_str e) true).

Definition on_transfer_activated (selected : list row) : G unit :=
  v <- the_last_clicked_view ;;
  if view_eqb v local_view then on_upload_clicked selected
  else on_download_clicked selected.

Definition on_chmod_activated (selected : option row) : G unit :=
  _ <- the_last_clicked_view ;;
  match selected with
  | None => gret tt
  | Some r =>
      present (permissions_dialog (COL_FULL_PATH r) (COL_PERMS_MODE r))
  end.

Definition _execute_chmod (path : string) (new_mode : option Z) : G unit :=
  match new_mode with
  | None => gret tt
  | Some new_mode =>
      v <- the_last_clicked_view ;;
      let is_local := view_eqb v local_view in
      start_thread (target_chmod_task path new_mode is_local)
  end.

(** [oct(new_mode)[2:]] *)
Definition oct_without_prefix (new_mode : Z) : string :=
  let text := oct new_mode in
  substring 2 (String.length text - 2) text.

Definition chmod_task (path : string) (new_mode : Z) (is_local : bool)
  : G unit :=
  gtry_except
    ((if is_local then
        h <- ggets performed ;;
        let answer := os_chmod desk h path new_mode in
        perform (OsChmod path new_mode answer) ;;
        match answer with
        | Some e => graise e
        | None => queue_put (engine_work refresh_local_view)
        end
      else
        _ <- the_client "chmod" ;;
        h <- ggets performed ;;
        let answer := sftp_chmod desk h path new_mode in
        perform (SftpChmod path new_mode answer) ;;
        match answer with
        | Some e => graise e
        | None => queue_put (engine_work refresh_remote_view)
        end) ;;
     log_message
       ("Permissions changed for " +:+ path +:+ " to "
          +:+ oct_without_prefix new_mode) false)
    (fun e =>
       log_message
         ("Failed to change permissions for " +:+ path +:+ ": " +:+ exn_str e)
         true).

(** [Gtk.ResponseType]: the members of the enumeration and their values.
    [DESTRUCTIVE] is not one of them. *)
Inductive ResponseType :=
| NONE | REJECT | ACCEPT | DELETE_EVENT | OK | CANCEL | CLOSE | YES | NO
| APPLY | HELP.

Definition ResponseType_value (r : ResponseType) : Z :=
  match r with
  | NONE => -1
  | REJECT => -2
  | ACCEPT => -3
  | DELETE_EVENT => -4
  | OK => -5
  | CANCEL => -6
  | CLOSE => -7
  | YES => -8
  | NO => -9
  | APPLY => -10
  | HELP => -11
  end.

Definition ResponseType_members : list (string * ResponseType) :=
  [("NONE", NONE); ("REJECT", REJECT); ("ACCEPT", ACCEPT);
   ("DELETE_EVENT", DELETE_EVENT); ("OK", OK); ("CANCEL", CANCEL);
   ("CLOSE", CLOSE); ("YES", YES); ("NO", NO); ("APPLY", APPLY);
   ("HELP", HELP)].

(** [Gtk.ResponseType.<name>]: an [AttributeError] for a name that is not
    a member. *)
Definition Gtk_ResponseType (name : string) : G ResponseType :=
  match List.find (fun m => String.eqb (fst m) name) ResponseType_members with
  | Some m => gret (snd m)
  | None =>
      graise (Exn AttributeError (attribute_error_text desk "ResponseType" name))
  end.

Definition on_delete_activated (selected : option row) : G unit :=
  v <- the_last_clicked_view ;;
  match selected with
  | None => gret tt
  | Some r =>
      let full_path := COL_FULL_PATH r in
      let is_dir := COL_IS_DIR r in
      let is_local := view_eqb v local_view in
      is_empty_dir <-
        (if is_dir && is_local then
           h <- ggets performed ;;
           let listing := os_listdir desk h full_path in
           perform (Listdir full_path listing) ;;
           match listing with
           | FsOk [] => gret true
           | _ => gret false
           end
         else gret false) ;;
      let name := os_path_basename full_path in
      let '(heading, body) :=
        if is_dir && negb is_empty_dir then
          ("Delete non-empty directory '" +:+ name +:+ "'?",
           "This will recursively delete all its contents."
             +:+ String "010"%char "This action cannot be undone.")
        else
          ("Delete '" +:+ name +:+ "'?", "This action cannot be undone.") in
      (* buttons=[(_("Cancel"), Gtk.ResponseType.CANCEL),
                  (_("Delete"), Gtk.ResponseType.DESTRUCTIVE)] *)
      _ <- Gtk_ResponseType "CANCEL" ;;
      _ <- Gtk_ResponseType "DESTRUCTIVE" ;;
      present (delete_dialog heading body full_path is_dir is_local)
  end.

Definition _execute_delete (full_path : string) (is_dir is_local : bool)
  : G unit :=
  start_thread (target_delete_task full_path is_dir is_local).

(** [on_response] of the delete dialog; [response_id] is the integer that
    the dialog hands back. *)
Definition on_delete_response (response_id : Z)
    (full_path : string) (is_dir is_local : bool) : G unit :=
  destructive <- Gtk_ResponseType "DESTRUCTIVE" ;;
  if response_id =? ResponseType_value destructive
  then _execute_delete full_path is_dir is_local
  else gret tt.

End Widget.

(** ** Scenarios of the widget *)

(** A desktop on which every call succeeds, directories are empty,
    nothing can be examined, and the worker threads put nothing on the UI
    queue. *)
Definition calm_desk : Desktop :=
  {| IS_PARAMIKO_AVAILABLE := true;
     os_listdir := fun _ _ => FsOk [];
     os_stat := fun _ _ => FsRaise (FileNotFoundError "No such file or directory");
     os_path_isdir := fun _ _ => true;
     os_rename := fun _ _ _ => None;
     os_chmod := fun _ _ _ => None;
     sftp_rename := fun _ _ _ => None;
     sftp_chmod := fun _ _ _ => None;
     launch := fun _ _ => None;
     monitor_file := fun _ _ => None;
     scroll_adjustment :=
       fun _ => (S754_zero false, S754_zero false, S754_zero false);
     now_strftime := fun _ => "12:00:00";
     strftime_of_float := fun _ => Ok "1970-01-01 00:00";
     thread_puts := fun _ => [];
     attribute_error_text :=
       fun cls attr =>
         "type object '" +:+ cls +:+ "' has no attribute '" +:+ attr +:+ "'" |}.

(** The widget around an engine, before anything happened. *)
Definition gui_of (w : widget) : gui :=
  {| engine := w;
     work := [];
     local_store := [];
     remote_store := [];
     local_path_entry := current_local_path w;
     remote_path_entry := "";
     remote_sort_column := Some (1, true);
     button_box_sensitive := false;
     log_buffer := "";
     last_clicked_view := None;
     threads := [];
     dialogs := [];
     performed := [] |}.

(** The same after a click with the right button in a view. *)
Definition clicked (v : view) (g : gui) : gui :=
  set_last_clicked_view (Some v) g.

(** A host entry without a user in [host]. *)
Definition bare_widget : widget :=
  {| host_config := {| cfg_name := Some "box"; cfg_host := Some "h";
                       cfg_port := None; cfg_key_path := None |};
     secret_service := empty;
     ssh_client := None;
     sftp_client := None;
     current_local_path := "/home/me";
     current_remote_path := None;
     temp_dir := "/tmp/thongssh_sftp_k3";
     file_monitors := [];
     ui_queue := [];
     issued := [] |}.

(** The desktop with another answer of [os.listdir]. *)
Definition with_local_listdir (f : string -> fs_result (list string))
    (desk : Desktop) : Desktop :=
  {| IS_PARAMIKO_AVAILABLE := IS_PARAMIKO_AVAILABLE desk;
     os_listdir := fun _ => f;
     os_stat := os_stat desk;
     os_path_isdir := os_path_isdir desk;
     os_rename := os_rename desk;
     os_chmod := os_chmod desk;
     sftp_rename := sftp_rename desk;
     sftp_chmod := sftp_chmod desk;
     launch := launch desk;
     monitor_file := monitor_file desk;
     scroll_adjustment := scroll_adjustment desk;
     now_strftime := now_strftime desk;
     strftime_of_float := strftime_of_float desk;
     thread_puts := thread_puts desk;
     attribute_error_text := attribute_error_text desk |}.

(** The desktop with another answer of [os.stat]. *)
Definition with_local_stat (f : string -> fs_result LocalStat.t)
    (desk : Desktop) : Desktop :=
  {| IS_PARAMIKO_AVAILABLE := IS_PARAMIKO_AVAILABLE desk;
     os_listdir := os_listdir desk;
     os_stat := fun _ => f;
     os_path_isdir := os_path_isdir desk;
     os_rename := os_rename desk;
     os_chmod := os_chmod desk;
     sftp_rename := sftp_rename desk;
     sftp_chmod := sftp_chmod desk;
     launch := launch desk;
     monitor_file := monitor_file desk;
     scroll_adjustment := scroll_adjustment desk;
     now_strftime := now_strftime desk;
     strftime_of_float := strftime_of_float desk;
     thread_puts := thread_puts desk;
     attribute_error_text := attribute_error_text desk |}.

(** A home directory that may not be listed. *)
Definition locked_desk : Desktop :=
  with_local_listdir
    (fun _ => FsRaise (PermissionError "[Errno 13] Permission denied"))
    calm_desk.

(** A home directory of two entries, the second of which is gone by the
    time it is examined. *)
Definition home_desk : Desktop :=
  with_local_stat
    (fun path =>
       if String.eqb path "/home/me/a.txt"
       then FsOk {| LocalStat.st_mode := 0x81A4; LocalStat.st_size := 3;
                    LocalStat.st_mtime := S754_zero false |}
       else FsRaise (FileNotFoundError "[Errno 2] No such file or directory"))
    (with_local_listdir (fun _ => FsOk ["a.txt"; "gone"]) calm_desk).

(** A listing of two files around a directory. *)
Definition docs_listing : list SFTPAttributes :=
  [{| filename := "z.txt"; st_size := 4; st_mode := 0x81A4; st_mtime := 0 |};
   {| filename := "sub"; st_size := 0; st_mode := 0x41ED; st_mtime := 0 |};
   {| filename := "a.txt"; st_size := 3; st_mode := 0x81A4; st_mtime := 0 |}].

(** A server on which [/home/user/docs] lists them. *)
Definition mixed_env : Env :=
  with_listdir
    (fun path =>
       if String.eqb path "/home/user/docs"
       then Ok docs_listing
       else Ok [])
    calm_env.

(** The rows of that listing: the directory first, then the files by
    name. *)
Definition mixed_rows : list row :=
  [{| COL_ICON := "folder-symbolic";
      COL_NAME := "sub";
      COL_SIZE_STR := "<DIR>";
      COL_SIZE_BYTES := -1;
      COL_PERMS_STR := "-rw-r--r--";
      COL_PERMS_MODE := 16877;
      COL_MODIFIED_STR := "1970-01-01 00:00";
      COL_MODIFIED_TS := 0;
      COL_IS_DIR := true;
      COL_FULL_PATH := "/home/user/docs/sub" |};
   {| COL_ICON := "document-symbolic";
      COL_NAME := "a.txt";
      COL_SIZE_STR := "1.0 B";
      COL_SIZE_BYTES := 3;
      COL_PERMS_STR := "-rw-r--r--";
      COL_PERMS_MODE := 33188;
      COL_MODIFIED_STR := "1970-01-01 00:00";
      COL_MODIFIED_TS := 0;
      COL_IS_DIR := false;
      COL_FULL_PATH := "/home/user/docs/a.txt" |};
   {| COL_ICON := "document-symbolic";
      COL_NAME := "z.txt";
      COL_SIZE_STR := "1.0 B";
      COL_SIZE_BYTES := 4;
      COL_PERMS_STR := "-rw-r--r--";
      COL_PERMS_MODE := 33188;
      COL_MODIFIED_STR := "1970-01-01 00:00";
      COL_MODIFIED_TS := 0;
      COL_IS_DIR := false;
      COL_FULL_PATH := "/home/user/docs/z.txt" |}].

(** A directory of the local panel. *)
Definition local_directory : row :=
  {| COL_ICON := "folder-symbolic";
     COL_NAME := "old";
     COL_SIZE_STR := "<DIR>";
     COL_SIZE_BYTES := -1;
     COL_PERMS_STR := "drwxr-xr-x";
     COL_PERMS_MODE := 0x41ED;
     COL_MODIFIED_STR := "1970-01-01 00:00";
     COL_MODIFIED_TS := 0;
     COL_IS_DIR := true;
     COL_FULL_PATH := "/home/me/old" |}.

(** * Properties *)

(** ** [_format_size]: the range of the unit index *)

Lemma bit_length_nonneg (n : Z) : 0 <= bit_length n.
Proof.
  unfold bit_length. destruct (n =? 0); [lia|].
  pose proof (Z.log2_nonneg (Z.abs n)). lia.
Qed.

Lemma bit_length_le (n k : Z) : 0 < k -> 0 <= n < 2 ^ k -> bit_length n <= k.
Proof.
  intros Hk [Hn Hlt]. unfold bit_length.
  destruct (Z.eqb_spec n 0) as [->|Hne]; [lia|].
  rewrite Z.abs_eq by lia.
  assert (Z.log2 n < k) by (apply Z.log2_lt_pow2; lia). lia.
Qed.

Lemma bit_length_gt (n k : Z) : 0 <= k -> 2 ^ k <= n -> k < bit_length n.
Proof.
  intros Hk Hle. unfold bit_length.
  assert (0 < 2 ^ k) by (apply Z.pow_pos_nonneg; lia).
  destruct (Z.eqb_spec n 0) as [->|Hne]; [lia|].
  rewrite Z.abs_eq by lia.
  assert (k <= Z.log2 n) by (apply Z.log2_le_pow2; lia). lia.
Qed.

Lemma size_name_lookup (i : Z) :
  0 <= i <= 4 -> exists unit_name, size_name !! Z.to_nat i = Some unit_name.
Proof.
  intros Hi.
  assert (i = 0 \/ i = 1 \/ i = 2 \/ i = 3 \/ i = 4) as C by lia.
  destruct C as [->|[->|[->|[->| ->]]]]; eexists; reflexivity.
Qed.

(** C9 (as amended). The unit index of a size below [2^49] is at most 4 and
    [_format_size] returns a string; from [2^49] on the index is at least 5,
    past the end of the five unit names, and [_format_size] raises
    [IndexError]. *)
Theorem format_size_unit_index_range (rnd : Z -> Z -> string) (s : Z) :
  0 <= s ->
  (s < 2 ^ 49 ->
     0 <= size_unit_index s <= 4 /\ exists text, _format_size rnd s = Ok text)
  /\ (2 ^ 49 <= s ->
     5 <= size_unit_index s
     /\ _format_size rnd s = Raise (Exn IndexError "tuple index out of range")).
Proof.
  intros Hs. split.
  - intros Hlt.
    assert (Hi : 0 <= size_unit_index s <= 4).
    { unfold size_unit_index.
      pose proof (bit_length_nonneg s).
      pose proof (bit_length_le s 49 ltac:(lia) ltac:(lia)).
      split; [apply Z.div_pos; lia|].
      apply Z.lt_succ_r. apply Z.div_lt_upper_bound; lia. }
    split; [exact Hi|].
    unfold _format_size. destruct (s =? 0); [eexists; reflexivity|].
    destruct (size_name_lookup _ Hi) as [u ->]. eexists; reflexivity.
  - intros Hge.
    assert (Hi : 5 <= size_unit_index s).
    { unfold size_unit_index.
      pose proof (bit_length_gt s 49 ltac:(lia) Hge).
      apply Z.div_le_lower_bound; lia. }
    split; [exact Hi|].
    unfold _format_size.
    destruct (Z.eqb_spec s 0) as [->|_]; [lia|].
    rewrite (proj2 (lookup_ge_None size_name (Z.to_nat (size_unit_index s))));
      [reflexivity|].
    simpl. lia.
Qed.

Lemma format_size_unit_index_range_witness :
  0 <= size_unit_index 1536 <= 4
  /\ exists text, _format_size (fun _ _ => "1.5") 1536 = Ok text.
Proof.
  apply (format_size_unit_index_range (fun _ _ => "1.5") 1536); lia.
Defined.

(** A size of 512 TiB is below [2^50], yet its unit index is 5 and
    [_format_size] raises. *)
Lemma format_size_fails_below_2_50 :
  ~ (forall (rnd : Z -> Z -> string) (s : Z),
       0 <= s < 2 ^ 50 ->
       size_unit_index s <= 4 /\ exists text, _format_size rnd s = Ok text).
Proof.
  intros H.
  destruct (H (fun _ _ => "512.0") (2 ^ 49) ltac:(lia)) as [Hi _].
  vm_compute in Hi. apply Hi. reflexivity.
Qed.

(** ** The progress callback *)

(** Each forwarded percentage is at least 10 above the one before it;
    [prev] is the value of [last_percent] the sequence starts from. *)
Fixpoint steps_of_10 (prev : Z) (percents : list Z) : Prop :=
  match percents with
  | [] => True
  | p :: rest => prev + 10 <= p /\ steps_of_10 p rest
  end.

(** The closure after a sequence of reports, where none raised. *)
Fixpoint callback_after (cb : progress_callback) (calls : list Z)
  : progress_callback :=
  match calls with
  | [] => cb
  | b :: rest =>
      match progress cb b with
      | Ok (cb', _) => callback_after cb' rest
      | Raise _ => cb
      end
  end.

Lemma progress_total_size (cb cb' : progress_callback) (b : Z) (fw : option Z) :
  progress cb b = Ok (cb', fw) -> pc_total_size cb' = pc_total_size cb.
Proof.
  unfold progress. destruct (pc_total_size cb =? 0); [congruence|].
  destruct (percent_of _ _); [|discriminate].
  destruct (_ <=? _); intros [= <- _]; reflexivity.
Qed.

Lemma progress_forward (cb cb' : progress_callback) (b : Z) (fw : option Z) :
  progress cb b = Ok (cb', fw) ->
  match fw with
  | Some p => last_percent cb + 10 <= p /\ last_percent cb' = p
  | None => cb' = cb
  end.
Proof.
  unfold progress. destruct (pc_total_size cb =? 0); [intros [= <- <-]; reflexivity|].
  destruct (percent_of _ _) as [p|]; [|discriminate].
  destruct (Z.leb_spec (last_percent cb + 10) p); intros [= <- <-]; simpl; auto.
Qed.

Lemma run_progress_steps (calls : list Z) (cb : progress_callback) :
  steps_of_10 (last_percent cb) (fst (run_progress cb calls)).
Proof.
  revert cb. induction calls as [|b rest IH]; intros cb; simpl; [exact I|].
  destruct (progress cb b) as [[cb' fw]|e] eqn:E; simpl; [|exact I].
  specialize (IH cb'). destruct (run_progress cb' rest) as [out r]; simpl in *.
  apply progress_forward in E. destruct fw as [p|].
  - destruct E as [Hp Hl]. simpl. rewrite Hl in IH. auto.
  - subst cb'. exact IH.
Qed.

Lemma run_progress_zero (calls : list Z) (cb : progress_callback) :
  pc_total_size cb = 0 -> run_progress cb calls = ([], None).
Proof.
  intros Hz. induction calls as [|b rest IH]; simpl; [reflexivity|].
  unfold progress. rewrite Hz. simpl. rewrite IH. reflexivity.
Qed.

(** The last forwarded percentage is the closure's [last_percent]. *)
Lemma run_progress_last (calls : list Z) (cb : progress_callback) :
  snd (run_progress cb calls) = None ->
  last_percent (callback_after cb calls)
  = default (last_percent cb) (last (fst (run_progress cb calls))).
Proof.
  revert cb. induction calls as [|b rest IH]; intros cb; simpl; [reflexivity|].
  destruct (progress cb b) as [[cb' fw]|e] eqn:E; simpl; [|discriminate].
  specialize (IH cb'). destruct (run_progress cb' rest) as [out r]; simpl in *.
  intros Hr. rewrite (IH Hr). apply progress_forward in E.
  destruct fw as [p|].
  - destruct E as [_ Hl]. rewrite Hl. destruct out as [|q out]; [reflexivity|].
    rewrite last_cons_cons. destruct (last (q :: out)) eqn:EL; [reflexivity|].
    apply last_None in EL. discriminate.
  - subst cb'. reflexivity.
Qed.

Lemma run_progress_app (l1 l2 : list Z) (cb : progress_callback) :
  snd (run_progress cb l1) = None ->
  run_progress cb (l1 ++ l2)
  = ((fst (run_progress cb l1) ++ fst (run_progress (callback_after cb l1) l2))%list,
     snd (run_progress (callback_after cb l1) l2)).
Proof.
  revert cb. induction l1 as [|b rest IH]; intros cb; simpl.
  - intros _. destruct (run_progress cb l2); reflexivity.
  - destruct (progress cb b) as [[cb' fw]|e] eqn:E; simpl; [|discriminate].
    specialize (IH cb'). destruct (run_progress cb' rest) as [out r]; simpl in *.
    intros Hr. rewrite (IH Hr). destruct fw; reflexivity.
Qed.

Lemma run_progress_app_no_exn (l1 l2 : list Z) (cb : progress_callback) :
  snd (run_progress cb (l1 ++ l2)) = None -> snd (run_progress cb l1) = None.
Proof.
  revert cb. induction l1 as [|b rest IH]; intros cb; simpl; [reflexivity|].
  destruct (progress cb b) as [[cb' fw]|e] eqn:E; simpl; [|discriminate].
  specialize (IH cb'). destruct (run_progress cb' (rest ++ l2)) as [out r].
  destruct (run_progress cb' rest) as [out' r']. simpl in *. exact IH.
Qed.

Lemma callback_after_total_size (calls : list Z) (cb : progress_callback) :
  pc_total_size (callback_after cb calls) = pc_total_size cb.
Proof.
  revert cb. induction calls as [|b rest IH]; intros cb; simpl; [reflexivity|].
  destruct (progress cb b) as [[cb' fw]|e] eqn:E; [|reflexivity].
  rewrite IH. eapply progress_total_size; eauto.
Qed.

(** The quotient of a positive integer by itself is the float [1.0]. *)
Lemma float_truediv_self (m : positive) :
  float_truediv (Zpos m) (Zpos m) = S754_finite false 4503599627370496 (-52).
Proof.
  unfold float_truediv, binary64_of_int, SFdiv, SFdiv_core_binary.
  replace (Zdigits2 (Z.pos m) + 0 - (Zdigits2 (Z.pos m) + 0)) with 0 by lia.
  change (Z.min (fexp 53 1024 0) (0 - 0)) with (-53).
  change (0 - 0 - -53) with 53.
  cbv beta iota zeta.
  rewrite Z.shiftl_mul_pow2 by lia.
  assert (H : Z.div_eucl (Z.pos m * 2 ^ 53) (Z.pos m) = (2 ^ 53, 0)).
  { pose proof (Z.div_eucl_eq (Z.pos m * 2 ^ 53) (Z.pos m) ltac:(lia)) as E.
    pose proof (Z.mod_pos_bound (Z.pos m * 2 ^ 53) (Z.pos m) ltac:(lia)) as B.
    unfold Z.modulo in B.
    destruct (Z.div_eucl (Z.pos m * 2 ^ 53) (Z.pos m)) as [q r].
    assert (r = 0 /\ q = 2 ^ 53) as [-> ->]; [|reflexivity].
    assert (Z.pos m * (2 ^ 53 - q) = r) by lia.
    assert (2 ^ 53 - q = 0 \/ 2 ^ 53 - q >= 1 \/ 2 ^ 53 - q <= -1)
      as [?|[?|?]] by lia; nia. }
  rewrite H.
  assert (L : new_location (Z.pos m) 0 = loc_Exact).
  { unfold new_location. destruct (Z.even (Z.pos m)); reflexivity. }
  rewrite L. vm_compute. reflexivity.
Qed.

Lemma percent_of_full (S : Z) : 0 < S -> percent_of S S = Ok 100.
Proof.
  intros HS. destruct S as [|m|m]; try lia.
  unfold percent_of. rewrite float_truediv_self. vm_compute. reflexivity.
Qed.

(** C5 (as amended). For a transfer of [S > 0] bytes the forwarded
    percentages start at 9 or above and rise by at least 10 at each step;
    when the transport's last report is the full size [S] and the callback
    raised nothing, the last forwarded percentage is above 90: it is 100,
    or it is the value above 90 that was forwarded before the last report.
    For [S = 0] nothing is forwarded. *)
Theorem progress_forwarding (name : string) (S : Z) (calls : list Z) :
  0 <= S ->
  steps_of_10 (-1) (forwarded name S calls)
  /\ (S = 0 -> forwarded name S calls = [])
  /\ (0 < S ->
      forall earlier,
        calls = (earlier ++ [S])%list ->
        snd (run_progress (_make_progress_callback name S) calls) = None ->
        exists p,
          last (forwarded name S calls) = Some p
          /\ 90 < p
          /\ (p = 100 \/ last (forwarded name S earlier) = Some p)).
Proof.
  intros HS. unfold forwarded. split; [|split].
  - apply (run_progress_steps calls (_make_progress_callback name S)).
  - intros ->. rewrite run_progress_zero; reflexivity.
  - intros Hpos earlier -> Hno.
    set (cb0 := _make_progress_callback name S) in *.
    pose proof (run_progress_app_no_exn _ _ _ Hno) as Hno1.
    rewrite (run_progress_app _ _ _ Hno1) in *. simpl fst in *. simpl snd in *.
    pose proof (run_progress_last earlier cb0 Hno1) as Hlast.
    pose proof (callback_after_total_size earlier cb0) as Hsz.
    pose proof (run_progress_steps earlier cb0) as Hsteps.
    set (cb1 := callback_after cb0 earlier) in *.
    change (pc_total_size cb0) with S in Hsz.
    simpl run_progress. unfold progress. rewrite Hsz.
    destruct (Z.eqb_spec S 0) as [->|_]; [lia|].
    rewrite (percent_of_full S Hpos).
    destruct (Z.leb_spec (last_percent cb1 + 10) 100) as [Hle|Hgt]; simpl.
    + exists 100. rewrite last_snoc. split; [reflexivity|]. split; [lia|]. now left.
    + rewrite app_nil_r. rewrite Hlast in Hgt.
      destruct (last (fst (run_progress cb0 earlier))) as [p|] eqn:El; simpl in Hgt.
      * exists p. split; [reflexivity|]. split; [lia|]. now right.
      * change (last_percent cb0) with (-1) in Hgt. lia.
Qed.

Lemma progress_forwarding_witness :
  exists p,
    last (forwarded "a.bin" 200 [50; 150; 200]) = Some p
    /\ 90 < p
    /\ (p = 100 \/ last (forwarded "a.bin" 200 [50; 150]) = Some p).
Proof.
  apply (proj2 (proj2 (progress_forwarding "a.bin" 200 [50; 150; 200]
                         ltac:(lia))) ltac:(lia) [50; 150]);
    vm_compute; reflexivity.
Defined.

(** A transfer of 327681 bytes reported in chunks of 32768 bytes forwards
    9, 19, ..., 99: the last report, all 327681 bytes, is 100 percent and is
    not forwarded. *)
Lemma progress_final_not_100 :
  let calls := chunk_reports 11 32768 0 327681 in
  last calls = Some 327681
  /\ forwarded "big.bin" 327681 calls = [9; 19; 29; 39; 49; 59; 69; 79; 89; 99]
  /\ last (forwarded "big.bin" 327681 calls) <> Some 100.
Proof.
  vm_compute. repeat split; congruence.
Qed.

(** ** Reasoning about the calls and the queue of a method

    [emits m Q]: from a widget with an SFTP client, [m] keeps the client,
    and what it adds to the record of issued calls ([new]) and to the UI
    queue ([put]) satisfies [Q] together with its completion. *)
Definition effect_spec (A : Type) : Type :=
  completion A -> list event -> list ui_work -> Prop.

Definition emits {A} (m : M A) (Q : effect_spec A) : Prop :=
  forall w, is_Some (sftp_client w) ->
    is_Some (sftp_client (snd (m w)))
    /\ exists new put,
         issued (snd (m w)) = (issued w ++ new)%list
         /\ ui_queue (snd (m w)) = (ui_queue w ++ put)%list
         /\ Q (fst (m w)) new put.

Lemma emits_conseq {A} (m : M A) (Q Q' : effect_spec A) :
  emits m Q -> (forall r n p, Q r n p -> Q' r n p) -> emits m Q'.
Proof.
  intros Hm HQ w Hw. destruct (Hm w Hw) as (Hc & n & p & Hi & Hu & Hq).
  split; [exact Hc|]. exists n, p. auto.
Qed.

Lemma emits_ret {A} (a : A) (Q : effect_spec A) :
  Q (Returns a) [] [] -> emits (ret a) Q.
Proof.
  intros HQ w Hw. simpl. split; [exact Hw|].
  exists [], []. rewrite !app_nil_r. auto.
Qed.


Lemma emits_out_of_fuel {A} (Q : effect_spec A) :
  Q OutOfFuel [] [] -> emits out_of_fuel Q.
Proof.
  intros HQ w Hw. simpl. split; [exact Hw|].
  exists [], []. rewrite !app_nil_r. auto.
Qed.

Lemma emits_bind {A B} (m : M A) (k : A -> M B)
    (Q1 : effect_spec A) (Q : effect_spec B) :
  emits m Q1 ->
  (forall a n1 p1, Q1 (Returns a) n1 p1 ->
     emits (k a) (fun r n2 p2 => Q r (n1 ++ n2)%list (p1 ++ p2)%list)) ->
  (forall e n p, Q1 (Throws e) n p -> Q (Throws e) n p) ->
  (forall n p, Q1 OutOfFuel n p -> Q OutOfFuel n p) ->
  emits (bind m k) Q.
Proof.
  intros Hm Hk He Hf w Hw. unfold bind.
  destruct (Hm w Hw) as (Hc & n1 & p1 & Hi & Hu & Hq).
  destruct (m w) as [[a|e|] w1]; simpl in *.
  - destruct (Hk a n1 p1 Hq w1 Hc) as (Hc2 & n2 & p2 & Hi2 & Hu2 & Hq2).
    split; [exact Hc2|]. exists (n1 ++ n2)%list, (p1 ++ p2)%list.
    rewrite Hi2, Hu2, Hi, Hu, !app_assoc. auto.
  - split; [exact Hc|]. exists n1, p1. auto.
  - split; [exact Hc|]. exists n1, p1. auto.
Qed.


Lemma emits_log (message : string) (is_error : bool) (Q : effect_spec unit) :
  Q (Returns tt) [] [append_log message is_error] ->
  emits (_log_message message is_error) Q.
Proof.
  intros HQ w Hw. simpl. split; [exact Hw|].
  exists [], [append_log message is_error]. rewrite app_nil_r. auto.
Qed.



Lemma emits_call_unit (c : call) (answer : list event -> option exn)
    (Q : effect_spec unit) :
  Q (Returns tt) [Ev c (Returned VNone)] [] ->
  (forall e h, answer h = Some e -> Q (Throws e) [Ev c (Raised e)] []) ->
  emits (call_unit c answer) Q.
Proof.
  intros Hok Hfail w Hw. unfold call_unit, bind, gets.
  destruct (answer (issued w)) as [e|] eqn:E; simpl.
  - split; [exact Hw|]. exists [Ev c (Raised e)], [].
    rewrite app_nil_r. eauto.
  - split; [exact Hw|]. exists [Ev c (Returned VNone)], [].
    rewrite app_nil_r. auto.
Qed.

Lemma emits_call_value {A} (c : call) (inj : A -> value)
    (answer : list event -> result A) (Q : effect_spec A) :
  (forall a h, answer h = Ok a -> Q (Returns a) [Ev c (Returned (inj a))] []) ->
  (forall e h, answer h = Raise e -> Q (Throws e) [Ev c (Raised e)] []) ->
  emits (call_value c inj answer) Q.
Proof.
  intros Hok Hfail w Hw. unfold call_value, bind, gets.
  destruct (answer (issued w)) as [a|e] eqn:E; simpl.
  - split; [exact Hw|]. exists [Ev c (Returned (inj a))], [].
    rewrite app_nil_r. eauto.
  - split; [exact Hw|]. exists [Ev c (Raised e)], [].
    rewrite app_nil_r. eauto.
Qed.

Lemma emits_the_sftp_client (attr : string) (Q : effect_spec SFTPClient) :
  (forall client, Q (Returns client) [] []) ->
  emits (the_sftp_client attr) Q.
Proof.
  intros HQ w Hw. unfold the_sftp_client, bind, gets.
  destruct Hw as [client Hc]. rewrite Hc. simpl.
  split; [rewrite Hc; eauto|]. exists [], []. rewrite !app_nil_r. auto.
Qed.

Lemma emits_gets_client {A} (k : option SFTPClient -> M A) (Q : effect_spec A) :
  (forall client, emits (k (Some client)) Q) ->
  emits (bind (gets sftp_client) k) Q.
Proof.
  intros Hk w Hw. unfold bind, gets. destruct Hw as [client Hc].
  rewrite Hc. apply Hk. rewrite Hc. eauto.
Qed.


(** ** Workers without a connection *)

(** C10. While there is no SFTP client, the upload worker and the download
    worker return at once and leave the widget as it was: no call is
    issued, nothing is logged, nothing is put on the UI queue. *)
Theorem workers_idle_without_client (env : Env) (w : widget) :
  sftp_client w = None ->
  (forall local_path remote_dest_dir is_dir,
      _upload_worker env local_path remote_dest_dir is_dir w = (Returns tt, w))
  /\ (forall fuel remote_path local_dest_dir is_dir,
      _download_worker env fuel remote_path local_dest_dir is_dir w
      = (Returns tt, w)).
Proof.
  intros Hnone. split.
  - intros. unfold _upload_worker, bind, gets. rewrite Hnone. reflexivity.
  - intros fuel. intros.
    destruct fuel; simpl; unfold bind, gets; rewrite Hnone; reflexivity.
Qed.

Lemma workers_idle_without_client_witness :
  (forall local_path remote_dest_dir is_dir,
      _upload_worker calm_env local_path remote_dest_dir is_dir
        (fresh_widget None ∅)
      = (Returns tt, fresh_widget None ∅))
  /\ (forall fuel remote_path local_dest_dir is_dir,
      _download_worker calm_env fuel remote_path local_dest_dir is_dir
        (fresh_widget None ∅)
      = (Returns tt, fresh_widget None ∅)).
Proof.
  apply (workers_idle_without_client calm_env (fresh_widget None ∅)).
  reflexivity.
Defined.

(** ** Teardown *)

Definition cancel_event (entry : string * (nat * string)) : event :=
  Ev (MonitorCancel (fst (snd entry))) (Returned VNone).

Definition is_close (ev : event) : Prop :=
  ev_call ev = SftpClose \/ ev_call ev = SshClose.

Definition cleanup_failed_log (tmp : string) : ui_work :=
  append_log
    ("Failed to clean up temporary directory " +:+ tmp
       +:+ ": name 'shutil' is not defined") true.

Lemma set_issued_same (w : widget) : set_issued (issued w) w = w.
Proof. destruct w; reflexivity. Qed.

Lemma cancel_all (monitors : list (string * (nat * string))) (w : widget) :
  for_each monitors
    (fun entry => record_event (MonitorCancel (fst (snd entry))) (Returned VNone))
    w
  = (Returns tt, set_issued (issued w ++ map cancel_event monitors) w).
Proof.
  revert w. induction monitors as [|entry rest IH]; intros w; simpl.
  - unfold ret. rewrite app_nil_r, set_issued_same. reflexivity.
  - unfold bind at 1. unfold record_event at 1. unfold modify.
    rewrite IH. simpl. rewrite <- app_assoc. reflexivity.
Qed.

Lemma rmtree_name_error (env : Env) (path : string) (w : widget) :
  rmtree env path w
  = (Throws (Exn NameError "name 'shutil' is not defined"), w).
Proof. reflexivity. Qed.


(** ** Running a method step by step

    The equations of the monad, as a rewrite database: a bind continues the
    run of its first part, a handler takes over a run that raised. *)
Definition continue {A B} (k : A -> M B) (run : completion A * widget)
  : completion B * widget :=
  match run with
  | (Returns a, w') => k a w'
  | (Throws e, w') => (Throws e, w')
  | (OutOfFuel, w') => (OutOfFuel, w')
  end.

Definition handle {A} (handler : exn -> M A) (run : completion A * widget)
  : completion A * widget :=
  match run with
  | (Throws e, w') => handler e w'
  | _ => run
  end.

Lemma run_bind {A B} (m : M A) (k : A -> M B) (w : widget) :
  bind m k w = continue k (m w).
Proof. reflexivity. Qed.

Lemma run_try_except {A} (m : M A) (handler : exn -> M A) (w : widget) :
  try_except m handler w = handle handler (m w).
Proof. unfold try_except, handle. destruct (m w) as [[] ?]; reflexivity. Qed.

Lemma run_ret {A} (a : A) (w : widget) : ret a w = (Returns a, w).
Proof. reflexivity. Qed.

Lemma run_raise {A} (e : exn) (w : widget) : @raise A e w = (Throws e, w).
Proof. reflexivity. Qed.

Lemma run_out_of_fuel {A} (w : widget) : @out_of_fuel A w = (OutOfFuel, w).
Proof. reflexivity. Qed.

Lemma run_gets {A} (f : widget -> A) (w : widget) :
  gets f w = (Returns (f w), w).
Proof. reflexivity. Qed.

Lemma run_modify (f : widget -> widget) (w : widget) :
  modify f w = (Returns tt, f w).
Proof. reflexivity. Qed.

Lemma run_lift_ok {A} (a : A) (w : widget) : lift (Ok a) w = (Returns a, w).
Proof. reflexivity. Qed.

Lemma run_lift_raise {A} (e : exn) (w : widget) :
  lift (@Raise A e) w = (Throws e, w).
Proof. reflexivity. Qed.

Lemma run_record_event (c : call) (o : outcome) (w : widget) :
  record_event c o w = (Returns tt, set_issued (issued w ++ [Ev c o]) w).
Proof. reflexivity. Qed.

Lemma run_log_message (message : string) (is_error : bool) (w : widget) :
  _log_message message is_error w
  = (Returns tt, set_ui_queue (ui_queue w ++ [append_log message is_error]) w).
Proof. reflexivity. Qed.

Lemma run_ui_queue_put (work : ui_work) (w : widget) :
  ui_queue_put work w = (Returns tt, set_ui_queue (ui_queue w ++ [work]) w).
Proof. reflexivity. Qed.

Lemma run_call_unit (c : call) (answer : list event -> option exn)
    (w : widget) :
  call_unit c answer w
  = match answer (issued w) with
    | None => (Returns tt, set_issued (issued w ++ [Ev c (Returned VNone)]) w)
    | Some e => (Throws e, set_issued (issued w ++ [Ev c (Raised e)]) w)
    end.
Proof. unfold call_unit, bind, gets. destruct (answer (issued w)); reflexivity. Qed.

Lemma run_call_value {A} (c : call) (inj : A -> value)
    (answer : list event -> result A) (w : widget) :
  call_value c inj answer w
  = match answer (issued w) with
    | Ok a =>
        (Returns a, set_issued (issued w ++ [Ev c (Returned (inj a))]) w)
    | Raise e => (Throws e, set_issued (issued w ++ [Ev c (Raised e)]) w)
    end.
Proof. unfold call_value, bind, gets. destruct (answer (issued w)); reflexivity. Qed.

Lemma continue_returns {A B} (k : A -> M B) (a : A) (w : widget) :
  continue k (Returns a, w) = k a w.
Proof. reflexivity. Qed.

Lemma continue_throws {A B} (k : A -> M B) (e : exn) (w : widget) :
  continue k (Throws e, w) = (Throws e, w).
Proof. reflexivity. Qed.

Lemma continue_out_of_fuel {A B} (k : A -> M B) (w : widget) :
  continue k (OutOfFuel, w) = (OutOfFuel, w).
Proof. reflexivity. Qed.

Lemma handle_returns {A} (handler : exn -> M A) (a : A) (w : widget) :
  handle handler (Returns a, w) = (Returns a, w).
Proof. reflexivity. Qed.

Lemma handle_throws {A} (handler : exn -> M A) (e : exn) (w : widget) :
  handle handler (Throws e, w) = handler e w.
Proof. reflexivity. Qed.

Lemma handle_out_of_fuel {A} (handler : exn -> M A) (w : widget) :
  handle handler (@OutOfFuel A, w) = (OutOfFuel, w).
Proof. reflexivity. Qed.

Lemma run_load_shutil (w : widget) :
  load_global "shutil" w
  = (Throws (Exn NameError "name 'shutil' is not defined"), w).
Proof. reflexivity. Qed.

Create Rewrite HintDb run.
#[local] Hint Rewrite @run_bind @run_try_except @run_ret @run_raise
  @run_out_of_fuel @run_gets run_modify @run_lift_ok @run_lift_raise
  run_record_event run_log_message run_ui_queue_put run_call_unit
  @run_call_value @continue_returns @continue_throws @continue_out_of_fuel
  @handle_returns @handle_throws @handle_out_of_fuel run_load_shutil : run.

Ltac run :=
  repeat (autorewrite with run in *;
          cbn [fst snd issued ui_queue sftp_client ssh_client file_monitors
               temp_dir host_config secret_service current_local_path
               current_remote_path set_issued set_ui_queue set_file_monitors
               set_sftp_client set_ssh_client] in *).

Ltac split_run E :=
  let Er := fresh "Er" in
  let Ew := fresh "Ew" in
  pose proof (f_equal fst E) as Er; pose proof (f_equal snd E) as Ew;
  cbn [fst snd] in Er, Ew; clear E; subst.

Ltac closes_ok :=
  repeat (constructor; [unfold is_close; simpl; auto|]); constructor.

(** C4, on the code. The handler cancels every watch, but it never deletes
    the scratch directory: the name [shutil] is not bound in the module, the
    lookup raises [NameError] before [rmtree] is called, and the handler
    logs the failure. For every widget and every behaviour of the
    collaborators, the calls of the handler are the [close] calls of the
    clients it has, followed (unless a [close] raised) by one [cancel] per
    watch; no [rmtree] call is among them. *)
Theorem teardown_never_removes_scratch (env : Env) (w : widget) :
  let run := on_widget_destroy env w in
  exists closes,
    Forall is_close closes
    /\ ((exists e c, fst run = Throws e
                   /\ issued (snd run) = (issued w ++ closes)%list
                   /\ ui_queue (snd run) = ui_queue w
                   /\ last closes = Some (Ev c (Raised e)))
        \/ (issued (snd run)
              = (issued w ++ closes ++ map cancel_event (file_monitors w))%list
            /\ ui_queue (snd run)
               = (ui_queue w ++ [cleanup_failed_log (temp_dir w)])%list
            /\ file_monitors (snd run) = []))
    /\ (forall ev path, In ev (issued (snd run)) ->
          In ev (issued w) \/ ev_call ev <> ShutilRmtree path).
Proof.
  cbv zeta.
  assert (Hno : forall closes ev path,
             Forall is_close closes ->
             In ev (closes ++ map cancel_event (file_monitors w)) ->
             ev_call ev <> ShutilRmtree path).
  { intros closes ev path Hc Hi. apply in_app_or in Hi as [Hi|Hi].
    - rewrite Forall_forall in Hc. apply list_elem_of_In in Hi.
      destruct (Hc ev Hi) as [-> | ->]; discriminate.
    - apply in_map_iff in Hi as (entry & <- & _). discriminate. }
  assert (Hmain : exists closes,
    Forall is_close closes
    /\ ((exists e c, fst (on_widget_destroy env w) = Throws e
                   /\ issued (snd (on_widget_destroy env w)) = (issued w ++ closes)%list
                   /\ ui_queue (snd (on_widget_destroy env w)) = ui_queue w
                   /\ last closes = Some (Ev c (Raised e)))
        \/ (issued (snd (on_widget_destroy env w))
              = (issued w ++ closes ++ map cancel_event (file_monitors w))%list
            /\ ui_queue (snd (on_widget_destroy env w))
               = (ui_queue w ++ [cleanup_failed_log (temp_dir w)])%list
            /\ file_monitors (snd (on_widget_destroy env w)) = []))).
  { destruct (on_widget_destroy env w) as [r w'] eqn:E.
    unfold on_widget_destroy, rmtree in E. run.
    assert (Hu : forall (ms : list (string * (nat * string))) (v : widget),
               ui_queue (snd (continue (fun message => _log_message message false)
                                (call_underscore ms v))) = ui_queue v
               /\ issued (snd (continue (fun message => _log_message message false)
                                (call_underscore ms v))) = issued v
               /\ file_monitors (snd (continue (fun message => _log_message message false)
                                (call_underscore ms v))) = file_monitors v).
    { intros ms v. unfold call_underscore. destruct (last ms); run; auto. }
    destruct (sftp_client w) as [sftp|] eqn:Es; run.
    - destruct (sftp_close env (issued w)) as [e1|] eqn:Ec1; run.
      + injection E as <- <-. exists [Ev SftpClose (Raised e1)].
        split; [closes_ok|]. left. exists e1, SftpClose. run. auto.
      + destruct (ssh_client w) as [ssh|] eqn:Eh; run.
        * destruct (ssh_close env _) as [e2|] eqn:Ec2; run.
          -- injection E as <- <-. run.
             exists [Ev SftpClose (Returned VNone); Ev SshClose (Raised e2)].
             split; [closes_ok|]. left. exists e2, SshClose.
             rewrite <- app_assoc. auto.
          -- rewrite cancel_all in E. run.
             exists [Ev SftpClose (Returned VNone); Ev SshClose (Returned VNone)].
             split; [closes_ok|]. right.
             split_run E.
             match goal with |- context [call_underscore ?ms ?v] =>
               destruct (Hu ms v) as (-> & -> & ->) end. run.
             rewrite <- !app_assoc. auto.
        * rewrite cancel_all in E. run.
          exists [Ev SftpClose (Returned VNone)].
          split; [closes_ok|]. right.
          split_run E.
          match goal with |- context [call_underscore ?ms ?v] =>
            destruct (Hu ms v) as (-> & -> & ->) end. run.
          rewrite <- !app_assoc. auto.
    - destruct (ssh_client w) as [ssh|] eqn:Eh; run.
      + destruct (ssh_close env _) as [e2|] eqn:Ec2; run.
        * injection E as <- <-. run. exists [Ev SshClose (Raised e2)].
          split; [closes_ok|]. left. exists e2, SshClose. auto.
        * rewrite cancel_all in E. run.
          exists [Ev SshClose (Returned VNone)].
          split; [closes_ok|]. right.
          split_run E.
          match goal with |- context [call_underscore ?ms ?v] =>
            destruct (Hu ms v) as (-> & -> & ->) end. run.
          rewrite <- !app_assoc. auto.
      + rewrite cancel_all in E. run.
        exists []. split; [closes_ok|]. right.
        split_run E.
        match goal with |- context [call_underscore ?ms ?v] =>
          destruct (Hu ms v) as (-> & -> & ->) end. run. auto. }
  destruct Hmain as (closes & Hc & Hcases). exists closes.
  split; [exact Hc|]. split; [exact Hcases|].
  intros ev path Hi.
  destruct Hcases as [(e & c & _ & Hiss & _ & _) | (Hiss & _ & _)];
    rewrite Hiss in Hi; apply in_app_or in Hi as [Hi|Hi]; auto; right.
  - apply (Hno closes ev path Hc). apply in_or_app. now left.
  - apply (Hno closes ev path Hc Hi).
Qed.

(** The handler on a connected widget with one watch: both clients are
    closed, the watch is cancelled, the scratch directory is not removed,
    and the handler ends in the [TypeError] of its last line. *)
Example teardown_of_connected_widget :
  observe (on_widget_destroy calm_env connected_widget)
  = (Throws (Exn TypeError "'str' object is not callable"),
     [cleanup_failed_log "/tmp/thongssh_sftp_k3"],
     [Ev SftpClose (Returned VNone); Ev SshClose (Returned VNone);
      Ev (MonitorCancel 1) (Returned VNone)],
     true).
Proof. vm_compute. reflexivity. Qed.

(** ** Recursive upload *)

Definition already_exists : exn := Exn IOError "Failure".

(** Uploading [/home/me/photos] when [/home/user/photos] exists. *)
Definition photos_env : Env :=
  with_mkdir
    (fun path =>
       if String.eqb path "/home/user/photos" then Some already_exists else None)
    (with_walk (fun _ => [("/home/me/photos", ([], ["a.jpg"]))])
       (fun _ _ => ".") calm_env).


(** C3, on the code. Uploading a directory whose destination already
    exists: the first [mkdir] raises, the worker logs [Upload failed] and
    nothing is copied. Only the [mkdir] of a subdirectory is guarded. *)
Theorem upload_into_existing_directory_fails :
  observe (_upload_worker photos_env "/home/me/photos" (Some "/home/user")
             true connected_widget)
  = (Returns tt,
     [append_log "Uploading directory /home/me/photos to /home/user/photos..."
        false;
      append_log "Upload failed for photos: Failure" true],
     [Ev (SftpMkdir "/home/user/photos") (Raised already_exists)],
     true).
Proof. vm_compute. reflexivity. Qed.






(** *** The calls of a directory upload *)














Lemma emits_after_call_unit {B} (c : call) (answer : list event -> option exn)
    (k : unit -> M B) (Q : effect_spec B) :
  emits (k tt) (fun r n p => Q r (Ev c (Returned VNone) :: n) p) ->
  (forall e, Q (Throws e) [Ev c (Raised e)] []) ->
  emits (bind (call_unit c answer) k) Q.
Proof.
  intros Hk He.
  apply (emits_bind _ _
           (fun r n p =>
              p = [] /\ ((r = Returns tt /\ n = [Ev c (Returned VNone)])
                         \/ exists e, r = Throws e /\ n = [Ev c (Raised e)]))).
  - apply emits_call_unit; [auto|]. intros e h _. split; eauto.
  - intros [] n1 p1 (-> & [(_ & ->)|(e & H & _)]); [exact Hk|discriminate].
  - intros e n p (-> & [(H & _)|(e' & [= <-] & ->)]); [discriminate|apply He].
  - intros n p (_ & [(H & _)|(e' & H & _)]); discriminate.
Qed.


Lemma emits_after_client {B} (attr : string) (k : SFTPClient -> M B)
    (Q : effect_spec B) :
  (forall client, emits (k client) Q) ->
  emits (bind (the_sftp_client attr) k) Q.
Proof.
  intros Hk.
  apply (emits_bind _ _ (fun r n p => (exists cl, r = Returns cl) /\ n = [] /\ p = [])).
  - apply emits_the_sftp_client. eauto.
  - intros a n1 p1 (_ & -> & ->). apply Hk.
  - intros e n p ([cl H] & _). discriminate.
  - intros n p ([cl H] & _). discriminate.
Qed.

















(** ** Remote listing *)

(** The order of two names under the case-folded comparison of the sort. *)
Definition name_le (lower : string -> string) (a b : string) : Prop :=
  String.leb (lower a) (lower b) = true.

Lemma string_leb_iff (a b : string) :
  String.leb a b = true <-> a = b \/ String_as_OT.lt a b.
Proof.
  unfold String.leb.
  pose proof (String_as_OT.cmp_eq a b) as He.
  pose proof (String_as_OT.cmp_lt a b) as Hl.
  unfold String_as_OT.cmp in *.
  destruct (String.compare a b); split; intros H; auto; try discriminate.
  - left. now apply He.
  - right. now apply Hl.
  - destruct H as [H|H]; [apply He in H|apply Hl in H]; discriminate.
Qed.

Lemma string_leb_trans (a b c : string) :
  String.leb a b = true -> String.leb b c = true -> String.leb a c = true.
Proof.
  rewrite !string_leb_iff. intros [->|H1] [->|H2]; auto.
  right. eapply String_as_OT.lt_trans; eauto.
Qed.

Lemma string_ltb_false_leb (a b : string) :
  String.ltb a b = false -> String.leb b a = true.
Proof.
  unfold String.ltb, String.leb.
  pose proof (String_as_OT.cmp_antisym b a) as H. unfold String_as_OT.cmp in H.
  rewrite H. destruct (String.compare a b); simpl; congruence.
Qed.

Lemma string_ltb_true_leb (a b : string) :
  String.ltb a b = true -> String.leb a b = true.
Proof.
  unfold String.ltb, String.leb. destruct (String.compare a b); congruence.
Qed.

Section SortingFacts.
Context {A : Type} (key : A -> string).

Let key_le (x y : A) : Prop := String.leb (key x) (key y) = true.

Lemma insert_by_key_perm (x : A) (l : list A) :
  Permutation (insert_by_key key x l) (x :: l).
Proof.
  induction l as [|y l IH]; simpl; [reflexivity|].
  destruct (String.ltb (key y) (key x)); [|reflexivity].
  rewrite IH. apply perm_swap.
Qed.

Lemma sort_by_key_perm (l : list A) : Permutation (sort_by_key key l) l.
Proof.
  induction l as [|x l IH]; simpl; [reflexivity|].
  rewrite insert_by_key_perm. now constructor.
Qed.

Lemma insert_by_key_sorted (x : A) (l : list A) :
  StronglySorted key_le l -> StronglySorted key_le (insert_by_key key x l).
Proof.
  induction l as [|y l IH]; intros Hs; simpl.
  - repeat constructor.
  - apply StronglySorted_inv in Hs as [Hs Hy].
    destruct (String.ltb (key y) (key x)) eqn:E.
    + constructor; [apply IH, Hs|].
      rewrite (insert_by_key_perm x l). constructor; [|exact Hy].
      apply string_ltb_true_leb, E.
    + apply string_ltb_false_leb in E.
      constructor; [constructor; assumption|].
      constructor; [exact E|].
      eapply Forall_impl; [exact Hy|].
      intros z Hz. eapply string_leb_trans; eauto.
Qed.

Lemma sort_by_key_sorted (l : list A) :
  StronglySorted key_le (sort_by_key key l).
Proof.
  induction l as [|x l IH]; simpl; [constructor|].
  apply insert_by_key_sorted, IH.
Qed.
End SortingFacts.

Lemma map_result_ok {A B} (f : A -> result B) (l : list A) (out : list B) :
  map_result f l = Ok out -> Forall2 (fun a b => f a = Ok b) l out.
Proof.
  revert out. induction l as [|x l IH]; intros out; simpl.
  - intros [= <-]. constructor.
  - destruct (f x) as [y|e] eqn:E; [|discriminate].
    destruct (map_result f l) as [ys|e]; [|discriminate].
    intros [= <-]. constructor; auto.
Qed.

Lemma strongly_sorted_map {A B} (f : A -> B) (R : B -> B -> Prop) (l : list A) :
  StronglySorted (fun x y => R (f x) (f y)) l -> StronglySorted R (map f l).
Proof.
  induction 1 as [|x l Hs IH Hx]; simpl; constructor; auto.
  apply Forall_map. exact Hx.
Qed.

Lemma partition_perm {A} (f : A -> bool) (l : list A) :
  Permutation (List.filter f l ++ List.filter (fun x => negb (f x)) l) l.
Proof.
  induction l as [|x l IH]; simpl; [reflexivity|].
  destruct (f x); simpl.
  - now constructor.
  - rewrite <- Permutation_middle. now constructor.
Qed.

Lemma filter_all {A} (f : A -> bool) (l : list A) :
  Forall (fun x => f x = true) (List.filter f l).
Proof.
  induction l as [|x l IH]; simpl; [constructor|].
  destruct (f x) eqn:E; [constructor|]; auto.
Qed.

Section ListingFacts.
Variable env : Env.

(** What the rows of a successful listing of [items] satisfy:
    directories first, each group in the order of the case-folded names,
    the flag of a row the type of its mode bits, and the names those of
    the listing. *)
Definition listing_ok (items : list SFTPAttributes) (rows : list row)
  : Prop :=
  exists dir_rows file_rows,
    rows = (dir_rows ++ file_rows)%list
    /\ Forall (fun r => COL_IS_DIR r = true
                        /\ S_ISDIR (COL_PERMS_MODE r) = true) dir_rows
    /\ Forall (fun r => COL_IS_DIR r = false
                        /\ S_ISDIR (COL_PERMS_MODE r) = false) file_rows
    /\ StronglySorted (name_le (str_lower env)) (map COL_NAME dir_rows)
    /\ StronglySorted (name_le (str_lower env)) (map COL_NAME file_rows)
    /\ Permutation (map COL_NAME rows) (map filename items).

Lemma dir_row_ok (path : string) (attr : SFTPAttributes) (r : row) :
  dir_row env path attr = Ok r ->
  COL_NAME r = filename attr /\ COL_IS_DIR r = true
  /\ COL_PERMS_MODE r = st_mode attr.
Proof.
  unfold dir_row. destruct (_format_date env _); [|discriminate].
  intros [= <-]. auto.
Qed.

Lemma file_row_ok (path : string) (attr : SFTPAttributes) (r : row) :
  file_row env path attr = Ok r ->
  COL_NAME r = filename attr /\ COL_IS_DIR r = false
  /\ COL_PERMS_MODE r = st_mode attr.
Proof.
  unfold file_row. destruct (_format_size _ _); [|discriminate].
  destruct (_format_date env _); [|discriminate].
  intros [= <-]. auto.
Qed.

Lemma rows_of_group (f : SFTPAttributes -> result row) (is_dir : bool)
    (group : list SFTPAttributes) (rows : list row) :
  (forall attr r, f attr = Ok r ->
     COL_NAME r = filename attr /\ COL_IS_DIR r = is_dir
     /\ COL_PERMS_MODE r = st_mode attr) ->
  Forall (fun attr => S_ISDIR (st_mode attr) = is_dir) group ->
  map_result f (sort_by_key (sort_key env) group) = Ok rows ->
  map COL_NAME rows = map filename (sort_by_key (sort_key env) group)
  /\ Forall (fun r => COL_IS_DIR r = is_dir
                      /\ S_ISDIR (COL_PERMS_MODE r) = is_dir) rows.
Proof.
  intros Hf Hg Hm. apply map_result_ok in Hm.
  assert (Hs : Forall (fun attr => S_ISDIR (st_mode attr) = is_dir)
                 (sort_by_key (sort_key env) group)).
  { eapply Permutation_Forall; [|exact Hg].
    symmetry. apply sort_by_key_perm. }
  clear Hg. induction Hm as [|attr r l rows Hr Hm IH]; simpl.
  - split; [reflexivity|constructor].
  - apply Forall_cons_1 in Hs as [Ha Hs].
    destruct (IH Hs) as [IH1 IH2]. destruct (Hf attr r Hr) as (Hn & Hd & Hmode).
    split; [congruence|]. constructor; [|exact IH2].
    split; [exact Hd|]. rewrite Hmode. exact Ha.
Qed.

Lemma rows_of_listing_ok (path : string) (items : list SFTPAttributes)
    (rows : list row) :
  rows_of_listing env path items = Ok rows -> listing_ok items rows.
Proof.
  unfold rows_of_listing. rewrite partition_as_filter.
  set (is_dir := fun attr : SFTPAttributes => S_ISDIR (st_mode attr)).
  set (dirs := List.filter is_dir items).
  set (files := List.filter (fun x => negb (is_dir x)) items).
  destruct (map_result (dir_row env path) _) as [dir_rows|e] eqn:Ed;
    [|discriminate].
  destruct (map_result (file_row env path) _) as [file_rows|e] eqn:Ef;
    [|discriminate].
  intros [= <-].
  destruct (rows_of_group _ true dirs dir_rows (dir_row_ok path)
              (filter_all is_dir items) Ed) as [Hdn Hdf].
  assert (Hfiles : Forall (fun attr => S_ISDIR (st_mode attr) = false) files).
  { eapply Forall_impl; [apply (filter_all (fun x => negb (is_dir x)) items)|].
    intros a Ha. simpl in Ha. apply negb_true_iff in Ha. exact Ha. }
  destruct (rows_of_group _ false files file_rows (file_row_ok path)
              Hfiles Ef) as [Hfn Hff].
  exists dir_rows, file_rows. split; [reflexivity|].
  split; [exact Hdf|]. split; [exact Hff|].
  split; [|split].
  - rewrite Hdn. apply strongly_sorted_map.
    apply (sort_by_key_sorted (sort_key env)).
  - rewrite Hfn. apply strongly_sorted_map.
    apply (sort_by_key_sorted (sort_key env)).
  - rewrite map_app, Hdn, Hfn, <- map_app. apply Permutation_map.
    rewrite !sort_by_key_perm. apply partition_perm.
Qed.
End ListingFacts.

Definition reading_log (path : string) : ui_work :=
  append_log ("Reading remote directory: " +:+ path +:+ "...") false.

Definition listed_log (path : string) : ui_work :=
  append_log ("Successfully listed remote directory: " +:+ path) false.

Definition listing_error_log (path : string) (e : exn) : ui_work :=
  append_log
    ("Error reading remote directory '" +:+ path +:+ "': " +:+ exn_str e) true.

(** C8. A listing always returns. When it succeeds it queues one update
    whose rows are the directories followed by the files, each group sorted
    by the case-folded name, with the names of the entries the server
    listed. When anything fails (no client, the listing call, the
    formatting of an entry) it queues no rows at all and logs exactly one
    error. *)
Theorem remote_listing_sorted_or_one_error (env : Env) (path : string)
    (w : widget) :
  let run := _load_remote_directory env path w in
  fst run = Returns tt
  /\ ((exists items rows,
         issued (snd run)
         = (issued w ++ [Ev (SftpListdirAttr path) (Returned (VAttrs items))])%list
         /\ ui_queue (snd run)
            = (ui_queue w
                 ++ [reading_log path; update_ui rows path; listed_log path])%list
         /\ listing_ok env items rows)
      \/ (exists e,
            ui_queue (snd run)
            = (ui_queue w ++ [reading_log path; listing_error_log path e])%list)).
Proof.
  cbv zeta. unfold _load_remote_directory, listdir_attr, the_sftp_client.
  run. destruct (sftp_client w) as [client|]; run.
  - destruct (sftp_listdir_attr env (issued w) path) as [items|e] eqn:El; run.
    + destruct (rows_of_listing env path items) as [rows|e] eqn:Er; run.
      * split; [reflexivity|]. left. exists items, rows.
        rewrite <- !app_assoc. repeat split.
        apply (rows_of_listing_ok env path), Er.
      * split; [reflexivity|]. right. exists e.
        rewrite <- !app_assoc. reflexivity.
    + split; [reflexivity|]. right. exists e.
      rewrite <- !app_assoc. reflexivity.
  - split; [reflexivity|]. right. eexists.
    rewrite <- !app_assoc. reflexivity.
Qed.

Definition file_mode : Z := 0x81A4.
Definition dir_mode : Z := 0x41ED.

Definition entry (name : string) (mode size : Z) : SFTPAttributes :=
  {| filename := name; st_size := size; st_mode := mode; st_mtime := 0 |}.

(** A listing of two files and two directories, and the same listing with
    a file of 512 TiB. *)
Example listing_of_mixed_directory :
  let env := with_listdir
               (fun _ => Ok [entry "b.txt" file_mode 10; entry "src" dir_mode 0;
                             entry "a.txt" file_mode 10; entry "bin" dir_mode 0])
               calm_env in
  match ui_queue (snd (_load_remote_directory env "/srv" connected_widget)) with
  | [_; update_ui rows _; _] => map COL_NAME rows = ["bin"; "src"; "a.txt"; "b.txt"]
  | _ => False
  end.
Proof. vm_compute. reflexivity. Qed.

Example listing_with_huge_file :
  let env := with_listdir
               (fun _ => Ok [entry "src" dir_mode 0;
                             entry "huge.img" file_mode (2 ^ 49)])
               calm_env in
  ui_queue (snd (_load_remote_directory env "/srv" connected_widget))
  = [reading_log "/srv";
     listing_error_log "/srv" (Exn IndexError "tuple index out of range")].
Proof. vm_compute. reflexivity. Qed.

(** ** Authentication passes *)

Definition not_a_prompt (ev : event) : Prop :=
  forall p, ev_call ev <> IdleAdd p.

Definition auth_failed_log : ui_work :=
  append_log "Authentication failed. Please check credentials and connection."
    true.

Definition password_prompt (user host : string) : event :=
  Ev (IdleAdd (prompt_for_password user host)) (Returned VNone).

(** Every connection attempt is refused with an authentication error. *)
Definition refusing_env : Env :=
  with_connect
    (fun _ => Some (Exn AuthenticationException "Authentication failed."))
    calm_env.


Lemma is_PasswordRequired_auth (e : exn) :
  exn_cls e = AuthenticationException -> is_PasswordRequired e = false.
Proof. unfold is_PasswordRequired. intros ->. reflexivity. Qed.

Lemma is_Authentication_auth (e : exn) :
  exn_cls e = AuthenticationException -> is_Authentication e = true.
Proof. unfold is_Authentication. intros ->. reflexivity. Qed.

Lemma connect_refused (env : Env) (a : connect_args) (e : exn) (w : widget) :
  ssh_connect env (issued w) a = Some e ->
  connect_and_open env a w
  = (Throws e,
     set_issued (issued w ++ [Ev (SshConnect a) (Raised e)])
       (set_ssh_client (Some {| connected_with := None |}) w)).
Proof.
  intros H. unfold connect_and_open. run. rewrite H. run. reflexivity.
Qed.

(** A stretch of a pass that connected nothing and prompted for nothing:
    the client and the keyring are as before, the calls added are no
    prompts. *)
Definition quiet_stretch (w w1 : widget) : Prop :=
  sftp_client w1 = sftp_client w
  /\ secret_service w1 = secret_service w
  /\ exists new put,
       issued w1 = (issued w ++ new)%list
       /\ Forall not_a_prompt new
       /\ ui_queue w1 = (ui_queue w ++ put)%list.

Lemma quiet_stretch_refl (w : widget) : quiet_stretch w w.
Proof.
  repeat split. exists [], []. rewrite !app_nil_r. repeat split. constructor.
Qed.

Lemma quiet_stretch_trans (w w1 w2 : widget) :
  quiet_stretch w w1 -> quiet_stretch w1 w2 -> quiet_stretch w w2.
Proof.
  intros (Hc & Hs & n1 & p1 & Hi & Hn & Hu) (Hc2 & Hs2 & n2 & p2 & Hi2 & Hn2 & Hu2).
  split; [congruence|]. split; [congruence|].
  exists (n1 ++ n2)%list, (p1 ++ p2)%list.
  rewrite Hi2, Hu2, Hi, Hu, !app_assoc. repeat split.
  apply Forall_app. auto.
Qed.

Lemma connect_not_a_prompt (a : connect_args) (o : outcome) :
  Forall not_a_prompt [Ev (SshConnect a) o].
Proof. repeat constructor. intros p. discriminate. Qed.

Ltac same_list := first [reflexivity | rewrite <- !app_assoc; reflexivity].

Ltac stretch_done :=
  split; [same_list|]; split; [apply connect_not_a_prompt|]; same_list.

Section PassFacts.
Variable env : Env.
Variables (user host : string) (port : Z).

(** A supplied password that is refused leaves the pass going. *)
Lemma supplied_password_refused (auth_password : option string)
    (w : widget) :
  (opt_truthy auth_password = true ->
   forall h, ssh_connect env h
               (supplied_password_args user host port auth_password)
             <> None) ->
  exists w1,
    try_supplied_password env user host port auth_password w
    = (Returns Continue, w1)
    /\ quiet_stretch w w1.
Proof.
  intros Hsup. unfold try_supplied_password.
  destruct (opt_truthy auth_password) eqn:Et.
  - run.
    match goal with |- context [connect_and_open env ?a ?v] =>
      destruct (ssh_connect env (issued v) a) as [e|] eqn:Ec;
        [rewrite (connect_refused env a e v Ec)
        |exfalso; exact (Hsup eq_refl _ Ec)] end.
    run. eexists. split; [reflexivity|].
    repeat split. eexists _, _. run.
    stretch_done.
  - run. eexists. split; [reflexivity|apply quiet_stretch_refl].
Qed.

(** A key that is refused with an authentication error leaves the pass
    going. *)
Lemma key_refused (key_filename key_passphrase : option string)
    (w : widget) :
  sftp_client w = None ->
  (opt_truthy key_filename = true ->
   forall h, exists e,
     ssh_connect env h (key_args user host port key_filename key_passphrase)
     = Some e
     /\ exn_cls e = AuthenticationException) ->
  exists w1,
    try_key env user host port key_filename key_passphrase w
    = (Returns Continue, w1)
    /\ quiet_stretch w w1.
Proof.
  intros Hnone Hkey. unfold try_key. run. rewrite Hnone.
  destruct key_filename as [key|];
    [|eexists; split; [reflexivity|apply quiet_stretch_refl]].
  destruct (str_truthy key) eqn:Et;
    [|eexists; split; [reflexivity|apply quiet_stretch_refl]].
  run.
  match goal with |- context [connect_and_open env ?a ?v] =>
    destruct (Hkey Et (issued v)) as (e & Ec & Hcls);
      rewrite (connect_refused env a e v Ec) end.
  run. rewrite (is_PasswordRequired_auth e Hcls).
  rewrite (is_Authentication_auth e Hcls). run.
  eexists. split; [reflexivity|].
  repeat split; [exact Hnone..|]. eexists _, _. run.
  stretch_done.
Qed.

(** The saved password, refused: the pass goes on to its end without a
    prompt. *)
Lemma saved_password_refused (cfg : HostConfig) (pw : string) (w : widget) :
  sftp_client w = None ->
  load_password (cfg_name cfg) (secret_service w) = Some pw ->
  str_truthy pw = true ->
  (forall h, ssh_connect env h (saved_password_args user host port pw)
             <> None) ->
  exists w1,
    try_saved_password env user host port cfg w = (Returns Continue, w1)
    /\ quiet_stretch w w1.
Proof.
  intros Hnone Hload Ht Hsaved. unfold try_saved_password. run.
  rewrite Hnone. run. rewrite Hload, Ht. run.
  match goal with |- context [connect_and_open env ?a ?v] =>
    destruct (ssh_connect env (issued v) a) as [e|] eqn:Ec;
      [rewrite (connect_refused env a e v Ec)
      |exfalso; exact (Hsaved _ Ec)] end.
  run. eexists. split; [reflexivity|].
  repeat split; [exact Hnone..|]. eexists _, _. run.
  stretch_done.
Qed.

(** Without a saved password the pass hands a password prompt to the
    main loop and returns. *)
Lemma no_saved_password_prompts (cfg : HostConfig) (w : widget) :
  sftp_client w = None ->
  opt_truthy (load_password (cfg_name cfg) (secret_service w)) = false ->
  exists w1,
    try_saved_password env user host port cfg w = (Returns Return, w1)
    /\ last (issued w1) = Some (password_prompt user host).
Proof.
  intros Hnone Hload. unfold try_saved_password. run. rewrite Hnone. run.
  destruct (load_password _ _) as [pw|]; simpl in Hload;
    [rewrite Hload|]; run;
    (eexists; split; [reflexivity|]; run; apply last_snoc).
Qed.

Lemma finish_pass_failed (w : widget) :
  sftp_client w = None ->
  finish_pass env w
  = (Returns tt, set_ui_queue (ui_queue w ++ [auth_failed_log]) w).
Proof. intros Hnone. unfold finish_pass. run. rewrite Hnone. reflexivity. Qed.
End PassFacts.

(** C1 (as amended). A pass in which every attempt before the saved-secret
    strategy is refused (the supplied password, if any; the key, if any,
    with an authentication error) reaches that strategy. If a secret is
    stored and the attempt with it is refused, the pass does not prompt: it
    returns with no client after logging [Authentication failed...]. If no
    secret is stored, the pass hands a password prompt to the main loop. *)
Theorem saved_secret_refused_ends_pass (env : Env) (w : widget)
    (username_from_prompt key_passphrase auth_password : option string)
    (host_str user host : string) :
  sftp_client w = None ->
  cfg_host (host_config w) = Some host_str ->
  user_and_host host_str username_from_prompt = Some (user, host) ->
  let cfg := host_config w in
  let port := port_of cfg in
  (opt_truthy auth_password = true ->
   forall h, ssh_connect env h
               (supplied_password_args user host port auth_password) <> None) ->
  (opt_truthy (cfg_key_path cfg) = true ->
   forall h, exists e,
     ssh_connect env h (key_args user host port (cfg_key_path cfg) key_passphrase)
     = Some e
     /\ exn_cls e = AuthenticationException) ->
  let run := _sftp_connect_worker env username_from_prompt key_passphrase
               auth_password w in
  let stored := load_password (cfg_name cfg) (secret_service w) in
  (opt_truthy stored = false ->
   last (issued (snd run)) = Some (password_prompt user host))
  /\ (forall pw,
        stored = Some pw -> str_truthy pw = true ->
        (forall h, ssh_connect env h (saved_password_args user host port pw)
                   <> None) ->
        fst run = Returns tt
        /\ sftp_client (snd run) = None
        /\ last (ui_queue (snd run)) = Some auth_failed_log
        /\ exists new,
             issued (snd run) = (issued w ++ new)%list
             /\ Forall not_a_prompt new).
Proof.
  intros Hnone Hhost Huser. cbv zeta. intros Hsup Hkey.
  unfold _sftp_connect_worker. run. rewrite Hhost, Huser.
  unfold negotiate. run.
  destruct (supplied_password_refused env user host _ auth_password w Hsup)
    as (w1 & E1 & Q1).
  rewrite E1. run.
  assert (Hnone1 : sftp_client w1 = None) by (destruct Q1 as [-> _]; exact Hnone).
  destruct (key_refused env user host _ _ key_passphrase w1 Hnone1 Hkey)
    as (w2 & E2 & Q2).
  rewrite E2. run.
  pose proof (quiet_stretch_trans _ _ _ Q1 Q2) as Q.
  assert (Hnone2 : sftp_client w2 = None) by (destruct Q as [-> _]; exact Hnone).
  assert (Hsecret : secret_service w2 = secret_service w) by apply Q.
  split.
  - intros Hstored. rewrite <- Hsecret in Hstored.
    destruct (no_saved_password_prompts env user host (port_of (host_config w))
                (host_config w) w2 Hnone2 Hstored) as (w3 & E3 & Hlast).
    rewrite E3. run. exact Hlast.
  - intros pw Hstored Hpw Hsaved. rewrite <- Hsecret in Hstored.
    destruct (saved_password_refused env user host (port_of (host_config w))
                (host_config w) pw w2 Hnone2 Hstored Hpw Hsaved)
      as (w3 & E3 & Q3).
    rewrite E3. run.
    pose proof (quiet_stretch_trans _ _ _ Q Q3) as (Hc & _ & new & put & Hi & Hn & Hu).
    rewrite finish_pass_failed by congruence. run.
    split; [reflexivity|]. split; [congruence|].
    split; [apply last_snoc|]. exists new. auto.
Qed.

Lemma saved_secret_refused_ends_pass_witness :
  let w := fresh_widget (Some "h") {[ "h" := "s3cret" ]} in
  let run := _sftp_connect_worker refusing_env None None None w in
  fst run = Returns tt
  /\ sftp_client (snd run) = None
  /\ last (ui_queue (snd run)) = Some auth_failed_log
  /\ exists new,
       issued (snd run) = (issued w ++ new)%list /\ Forall not_a_prompt new.
Proof.
  cbv zeta.
  apply (proj2 (saved_secret_refused_ends_pass refusing_env
                  (fresh_widget (Some "h") {[ "h" := "s3cret" ]})
                  None None None "user@h" "user" "h"
                  eq_refl eq_refl eq_refl
                  ltac:(discriminate)
                  ltac:(intros _ h; eexists; split; reflexivity))
           "s3cret");
    [reflexivity | reflexivity | discriminate].
Defined.

(** The key is refused, the secret stored for the host is refused too: the
    pass ends with the error line and no prompt is handed to the main
    loop. *)
Lemma refused_saved_secret_is_not_followed_by_a_prompt :
  observe (_sftp_connect_worker refusing_env None None None
             (fresh_widget (Some "h") {[ "h" := "s3cret" ]}))
  = (Returns tt,
     [append_log "Attempting connection with SSH key..." false;
      append_log "Key authentication failed. Falling back to password..." false;
      append_log "Attempting connection with saved password..." false;
      append_log "Saved password authentication failed: Authentication failed."
        true;
      auth_failed_log],
     [Ev (SshConnect (key_args "user" "h" 22 (Some "/bad/key") None))
         (Raised (Exn AuthenticationException "Authentication failed."));
      Ev (SshConnect (saved_password_args "user" "h" 22 "s3cret"))
         (Raised (Exn AuthenticationException "Authentication failed."))],
     false).
Proof. vm_compute. reflexivity. Qed.



Lemma connect_accepted (env : Env) (a : connect_args) (w : widget) :
  ssh_connect env (issued w) a = None ->
  ssh_open_sftp env (issued w ++ [Ev (SshConnect a) (Returned VNone)]) = None ->
  connect_and_open env a w
  = (Returns tt,
     set_sftp_client (Some {| opened_on := Some a |})
       (set_issued
          (issued w ++ [Ev (SshConnect a) (Returned VNone);
                        Ev SshOpenSftp (Returned VNone)])
          (set_ssh_client (Some {| connected_with := Some a |}) w))).
Proof.
  intros Hc Ho. unfold connect_and_open. run. rewrite Hc. run. rewrite Ho. run.
  rewrite <- app_assoc. reflexivity.
Qed.



(** ** Recursive remote delete *)

(** *** Names and paths *)

(** A name that is not empty and holds no slash and no backslash. *)
Definition wf_name (name : string) : Prop :=
  str_truthy name = true
  /\ str_contains slash name = false
  /\ str_contains backslash name = false.

Lemma append_nil_l (b : string) : "" +:+ b = b.
Proof. reflexivity. Qed.

Lemma append_cons (x : ascii) (a b : string) :
  String x a +:+ b = String x (a +:+ b).
Proof. reflexivity. Qed.

Lemma append_nil_r (s : string) : s +:+ "" = s.
Proof.
  induction s as [|a s IH]; [reflexivity|]. now rewrite append_cons, IH.
Qed.

Lemma append_assoc (a b c : string) : (a +:+ b) +:+ c = a +:+ (b +:+ c).
Proof.
  induction a as [|x a IH]; [reflexivity|]. now rewrite !append_cons, IH.
Qed.

Lemma append_inj_l (a b c : string) : a +:+ b = a +:+ c -> b = c.
Proof.
  induction a as [|x a IH]; [auto|]. rewrite !append_cons. intros [= H]. auto.
Qed.

Lemma length_append (a b : string) :
  String.length (a +:+ b) = (String.length a + String.length b)%nat.
Proof.
  induction a as [|x a IH]; [reflexivity|].
  rewrite append_cons. simpl. now rewrite IH.
Qed.

Lemma length_replace_backslash (s : string) :
  String.length (replace_backslash s) = String.length s.
Proof. induction s as [|a s IH]; simpl; [reflexivity|]. now rewrite IH. Qed.

Lemma replace_backslash_append (a b : string) :
  replace_backslash (a +:+ b) = replace_backslash a +:+ replace_backslash b.
Proof.
  induction a as [|x a IH]; [reflexivity|].
  rewrite append_cons. simpl. now rewrite append_cons, IH.
Qed.

Lemma replace_backslash_clean (s : string) :
  str_contains backslash s = false -> replace_backslash s = s.
Proof.
  induction s as [|a s IH]; simpl; [reflexivity|].
  intros H. apply orb_false_iff in H as [Ha Hs]. rewrite Ha, IH; auto.
Qed.

Lemma replace_backslash_has_none (s : string) :
  str_contains backslash (replace_backslash s) = false.
Proof.
  induction s as [|a s IH]; simpl; [reflexivity|]. rewrite IH, orb_false_r.
  destruct (Ascii.eqb a backslash) eqn:E; [reflexivity|exact E].
Qed.

Lemma str_contains_append (c : ascii) (a b : string) :
  str_contains c (a +:+ b) = str_contains c a || str_contains c b.
Proof.
  induction a as [|x a IH]; [reflexivity|].
  rewrite append_cons. simpl. now rewrite IH, orb_assoc.
Qed.

Lemma ends_with_slash_append (a b : string) :
  str_truthy b = true -> ends_with_slash (a +:+ b) = ends_with_slash b.
Proof.
  intros Hb. induction a as [|x a IH]; [reflexivity|].
  rewrite append_cons. simpl.
  destruct (a +:+ b) eqn:E; [|exact IH].
  destruct a; [rewrite append_nil_l in E; subst b|rewrite append_cons in E];
    discriminate.
Qed.

Lemma ends_with_slash_contains (s : string) :
  ends_with_slash s = true -> str_contains slash s = true.
Proof.
  induction s as [|a s IH]; simpl; [discriminate|].
  destruct s as [|b s]; [intros ->; reflexivity|].
  intros H. rewrite (IH H). apply orb_true_r.
Qed.

Lemma wf_name_no_leading_slash (name : string) :
  wf_name name -> starts_with_slash name = false.
Proof.
  intros (_ & Hs & _). destruct name as [|a name]; [reflexivity|].
  simpl in *. apply orb_false_iff in Hs as [Ha _]. exact Ha.
Qed.

(** *** The scenario of the specification *)

(** The tree of the specification's scenario: [/a] holds the directory [b]
    and the file [f1], [/a/b] holds the file [f2]. *)
Definition tree_env : Env :=
  with_listdir
    (fun path =>
       if String.eqb path "/a"
       then Ok [entry "b" dir_mode 0; entry "f1" file_mode 5]
       else if String.eqb path "/a/b" then Ok [entry "f2" file_mode 7]
       else Ok [])
    calm_env.

(** The scenario of the specification: [f2], [b], [f1], [a]. *)
Example delete_of_the_scenario_tree :
  observe (_sftp_rm_recursive tree_env 2 "/a" connected_widget)
  = (Returns tt,
     [append_log "Recursively deleted remote directory: /a/b" false;
      append_log "Recursively deleted remote directory: /a" false],
     [Ev (SftpListdirAttr "/a")
         (Returned (VAttrs [entry "b" dir_mode 0; entry "f1" file_mode 5]));
      Ev (SftpListdirAttr "/a/b")
         (Returned (VAttrs [entry "f2" file_mode 7]));
      Ev (SftpRemove "/a/b/f2") (Returned VNone);
      Ev (SftpRmdir "/a/b") (Returned VNone);
      Ev (SftpRemove "/a/f1") (Returned VNone);
      Ev (SftpRmdir "/a") (Returned VNone)],
     true).
Proof. vm_compute. reflexivity. Qed.

(** *** A name with a backslash *)




(** ** Recursive download *)

(** A download of [/home/user/docs] in which the copy of [a.txt] fails. *)
Definition docs_env : Env :=
  with_get
    (fun remotepath =>
       if String.eqb remotepath "/home/user/docs/a.txt"
       then ([], Some (Exn IOError "Permission denied"))
       else ([], None))
    (with_listdir
       (fun path =>
          if String.eqb path "/home/user/docs"
          then Ok [entry "a.txt" file_mode 3; entry "b.txt" file_mode 4]
          else Ok [])
       calm_env).

(** The worker calls itself on each entry, and each call has its own
    handler: the failed copy of [a.txt] is logged by the inner call, the
    loop of the outer call goes on with [b.txt], and the outer call reports
    success. *)
Example download_goes_on_after_failed_file :
  let run := _download_worker docs_env 2 "/home/user/docs" "/home/me" true
               connected_widget in
  map ev_call (issued (snd run))
  = [OsMakedirs "/home/me/docs";
     SftpListdirAttr "/home/user/docs";
     SftpStat "/home/user/docs/a.txt";
     SftpGet "/home/user/docs/a.txt" "/home/me/docs/a.txt";
     SftpStat "/home/user/docs/b.txt";
     SftpGet "/home/user/docs/b.txt" "/home/me/docs/b.txt"]
  /\ ui_queue (snd run)
     = [append_log "Downloading directory /home/user/docs to /home/me/docs..."
          false;
        append_log
          "Downloading file /home/user/docs/a.txt to /home/me/docs/a.txt..."
          false;
        append_log "Download failed for a.txt: Permission denied" true;
        append_log
          "Downloading file /home/user/docs/b.txt to /home/me/docs/b.txt..."
          false;
        append_log "File download successful: b.txt" false;
        refresh_local_view;
        append_log "Directory download successful: docs" false;
        refresh_local_view].
Proof. vm_compute. split; reflexivity. Qed.

(** * Further properties of the engine *)

(** ** [_format_size]: the magnitude of the number printed *)

Lemma bit_length_bounds (n : Z) :
  0 < n -> 2 ^ (bit_length n - 1) <= n < 2 ^ bit_length n.
Proof.
  intros Hn. unfold bit_length.
  destruct (Z.eqb_spec n 0) as [->|_]; [lia|].
  rewrite Z.abs_eq by lia.
  replace (Z.log2 n + 1 - 1) with (Z.log2 n) by lia.
  replace (Z.log2 n + 1) with (Z.succ (Z.log2 n)) by lia.
  apply Z.log2_spec. exact Hn.
Qed.

(** X1. The unit changes at [512], [512 KiB], ...: the number handed to [round]
    lies between one half and five hundred and twelve. *)
Theorem format_size_magnitude (rnd : Z -> Z -> string) (s : Z) :
  0 < s < 2 ^ 49 ->
  exists unit_name,
    size_name !! Z.to_nat (size_unit_index s) = Some unit_name
    /\ _format_size rnd s
       = Ok (rnd s (1024 ^ size_unit_index s) +:+ " " +:+ unit_name)
    /\ 1024 ^ size_unit_index s <= 2 * s < 1024 * 1024 ^ size_unit_index s.
Proof.
  intros [Hpos Hlt].
  pose proof (bit_length_bounds s Hpos) as [Hlo Hhi].
  pose proof (bit_length_gt s 0 ltac:(lia) ltac:(simpl; lia)) as Hb.
  pose proof (bit_length_le s 49 ltac:(lia) ltac:(lia)) as Hb49.
  set (b := bit_length s) in *.
  assert (Hi : 0 <= size_unit_index s <= 4).
  { unfold size_unit_index. fold b. split; [apply Z.div_pos; lia|].
    apply Z.lt_succ_r. apply Z.div_lt_upper_bound; lia. }
  destruct (size_name_lookup _ Hi) as [u Hu].
  exists u. split; [exact Hu|]. split.
  - unfold _format_size. destruct (Z.eqb_spec s 0) as [->|_]; [lia|].
    rewrite Hu. reflexivity.
  - set (i := size_unit_index s) in *.
    assert (Hdiv : 10 * i <= b < 10 * i + 10).
    { unfold i, size_unit_index. fold b.
      pose proof (Z.div_mod b 10 ltac:(lia)).
      pose proof (Z.mod_pos_bound b 10 ltac:(lia)). lia. }
    assert (Hp : 1024 ^ i = 2 ^ (10 * i)).
    { change 1024 with (2 ^ 10). rewrite <- Z.pow_mul_r by lia. reflexivity. }
    rewrite Hp. split.
    + assert (2 ^ (10 * i) <= 2 ^ b) by (apply Z.pow_le_mono_r; lia).
      replace b with (Z.succ (b - 1)) in H by lia.
      rewrite Z.pow_succ_r in H by lia. lia.
    + assert (2 ^ b <= 2 ^ (10 * i + 9)) by (apply Z.pow_le_mono_r; lia).
      rewrite Z.pow_add_r in H by lia. change (2 ^ 9) with 512 in H. lia.
Qed.

Lemma format_size_magnitude_witness :
  exists unit_name,
    size_name !! Z.to_nat (size_unit_index 512) = Some unit_name
    /\ _format_size (fun _ _ => "0.5") 512
       = Ok ("0.5" +:+ " " +:+ unit_name)
    /\ 1024 ^ size_unit_index 512 <= 2 * 512 < 1024 * 1024 ^ size_unit_index 512.
Proof. apply (format_size_magnitude (fun _ _ => "0.5") 512). lia. Defined.

(** ** The workers never raise; a directory download succeeds whatever
    happens to its entries *)

Lemma download_worker_never_raises (env : Env) (fuel : nat)
    (remote_path local_dest_dir : string) (is_dir : bool) (w : widget) (e : exn) :
  fst (_download_worker env fuel remote_path local_dest_dir is_dir w)
  <> Throws e.
Proof.
  destruct fuel; simpl; unfold bind, gets; destruct (sftp_client w);
    try discriminate.
  unfold try_except.
  match goal with |- context [match ?m w with _ => _ end] =>
    destruct (m w) as [[a|e'|] w1] end; discriminate.
Qed.

Lemma for_each_never_raises {A} (body : A -> M unit) (l : list A) :
  (forall x w e, fst (body x w) <> Throws e) ->
  forall w e, fst (for_each l body w) <> Throws e.
Proof.
  intros Hb. induction l as [|x l IH]; intros w e; [discriminate|].
  simpl. unfold bind. specialize (Hb x w).
  destruct (body x w) as [[[]|e'|] w1]; simpl in *.
  - apply IH.
  - exfalso. exact (Hb e' eq_refl).
  - discriminate.
Qed.

(** [m] does not stop for want of fuel, and what it returns satisfies
    [P]. *)
Definition ends {A} (m : M A) (P : A -> Prop) : Prop :=
  forall w,
    match fst (m w) with
    | Returns a => P a
    | Throws _ => True
    | OutOfFuel => False
    end.

Lemma ends_ret {A} (a : A) (P : A -> Prop) : P a -> ends (ret a) P.
Proof. intros H w. exact H. Qed.

Lemma ends_raise {A} (e : exn) (P : A -> Prop) : ends (raise e) P.
Proof. intros w. exact I. Qed.

Lemma ends_bind {A B} (m : M A) (k : A -> M B) (P : A -> Prop)
    (Q : B -> Prop) :
  ends m P -> (forall a, P a -> ends (k a) Q) -> ends (bind m k) Q.
Proof.
  intros Hm Hk w. specialize (Hm w). unfold bind.
  destruct (m w) as [[a|e|] w1]; simpl in *; [|exact I|exact Hm].
  apply (Hk a Hm).
Qed.

Lemma ends_try_except {A} (m : M A) (handler : exn -> M A) (Q : A -> Prop) :
  ends m Q -> (forall e, ends (handler e) Q) -> ends (try_except m handler) Q.
Proof.
  intros Hm Hh w. specialize (Hm w). unfold try_except.
  destruct (m w) as [[a|e|] w1]; simpl in *; [exact Hm| |exact Hm].
  apply Hh.
Qed.

Lemma ends_gets {A} (f : widget -> A) : ends (gets f) (fun _ => True).
Proof. intros w. exact I. Qed.

Lemma ends_modify (f : widget -> widget) : ends (modify f) (fun _ => True).
Proof. intros w. exact I. Qed.

Lemma ends_weaken {A} (m : M A) (P : A -> Prop) :
  ends m P -> ends m (fun _ => True).
Proof.
  intros Hm w. specialize (Hm w). destruct (fst (m w)); auto.
Qed.

Lemma ends_call_unit (c : call) (answer : list event -> option exn) :
  ends (call_unit c answer) (fun _ => True).
Proof.
  intros w. unfold call_unit, bind, gets, record_event, modify, raise.
  destruct (answer (issued w)); exact I.
Qed.

Lemma ends_call_value {A} (c : call) (inj : A -> value)
    (answer : list event -> result A) :
  ends (call_value c inj answer) (fun a => exists h, answer h = Ok a).
Proof.
  intros w. unfold call_value, bind, gets, record_event, modify, raise, ret.
  destruct (answer (issued w)) eqn:E; simpl; eauto.
Qed.

Lemma ends_the_sftp_client (attr : string) :
  ends (the_sftp_client attr) (fun _ => True).
Proof.
  intros w. unfold the_sftp_client, bind, gets.
  destruct (sftp_client w); exact I.
Qed.

Lemma ends_for_each {A} (l : list A) (body : A -> M unit) :
  Forall (fun x => ends (body x) (fun _ => True)) l ->
  ends (for_each l body) (fun _ => True).
Proof.
  induction 1 as [|x l Hx _ IH]; [intros w; exact I|].
  simpl. eapply ends_bind; [exact Hx|]. intros _ _. exact IH.
Qed.

Lemma ends_transfer (c : call)
    (answer : list event -> list Z * option exn) (cb : progress_callback) :
  ends (transfer c answer cb) (fun _ => True).
Proof.
  unfold transfer. eapply ends_bind; [apply ends_gets|]. intros h _.
  destruct (answer h) as [reports failure].
  destruct (run_progress cb reports) as [percents cb_failure].
  eapply ends_bind.
  - unfold log_progress. apply ends_for_each. apply Forall_forall.
    intros x _. apply ends_modify.
  - intros _ _.
    destruct cb_failure; [|destruct failure];
      try (eapply ends_bind; [apply ends_modify|]; intros; apply ends_raise).
    apply ends_modify.
Qed.

Lemma ends_download_single_file (env : Env)
    (remote_path local_path basename : string) :
  ends (download_single_file env remote_path local_path basename)
    (fun _ => True).
Proof.
  unfold download_single_file.
  eapply ends_bind; [apply ends_the_sftp_client|]. intros _ _.
  eapply ends_bind; [apply ends_call_value|]. intros file_attrs _.
  eapply ends_bind; [apply ends_modify|]. intros _ _.
  eapply ends_bind; [|intros; apply ends_modify].
  unfold get. eapply ends_bind; [apply ends_the_sftp_client|]. intros _ _.
  apply ends_transfer.
Qed.

(** [fuel] is enough for the download of [remote_path]: whatever the
    server lists, the directories below it are less than [fuel] deep. *)
Fixpoint fits (env : Env) (fuel : nat) (remote_path : string) (is_dir : bool)
  : Prop :=
  match fuel with
  | O => False
  | S fuel' =>
      is_dir = true ->
      forall h items,
        sftp_listdir_attr env h remote_path = Ok items ->
        Forall
          (fun item =>
             fits env fuel' (remote_join remote_path (filename item))
               (S_ISDIR (st_mode item)))
          items
  end.

Lemma download_worker_ends (env : Env) (fuel : nat) :
  forall remote_path local_dest_dir is_dir,
    fits env fuel remote_path is_dir ->
    ends (_download_worker env fuel remote_path local_dest_dir is_dir)
      (fun _ => True).
Proof.
  induction fuel as [|fuel IH]; intros remote_path local_dest_dir is_dir Hf;
    [destruct Hf|].
  simpl. eapply ends_bind; [apply ends_gets|]. intros client _.
  destruct client; [|apply ends_ret; exact I].
  apply ends_try_except; [|intros e; apply ends_modify].
  eapply ends_bind; [|intros; apply ends_modify].
  destruct is_dir; simpl negb; cbv iota.
  - eapply ends_bind; [apply ends_modify|]. intros _ _.
    eapply ends_bind; [apply ends_call_unit|]. intros _ _.
    eapply ends_bind.
    + unfold listdir_attr.
      eapply ends_bind; [apply ends_the_sftp_client|]. intros _ _.
      apply ends_call_value.
    + intros items [h Hl].
      eapply ends_bind; [|intros; apply ends_modify].
      apply ends_for_each. specialize (Hf eq_refl h items Hl).
      eapply Forall_impl; [exact Hf|]. intros item Hitem.
      apply IH. exact Hitem.
  - apply ends_download_single_file.
Qed.

(** X3. A directory download whose local directory is made and whose remote
    directory is listed returns, reports success and asks for a refresh of the
    local panel, whatever became of the entries: an entry that fails is logged
    by its own call of the worker. *)
Theorem directory_download_reports_success (env : Env) (fuel : nat)
    (remote_path local_dest_dir : string) (items : list SFTPAttributes)
    (w : widget) :
  is_Some (sftp_client w) ->
  fits env fuel remote_path true ->
  let basename := os_path_basename remote_path in
  let local_path := os_path_join local_dest_dir basename in
  os_makedirs env (issued w) local_path = None ->
  sftp_listdir_attr env
    (issued w ++ [Ev (OsMakedirs local_path) (Returned VNone)])%list
    remote_path = Ok items ->
  let run := _download_worker env fuel remote_path local_dest_dir true w in
  fst run = Returns tt
  /\ exists put,
       ui_queue (snd run)
       = (put ++ [append_log ("Directory download successful: " +:+ basename)
                    false;
                  refresh_local_view])%list.
Proof.
  intros [client Hc] Hf. cbv zeta. intros Hmk Hls.
  destruct fuel as [|fuel]; [destruct Hf|]. simpl in Hf. simpl.
  unfold listdir_attr, the_sftp_client. run. rewrite Hc. run.
  rewrite Hmk. run. rewrite Hc. run. rewrite Hls. run.
  specialize (Hf eq_refl _ items Hls).
  match goal with |- context [for_each items ?body ?v] =>
    pose proof (for_each_never_raises body items
                  (fun x w' e =>
                     download_worker_never_raises env fuel _ _ _ w' e) v)
      as Hnr;
    assert (He : ends (for_each items body) (fun _ => True))
      by (apply ends_for_each; eapply Forall_impl; [exact Hf|];
          intros item Hitem; apply download_worker_ends; exact Hitem);
    specialize (He v);
    destruct (for_each items body v) as [[[]|e|] w1] end.
  - run. split; [reflexivity|].
    eexists. rewrite <- app_assoc. reflexivity.
  - exfalso. exact (Hnr e eq_refl).
  - destruct He.
Qed.

Lemma directory_download_reports_success_witness :
  let run := _download_worker docs_env 2 "/home/user/docs" "/home/me" true
               connected_widget in
  fst run = Returns tt
  /\ exists put,
       ui_queue (snd run)
       = (put ++ [append_log
                    ("Directory download successful: "
                       +:+ os_path_basename "/home/user/docs") false;
                  refresh_local_view])%list.
Proof.
  cbv zeta.
  eapply (directory_download_reports_success docs_env 2 "/home/user/docs"
            "/home/me" _ connected_widget).
  - vm_compute. eauto.
  - simpl. intros _ h items.
    destruct (String.eqb "/home/user/docs" "/home/user/docs") eqn:E;
      [|discriminate E].
    intros [= <-]. repeat constructor; discriminate.
  - reflexivity.
  - vm_compute. reflexivity.
Defined.

(** ** Deleting a local directory *)

(** X4. [delete_task] reaches [shutil.rmtree] through a name the module never
    binds: the task removes nothing, asks for no refresh and logs the
    [NameError]. *)
Theorem local_directory_delete_removes_nothing (env : Env) (fuel : nat)
    (full_path : string) (w : widget) :
  delete_task env fuel full_path true true w
  = (Returns tt,
     set_ui_queue
       (ui_queue w
          ++ [append_log "Delete failed: name 'shutil' is not defined" true])
       w).
Proof. unfold delete_task. rewrite run_try_except. reflexivity. Qed.

(** ** More of the authentication pass *)

(** The calls that show the session root. *)
Definition browses (ev : event) : Prop :=
  match ev_call ev with
  | SftpNormalize _ | SftpListdirAttr _ => True
  | _ => False
  end.

(** A stretch of a run that only looks at the server. *)
Definition browsing_stretch (w w1 : widget) : Prop :=
  sftp_client w1 = sftp_client w
  /\ exists new,
       issued w1 = (issued w ++ new)%list /\ Forall browses new.

Lemma browsing_stretch_trans (w w1 w2 : widget) :
  browsing_stretch w w1 -> browsing_stretch w1 w2 -> browsing_stretch w w2.
Proof.
  intros (Hc & n1 & Hi & Hn) (Hc2 & n2 & Hi2 & Hn2).
  split; [congruence|]. exists (n1 ++ n2)%list.
  rewrite Hi2, Hi, app_assoc. split; [reflexivity|].
  apply Forall_app. auto.
Qed.

Lemma listing_browses (env : Env) (path : string) (w : widget) :
  exists w1,
    _load_remote_directory env path w = (Returns tt, w1)
    /\ browsing_stretch w w1.
Proof.
  unfold _load_remote_directory, listdir_attr, the_sftp_client. run.
  assert (L : forall o, Forall browses [Ev (SftpListdirAttr path) o]).
  { intros o. repeat constructor. }
  destruct (sftp_client w) as [client|] eqn:Ec; run.
  - destruct (sftp_listdir_attr env (issued w) path) as [items|e]; run.
    + destruct (rows_of_listing env path items) as [rows|e]; run;
        (eexists; split; [reflexivity|]; split; [reflexivity|];
         eexists; run; split; [reflexivity|apply L]).
    + eexists; split; [reflexivity|]. split; [reflexivity|].
      eexists; run. split; [reflexivity|apply L].
  - eexists; split; [reflexivity|]. split; [reflexivity|].
    exists []. run. split; [symmetry; apply app_nil_r|constructor].
Qed.

Lemma initial_directory_browses (env : Env) (w : widget) :
  is_Some (sftp_client w) ->
  exists r w1,
    show_initial_directory env w = (r, w1) /\ browsing_stretch w w1.
Proof.
  intros [client Ec]. unfold show_initial_directory, the_sftp_client. run.
  rewrite Ec. run.
  assert (L : forall o, Forall browses [Ev (SftpNormalize ".") o]).
  { intros o. repeat constructor. }
  destruct (sftp_normalize env (issued w) ".") as [initial_path|e] eqn:En; run.
  - match goal with |- context [_load_remote_directory env ?p ?v] =>
      destruct (listing_browses env p v) as (w1 & E1 & Q1); rewrite E1 end.
    run. eexists _, _. split; [reflexivity|].
    eapply browsing_stretch_trans; [|eapply browsing_stretch_trans; [exact Q1|]].
    + split; [reflexivity|].
      exists [Ev (SftpNormalize ".") (Returned (VStr initial_path))].
      run. split; [reflexivity|apply L].
    + split; [reflexivity|]. exists []. run.
      split; [symmetry; apply app_nil_r|constructor].
  - eexists _, _. split; [reflexivity|]. split; [reflexivity|].
    exists [Ev (SftpNormalize ".") (Raised e)]. run.
    split; [reflexivity|apply L].
Qed.

(** X5. A password handed to the pass and accepted by the server ends the
    negotiation: the session is opened with it, and whatever the pass does
    afterwards only looks at the server; the key file and the keyring are not
    tried. *)
Theorem supplied_password_accepted (env : Env) (w : widget)
    (username_from_prompt key_passphrase : option string)
    (host_str user host pw : string) :
  cfg_host (host_config w) = Some host_str ->
  user_and_host host_str username_from_prompt = Some (user, host) ->
  str_truthy pw = true ->
  let a := supplied_password_args user host (port_of (host_config w))
             (Some pw) in
  ssh_connect env (issued w) a = None ->
  ssh_open_sftp env (issued w ++ [Ev (SshConnect a) (Returned VNone)]) = None ->
  let run := _sftp_connect_worker env username_from_prompt key_passphrase
               (Some pw) w in
  sftp_client (snd run) = Some {| opened_on := Some a |}
  /\ exists new,
       issued (snd run)
       = (issued w
            ++ [Ev (SshConnect a) (Returned VNone);
                Ev SshOpenSftp (Returned VNone)] ++ new)%list
       /\ Forall browses new.
Proof.
  intros Hhost Huser Hpw. cbv zeta. intros Hc Ho.
  unfold _sftp_connect_worker. run. rewrite Hhost, Huser.
  unfold negotiate, try_supplied_password. simpl opt_truthy. rewrite Hpw. run.
  match goal with |- context [connect_and_open env ?a ?v] =>
    rewrite (connect_accepted env a v Hc Ho) end.
  run.
  match goal with |- context [show_initial_directory env ?v] =>
    destruct (initial_directory_browses env v ltac:(simpl; eauto))
      as (r & w1 & E1 & Hc1 & new1 & Hi1 & Hn1); rewrite E1 end.
  run. simpl in Hc1, Hi1.
  destruct r as [[]|e|]; run.
  - split; [exact Hc1|]. exists new1. rewrite Hi1, <- app_assoc.
    split; [reflexivity|exact Hn1].
  - unfold try_key. run. rewrite Hc1.
    destruct (cfg_key_path (host_config w)); run;
      unfold try_saved_password; run; rewrite Hc1; run;
      unfold finish_pass; run; rewrite Hc1;
      match goal with |- context [show_initial_directory env ?v] =>
        destruct (initial_directory_browses env v
                    ltac:(simpl; rewrite Hc1; eauto))
          as (r2 & w2 & E2 & Hc2 & new2 & Hi2 & Hn2); rewrite E2 end;
      simpl in Hc2, Hi2; simpl;
      (split; [congruence|]; exists (new1 ++ new2)%list;
       rewrite Hi2, Hi1, <- !app_assoc;
       split; [reflexivity|apply Forall_app; auto]).
  - split; [exact Hc1|]. exists new1. rewrite Hi1, <- app_assoc.
    split; [reflexivity|exact Hn1].
Qed.

Lemma supplied_password_accepted_witness :
  let w := fresh_widget None ∅ in
  let a := supplied_password_args "user" "h" 22 (Some "pw") in
  let run := _sftp_connect_worker calm_env None None (Some "pw") w in
  sftp_client (snd run) = Some {| opened_on := Some a |}
  /\ exists new,
       issued (snd run)
       = (issued w
            ++ [Ev (SshConnect a) (Returned VNone);
                Ev SshOpenSftp (Returned VNone)] ++ new)%list
       /\ Forall browses new.
Proof.
  cbv zeta.
  apply (supplied_password_accepted calm_env (fresh_widget None ∅) None None
           "user@h" "user" "h" "pw"); reflexivity.
Defined.

(** The pass when the key file needs a passphrase. *)
Lemma key_wants_passphrase (env : Env) (w : widget)
    (username_from_prompt key_passphrase : option string)
    (host_str user host key : string) (e : exn) :
  sftp_client w = None ->
  cfg_host (host_config w) = Some host_str ->
  user_and_host host_str username_from_prompt = Some (user, host) ->
  cfg_key_path (host_config w) = Some key ->
  str_truthy key = true ->
  let a := key_args user host (port_of (host_config w)) (Some key)
             key_passphrase in
  ssh_connect env (issued w) a = Some e ->
  is_PasswordRequired e = true ->
  _sftp_connect_worker env username_from_prompt key_passphrase None w
  = (Returns tt,
     set_issued
       (issued w
          ++ [Ev (SshConnect a) (Raised e);
              Ev (IdleAdd (prompt_for_key_password key)) (Returned VNone)])
       (set_ui_queue
          (ui_queue w
             ++ [append_log "Attempting connection with SSH key..." false;
                 append_log
                   "SSH key is encrypted. Please enter the passphrase." false])
          (set_ssh_client (Some {| connected_with := None |}) w))).
Proof.
  intros Hnone Hhost Huser Hkey Ht. cbv zeta. intros Hc Hp.
  unfold _sftp_connect_worker. run. rewrite Hhost, Huser.
  unfold negotiate, try_supplied_password. simpl opt_truthy. run.
  unfold try_key. run. rewrite Hnone, Hkey, Ht. run.
  match goal with |- context [connect_and_open env ?a ?v] =>
    rewrite (connect_refused env a e v Hc) end.
  run. rewrite Hp. run. rewrite <- !app_assoc. reflexivity.
Qed.

(** X6. A key file that needs a passphrase ends the pass with the passphrase
    prompt: nothing is connected, and a password stored in the keyring is not
    tried. *)
Theorem encrypted_key_asks_for_passphrase (env : Env) (w : widget)
    (username_from_prompt key_passphrase : option string)
    (host_str user host key : string) (e : exn) :
  sftp_client w = None ->
  cfg_host (host_config w) = Some host_str ->
  user_and_host host_str username_from_prompt = Some (user, host) ->
  cfg_key_path (host_config w) = Some key ->
  str_truthy key = true ->
  let a := key_args user host (port_of (host_config w)) (Some key)
             key_passphrase in
  ssh_connect env (issued w) a = Some e ->
  is_PasswordRequired e = true ->
  let run := _sftp_connect_worker env username_from_prompt key_passphrase
               None w in
  fst run = Returns tt
  /\ sftp_client (snd run) = None
  /\ issued (snd run)
     = (issued w
          ++ [Ev (SshConnect a) (Raised e);
              Ev (IdleAdd (prompt_for_key_password key)) (Returned VNone)])%list
  /\ ui_queue (snd run)
     = (ui_queue w
          ++ [append_log "Attempting connection with SSH key..." false;
              append_log "SSH key is encrypted. Please enter the passphrase."
                false])%list.
Proof.
  intros Hnone Hhost Huser Hkey Ht. cbv zeta. intros Hc Hp.
  rewrite (key_wants_passphrase env w username_from_prompt key_passphrase
             host_str user host key e Hnone Hhost Huser Hkey Ht Hc Hp).
  repeat split. exact Hnone.
Qed.

(** The server of this scenario wants a passphrase for every key. *)
Definition encrypted_key_env : Env :=
  with_connect
    (fun a =>
       match ca_key_filename a with
       | Some _ =>
           Some (Exn PasswordRequiredException "Private key file is encrypted")
       | None => None
       end)
    calm_env.

Lemma encrypted_key_asks_for_passphrase_witness :
  let w := fresh_widget (Some "h") {[ "h" := "s3cret" ]} in
  let a := key_args "user" "h" 22 (Some "/bad/key") None in
  let e := Exn PasswordRequiredException "Private key file is encrypted" in
  let run := _sftp_connect_worker encrypted_key_env None None None w in
  fst run = Returns tt
  /\ sftp_client (snd run) = None
  /\ issued (snd run)
     = (issued w
          ++ [Ev (SshConnect a) (Raised e);
              Ev (IdleAdd (prompt_for_key_password "/bad/key"))
                (Returned VNone)])%list
  /\ ui_queue (snd run)
     = (ui_queue w
          ++ [append_log "Attempting connection with SSH key..." false;
              append_log "SSH key is encrypted. Please enter the passphrase."
                false])%list.
Proof.
  cbv zeta.
  apply (encrypted_key_asks_for_passphrase encrypted_key_env
           (fresh_widget (Some "h") {[ "h" := "s3cret" ]}) None None
           "user@h" "user" "h" "/bad/key"
           (Exn PasswordRequiredException "Private key file is encrypted"));
    reflexivity.
Defined.

(** X7. A key attempt that fails with anything but an authentication error ends
    the pass with an error line: no password is tried, stored or not, and no
    prompt is handed to the main loop. *)
Theorem key_failure_stops_pass (env : Env) (w : widget)
    (username_from_prompt key_passphrase : option string)
    (host_str user host key : string) (e : exn) :
  sftp_client w = None ->
  cfg_host (host_config w) = Some host_str ->
  user_and_host host_str username_from_prompt = Some (user, host) ->
  cfg_key_path (host_config w) = Some key ->
  str_truthy key = true ->
  let a := key_args user host (port_of (host_config w)) (Some key)
             key_passphrase in
  ssh_connect env (issued w) a = Some e ->
  is_Authentication e = false ->
  let run := _sftp_connect_worker env username_from_prompt key_passphrase
               None w in
  fst run = Returns tt
  /\ sftp_client (snd run) = None
  /\ issued (snd run) = (issued w ++ [Ev (SshConnect a) (Raised e)])%list
  /\ ui_queue (snd run)
     = (ui_queue w
          ++ [append_log "Attempting connection with SSH key..." false;
              append_log ("SFTP connection failed with key: " +:+ exn_str e)
                true])%list.
Proof.
  intros Hnone Hhost Huser Hkey Ht. cbv zeta. intros Hc Ha.
  assert (Hp : is_PasswordRequired e = false).
  { unfold is_Authentication in Ha. apply orb_false_iff in Ha as [_ Ha].
    exact Ha. }
  unfold _sftp_connect_worker. run. rewrite Hhost, Huser.
  unfold negotiate, try_supplied_password. simpl opt_truthy. run.
  unfold try_key. run. rewrite Hnone, Hkey, Ht. run.
  match goal with |- context [connect_and_open env ?a ?v] =>
    rewrite (connect_refused env a e v Hc) end.
  run. rewrite Hp, Ha. run.
  split; [reflexivity|]. split; [exact Hnone|].
  rewrite <- !app_assoc. split; reflexivity.
Qed.

(** The server of this scenario does not answer. *)
Definition silent_env : Env :=
  with_connect (fun _ => Some (Exn OSError "timed out")) calm_env.

Lemma key_failure_stops_pass_witness :
  let w := fresh_widget (Some "h") {[ "h" := "s3cret" ]} in
  let a := key_args "user" "h" 22 (Some "/bad/key") None in
  let run := _sftp_connect_worker silent_env None None None w in
  fst run = Returns tt
  /\ sftp_client (snd run) = None
  /\ issued (snd run)
     = (issued w ++ [Ev (SshConnect a) (Raised (Exn OSError "timed out"))])%list
  /\ ui_queue (snd run)
     = (ui_queue w
          ++ [append_log "Attempting connection with SSH key..." false;
              append_log
                ("SFTP connection failed with key: "
                   +:+ exn_str (Exn OSError "timed out")) true])%list.
Proof.
  cbv zeta.
  apply (key_failure_stops_pass silent_env
           (fresh_widget (Some "h") {[ "h" := "s3cret" ]}) None None
           "user@h" "user" "h" "/bad/key" (Exn OSError "timed out"));
    reflexivity.
Defined.

(** ** The order of the calls of a recursive remote delete *)

(** The calls of a recursive delete. *)
Definition delete_call (c : call) : Prop :=
  match c with
  | SftpListdirAttr _ | SftpRemove _ | SftpRmdir _ => True
  | _ => False
  end.

(** A call that returned. *)
Definition returned (ev : event) : Prop :=
  match ev_outcome ev with
  | Returned _ => True
  | Raised _ => False
  end.

(** The call that removes an entry of [dir], returned without raising:
    [rmdir] for a subdirectory, [remove] for a file, on the path that
    [_sftp_rm_recursive] makes for the entry. *)
Definition removal (dir : string) (item : SFTPAttributes) : event :=
  let full_remote_path := remote_join dir (filename item) in
  Ev (if S_ISDIR (st_mode item) then SftpRmdir full_remote_path
      else SftpRemove full_remote_path)
     (Returned VNone).

(** Bottom-up: an [rmdir dir] comes after a listing of [dir] that
    returned, and between the two there is a removal of every entry of
    that listing. *)
Definition bottom_up (tr : list event) : Prop :=
  forall before dir o after,
    tr = (before ++ Ev (SftpRmdir dir) o :: after)%list ->
    exists earlier items between,
      before
      = (earlier
           ++ Ev (SftpListdirAttr dir) (Returned (VAttrs items)) :: between)%list
      /\ Forall (fun item => In (removal dir item) between) items.

(** [fuel] is enough for the delete of [path]: whatever the server lists,
    the directories below [path] are less than [fuel] deep. *)
Fixpoint shallow (env : Env) (fuel : nat) (path : string) : Prop :=
  match fuel with
  | O => False
  | S fuel' =>
      forall h items,
        sftp_listdir_attr env h path = Ok items ->
        Forall
          (fun item =>
             S_ISDIR (st_mode item) = true ->
             shallow env fuel' (remote_join path (filename item)))
          items
  end.

(** How a delete of [path] completed, on the calls it issued. *)
Definition completed (path : string) (r : completion unit)
    (new : list event) : Prop :=
  match r with
  | Returns _ =>
      Forall returned new
      /\ exists items between,
           new = (Ev (SftpListdirAttr path) (Returned (VAttrs items))
                    :: between ++ [Ev (SftpRmdir path) (Returned VNone)])%list
  | Throws e =>
      exists t c, new = (t ++ [Ev c (Raised e)])%list /\ Forall returned t
  | OutOfFuel => True
  end.

Lemma split_in_app {A} (n1 n2 before after : list A) (x : A) :
  (n1 ++ n2)%list = (before ++ x :: after)%list ->
  (exists after1, n1 = (before ++ x :: after1)%list)
  \/ (exists before2,
        before = (n1 ++ before2)%list /\ n2 = (before2 ++ x :: after)%list).
Proof.
  intros Heq. apply app_eq_app in Heq as [l [[H1 H2]|[H1 H2]]].
  - destruct l as [|y l].
    + right. exists []. rewrite app_nil_r in H1. subst.
      rewrite app_nil_r. simpl in *. auto.
    + injection H2 as <- H2. left. exists l. exact H1.
  - right. eauto.
Qed.

Lemma bottom_up_nil : bottom_up [].
Proof. intros before dir o after H. destruct before; discriminate. Qed.

Lemma bottom_up_single (ev : event) :
  (forall dir, ev_call ev <> SftpRmdir dir) -> bottom_up [ev].
Proof.
  intros Hno before dir o after H.
  destruct before as [|x before]; [|destruct before; discriminate].
  injection H as ->. exfalso. now apply (Hno dir).
Qed.

Lemma bottom_up_app (n1 n2 : list event) :
  bottom_up n1 -> bottom_up n2 -> bottom_up (n1 ++ n2).
Proof.
  intros H1 H2 before dir o after Heq.
  apply split_in_app in Heq as [(after1 & E1)|(before2 & -> & E2)].
  - apply (H1 before dir o after1 E1).
  - destruct (H2 before2 dir o after E2) as (earlier & items & between & -> & Hall).
    exists (n1 ++ earlier)%list, items, between.
    split; [now rewrite <- app_assoc|exact Hall].
Qed.

(** The calls of one directory: its listing, the calls for its entries,
    and its [rmdir] when every entry has been removed. *)
Lemma bottom_up_directory (dir : string) (listing : outcome)
    (mid tail : list event) :
  bottom_up mid ->
  (tail = []
   \/ exists o items,
        tail = [Ev (SftpRmdir dir) o]
        /\ listing = Returned (VAttrs items)
        /\ Forall (fun item => In (removal dir item) mid) items) ->
  bottom_up (Ev (SftpListdirAttr dir) listing :: mid ++ tail).
Proof.
  intros Hmid Htail before d o after Heq.
  destruct before as [|first before]; [discriminate|].
  injection Heq as <- Heq.
  apply split_in_app in Heq as [(after1 & E1)|(before2 & -> & E2)].
  - destruct (Hmid before d o after1 E1) as (earlier & items & between & -> & Hall).
    exists (Ev (SftpListdirAttr dir) listing :: earlier), items, between.
    split; [reflexivity|exact Hall].
  - destruct Htail as [->|(o' & items & -> & -> & Hall)];
      [destruct before2; discriminate|].
    destruct before2 as [|y before2];
      [|injection E2 as _ E2; destruct before2; discriminate].
    injection E2 as <- <- <-. rewrite app_nil_r.
    exists [], items, mid. split; [reflexivity|exact Hall].
Qed.

(** A loop whose invariant knows the entries already processed. *)
Lemma emits_for_each_indexed {A} (body : A -> M unit) (l : list A)
    (I : list A -> list event -> list ui_work -> Prop)
    (R : completion unit -> list event -> list ui_work -> Prop) :
  I [] [] [] ->
  (forall done x rest n p,
     l = (done ++ x :: rest)%list -> I done n p ->
     emits (body x)
       (fun r n2 p2 =>
          match r with
          | Returns _ => I (done ++ [x])%list (n ++ n2)%list (p ++ p2)%list
          | _ => R r (n ++ n2)%list (p ++ p2)%list
          end)) ->
  emits (for_each l body)
    (fun r n p => match r with Returns _ => I l n p | _ => R r n p end).
Proof.
  intros HI Hbody.
  assert (G : forall rest done n0 p0,
            l = (done ++ rest)%list -> I done n0 p0 ->
            emits (for_each rest body)
              (fun r n p =>
                 match r with
                 | Returns _ => I l (n0 ++ n)%list (p0 ++ p)%list
                 | _ => R r (n0 ++ n)%list (p0 ++ p)%list
                 end)).
  { induction rest as [|x rest IH]; intros done n0 p0 Hl H0; simpl.
    - apply emits_ret. rewrite !app_nil_r. rewrite app_nil_r in Hl. now subst.
    - eapply emits_bind.
      + apply (Hbody done x rest n0 p0 Hl H0).
      + intros [] n1 p1 H1. simpl in H1.
        eapply emits_conseq.
        * apply (IH (done ++ [x])%list (n0 ++ n1)%list (p0 ++ p1)%list);
            [|exact H1].
          rewrite <- app_assoc. exact Hl.
        * intros [[]|e|] n p; rewrite !app_assoc; auto.
      + intros e n p H. exact H.
      + intros n p H. exact H. }
  eapply emits_conseq; [apply (G l [] [] []); auto|].
  intros [[]|e|] n p; simpl; auto.
Qed.

(** What a delete of [path] emits. *)
Definition rm_spec (path : string) : effect_spec unit :=
  fun r n _ =>
    Forall (fun ev => delete_call (ev_call ev)) n /\ bottom_up n
    /\ completed path r n.

(** What the step of the loop for one entry emits. *)
Definition entry_spec (dir : string) (item : SFTPAttributes)
  : effect_spec unit :=
  fun r n _ =>
    Forall (fun ev => delete_call (ev_call ev)) n /\ bottom_up n
    /\ match r with
       | Returns _ => Forall returned n /\ In (removal dir item) n
       | Throws e =>
           exists t c, n = (t ++ [Ev c (Raised e)])%list /\ Forall returned t
       | OutOfFuel => True
       end.

(** What the loop over the entries has emitted once [done] is processed. *)
Definition entries_removed (dir : string) (done : list SFTPAttributes)
    (n : list event) : Prop :=
  Forall (fun ev => delete_call (ev_call ev)) n /\ bottom_up n
  /\ Forall returned n
  /\ Forall (fun item => In (removal dir item) n) done.

(** What the loop has emitted when a step did not return. *)
Definition entries_stopped (r : completion unit) (n : list event) : Prop :=
  Forall (fun ev => delete_call (ev_call ev)) n /\ bottom_up n
  /\ match r with
     | Throws e =>
         exists t c, n = (t ++ [Ev c (Raised e)])%list /\ Forall returned t
     | _ => True
     end.

Lemma emits_listdir_attr (env : Env) (path : string) :
  emits (listdir_attr env path)
    (fun r n p =>
       p = []
       /\ match r with
          | Returns items =>
              n = [Ev (SftpListdirAttr path) (Returned (VAttrs items))]
          | Throws e => n = [Ev (SftpListdirAttr path) (Raised e)]
          | OutOfFuel => False
          end).
Proof.
  unfold listdir_attr. apply emits_after_client. intros _.
  apply emits_call_value; intros; split; reflexivity.
Qed.

Lemma emits_remove (env : Env) (path : string) :
  emits (remove env path)
    (fun r n _ =>
       match r with
       | Returns _ => n = [Ev (SftpRemove path) (Returned VNone)]
       | Throws e => n = [Ev (SftpRemove path) (Raised e)]
       | OutOfFuel => False
       end).
Proof.
  unfold remove. apply emits_after_client. intros _.
  apply emits_call_unit; [reflexivity|]. intros e h _. reflexivity.
Qed.

Lemma emits_rmdir (env : Env) (path : string) :
  emits (rmdir env path)
    (fun r n p =>
       p = []
       /\ match r with
          | Returns _ => n = [Ev (SftpRmdir path) (Returned VNone)]
          | Throws e => n = [Ev (SftpRmdir path) (Raised e)]
          | OutOfFuel => False
          end).
Proof.
  unfold rmdir. apply emits_after_client. intros _.
  apply emits_call_unit; [split; reflexivity|]. intros e h _.
  split; reflexivity.
Qed.

Lemma removal_of_directory (dir : string) (item : SFTPAttributes)
    (items : list SFTPAttributes) (between : list event) :
  S_ISDIR (st_mode item) = true ->
  In (removal dir item)
    (Ev (SftpListdirAttr (remote_join dir (filename item)))
        (Returned (VAttrs items))
       :: between
       ++ [Ev (SftpRmdir (remote_join dir (filename item))) (Returned VNone)]).
Proof.
  intros Hd. right. apply in_or_app. right. left.
  unfold removal. now rewrite Hd.
Qed.

Lemma emits_entry (env : Env) (fuel : nat) (dir : string)
    (item : SFTPAttributes) :
  (forall path, emits (_sftp_rm_recursive env fuel path) (rm_spec path)) ->
  emits
    (let full_remote_path := remote_join dir (filename item) in
     if S_ISDIR (st_mode item)
     then _sftp_rm_recursive env fuel full_remote_path
     else remove env full_remote_path)
    (entry_spec dir item).
Proof.
  intros IH. cbv zeta. unfold entry_spec.
  destruct (S_ISDIR (st_mode item)) eqn:Hd.
  - eapply emits_conseq; [apply IH|].
    intros r n p (Hc & Hb & Hr). split; [exact Hc|]. split; [exact Hb|].
    destruct r as [[]|e|]; [|exact Hr|exact I].
    destruct Hr as (Hp & items & between & ->). split; [exact Hp|].
    now apply removal_of_directory.
  - eapply emits_conseq; [apply emits_remove|].
    intros r n p Hr. destruct r as [[]|e|]; [| |destruct Hr]; subst n.
    + split; [repeat constructor|]. split.
      * apply bottom_up_single. intros d. discriminate.
      * split; [repeat constructor|]. left. unfold removal. now rewrite Hd.
    + split; [repeat constructor|]. split.
      * apply bottom_up_single. intros d. discriminate.
      * exists [], (SftpRemove (remote_join dir (filename item))).
        split; [reflexivity|constructor].
Qed.

Lemma emits_entries (env : Env) (fuel : nat) (dir : string)
    (items : list SFTPAttributes) :
  (forall path, emits (_sftp_rm_recursive env fuel path) (rm_spec path)) ->
  emits
    (for_each items
       (fun item =>
          let full_remote_path := remote_join dir (filename item) in
          if S_ISDIR (st_mode item)
          then _sftp_rm_recursive env fuel full_remote_path
          else remove env full_remote_path))
    (fun r n _ =>
       match r with
       | Returns _ => entries_removed dir items n
       | _ => entries_stopped r n
       end).
Proof.
  intros IH.
  apply (emits_for_each_indexed _ items
           (fun done n _ => entries_removed dir done n)
           (fun r n _ => entries_stopped r n)).
  - repeat split; try constructor. apply bottom_up_nil.
  - intros done x rest n p _ (Hc & Hb & Hp & Hall).
    eapply emits_conseq; [apply (emits_entry env fuel dir x IH)|].
    intros r n2 p2 (Hc2 & Hb2 & Hr2).
    assert (Hc' : Forall (fun ev => delete_call (ev_call ev)) (n ++ n2)).
    { apply Forall_app. split; assumption. }
    assert (Hb' : bottom_up (n ++ n2)) by now apply bottom_up_app.
    destruct r as [[]|e|].
    + destruct Hr2 as (Hp2 & Hin).
      split; [exact Hc'|]. split; [exact Hb'|]. split.
      * apply Forall_app. split; assumption.
      * apply Forall_app. split.
        -- eapply Forall_impl; [exact Hall|]. intros item Hi.
           apply in_or_app. now left.
        -- constructor; [|constructor]. apply in_or_app. now right.
    + split; [exact Hc'|]. split; [exact Hb'|].
      destruct Hr2 as (t & c & -> & Ht). exists (n ++ t)%list, c.
      split; [now rewrite <- app_assoc|]. apply Forall_app. split; assumption.
    + split; [exact Hc'|]. split; [exact Hb'|exact I].
Qed.

Lemma emits_rm_recursive (env : Env) (fuel : nat) :
  forall path, emits (_sftp_rm_recursive env fuel path) (rm_spec path).
Proof.
  induction fuel as [|fuel IH]; intros path; simpl;
    apply emits_gets_client; intros client.
  - apply emits_out_of_fuel. split; [constructor|].
    split; [apply bottom_up_nil|exact I].
  - eapply emits_bind; [apply emits_listdir_attr| | |].
    2:{ intros e n p (_ & ->). split; [repeat constructor|]. split.
        - apply bottom_up_single. intros d. discriminate.
        - exists [], (SftpListdirAttr path). split; [reflexivity|constructor]. }
    2:{ intros n p (_ & []). }
    intros items n1 p1 (-> & ->).
    eapply emits_bind; [apply (emits_entries env fuel path items IH)| | |].
    + intros [] mid p2 (Hc & Hb & Hp & Hall).
      eapply emits_bind; [apply emits_rmdir| | |].
      * intros [] n3 p3 (-> & ->). apply emits_log.
        rewrite app_nil_r. simpl. split; [|split; [|split]].
        -- constructor; [exact I|]. apply Forall_app. split; [exact Hc|].
           repeat constructor.
        -- apply bottom_up_directory; [exact Hb|]. right. eauto.
        -- constructor; [exact I|]. apply Forall_app. split; [exact Hp|].
           repeat constructor.
        -- eauto.
      * intros e n3 p3 (-> & ->). simpl. split; [|split].
        -- constructor; [exact I|]. apply Forall_app. split; [exact Hc|].
           repeat constructor.
        -- apply bottom_up_directory; [exact Hb|]. right. eauto.
        -- exists (Ev (SftpListdirAttr path) (Returned (VAttrs items)) :: mid),
             (SftpRmdir path).
           split; [reflexivity|]. constructor; [exact I|exact Hp].
      * intros n3 p3 (_ & []).
    + intros e mid p2 (Hc & Hb & t & c & -> & Ht). simpl. split; [|split].
      * constructor; [exact I|exact Hc].
      * rewrite <- (app_nil_r (t ++ [Ev c (Raised e)])).
        apply bottom_up_directory; [exact Hb|now left].
      * exists (Ev (SftpListdirAttr path) (Returned (VAttrs items)) :: t), c.
        split; [reflexivity|]. constructor; [exact I|exact Ht].
    + intros mid p2 (Hc & Hb & _). simpl. split; [|split; [|exact I]].
      * constructor; [exact I|exact Hc].
      * rewrite <- (app_nil_r mid).
        apply bottom_up_directory; [exact Hb|now left].
Qed.

Lemma ends_remove (env : Env) (path : string) :
  ends (remove env path) (fun _ => True).
Proof.
  unfold remove. eapply ends_bind; [apply ends_the_sftp_client|].
  intros _ _. apply ends_call_unit.
Qed.

Lemma rm_recursive_ends (env : Env) (fuel : nat) :
  forall path,
    shallow env fuel path ->
    ends (_sftp_rm_recursive env fuel path) (fun _ => True).
Proof.
  induction fuel as [|fuel IH]; intros path Hs; [destruct Hs|].
  simpl. eapply ends_bind; [apply ends_gets|]. intros client _.
  destruct client; [|apply ends_ret; exact I].
  eapply ends_bind.
  { unfold listdir_attr. eapply ends_bind; [apply ends_the_sftp_client|].
    intros _ _. apply ends_call_value. }
  intros items [h Hh]. simpl in Hh.
  eapply ends_bind.
  { apply ends_for_each. eapply Forall_impl; [exact (Hs h items Hh)|].
    intros item Hi. cbv beta zeta.
    destruct (S_ISDIR (st_mode item)) eqn:Hd; [apply IH, Hi, Hd|].
    apply ends_remove. }
  intros _ _. eapply ends_bind.
  { unfold rmdir. eapply ends_bind; [apply ends_the_sftp_client|].
    intros _ _. apply ends_call_unit. }
  intros _ _. apply ends_modify.
Qed.

(** X2. The calls of a recursive delete of [path], with an SFTP client, are
    listings, [remove] and [rmdir] calls, and they are bottom-up: an [rmdir
    dir], wherever it stands and whatever it answers, comes after a listing of
    [dir] that returned, and between the two every entry of that listing has
    its removal, a [remove] (file) or an [rmdir] (subdirectory) that returned,
    on the path the method makes for the entry. A delete that returns has
    issued the listing of [path] first and the [rmdir] of [path] last, and
    every call returned; a delete that raises has stopped at the call that
    raised, the calls before it having returned. When the directories below
    [path] are less than [fuel] deep, the delete returns or raises. *)
Theorem rmdir_after_children (env : Env) (fuel : nat) (path : string)
    (w : widget) :
  is_Some (sftp_client w) ->
  let run := _sftp_rm_recursive env fuel path w in
  exists new,
    issued (snd run) = (issued w ++ new)%list
    /\ Forall (fun ev => delete_call (ev_call ev)) new
    /\ bottom_up new
    /\ match fst run with
       | Returns _ =>
           Forall returned new
           /\ exists items between,
                new = (Ev (SftpListdirAttr path) (Returned (VAttrs items))
                         :: between
                         ++ [Ev (SftpRmdir path) (Returned VNone)])%list
       | Throws e =>
           exists t c,
             new = (t ++ [Ev c (Raised e)])%list /\ Forall returned t
       | OutOfFuel => ~ shallow env fuel path
       end.
Proof.
  intros Hw. cbv zeta.
  destruct (emits_rm_recursive env fuel path w Hw)
    as (_ & new & put & Hi & _ & Hc & Hb & Hr).
  exists new. split; [exact Hi|]. split; [exact Hc|]. split; [exact Hb|].
  pose proof (rm_recursive_ends env fuel path) as He.
  destruct (fst (_sftp_rm_recursive env fuel path w)) as [[]|e|] eqn:E;
    [exact Hr|exact Hr|].
  intros Hs. specialize (He Hs w). now rewrite E in He.
Qed.

Lemma rmdir_after_children_witness :
  is_Some (sftp_client connected_widget)
  /\ shallow tree_env 3 "/a"
  /\ let run := _sftp_rm_recursive tree_env 3 "/a" connected_widget in
     exists new,
       issued (snd run) = (issued connected_widget ++ new)%list
       /\ Forall (fun ev => delete_call (ev_call ev)) new
       /\ bottom_up new
       /\ match fst run with
          | Returns _ =>
              Forall returned new
              /\ exists items between,
                   new = (Ev (SftpListdirAttr "/a") (Returned (VAttrs items))
                            :: between
                            ++ [Ev (SftpRmdir "/a") (Returned VNone)])%list
          | Throws e =>
              exists t c,
                new = (t ++ [Ev c (Raised e)])%list /\ Forall returned t
          | OutOfFuel => ~ shallow tree_env 3 "/a"
          end.
Proof.
  split; [vm_compute; eauto|]. split.
  - intros h items. simpl.
    intros [= <-]. repeat constructor; try discriminate.
    intros _ h' items'. simpl. intros [= <-].
    repeat constructor; discriminate.
  - apply (rmdir_after_children tree_env 3 "/a" connected_widget).
    vm_compute. eauto.
Defined.

(** * Properties of the dialogs and of the widget around the engine *)

(** ** The octal text of a mode *)

Definition digit_char (d : Z) : ascii := ascii_of_N (48 + Z.to_N d).

Definition three_digits (d2 d1 d0 : Z) : string :=
  String (digit_char d2) (String (digit_char d1)
    (String (digit_char d0) EmptyString)).

Lemma of_pos_small (p : positive) (rest : string) :
  Z.pos p < 8 ->
  OctalString.Raw.of_pos p rest = String (digit_char (Z.pos p)) rest.
Proof.
  intros Hp.
  destruct p as [[[p|p|]|[p|p|]|]|[[p|p|]|[p|p|]|]|]; try lia; reflexivity.
Qed.

Lemma of_pos_step (p : positive) (rest : string) :
  8 <= Z.pos p ->
  exists q,
    Z.pos q = Z.pos p / 8
    /\ OctalString.Raw.of_pos p rest
       = OctalString.Raw.of_pos q (String (digit_char (Z.pos p mod 8)) rest).
Proof.
  intros Hp.
  assert (D : forall q r, 0 <= r < 8 ->
                (8 * Z.pos q + r) / 8 = Z.pos q /\ (8 * Z.pos q + r) mod 8 = r).
  { intros q r Hr. split.
    - symmetry. apply (Z.div_unique _ 8 _ r); lia.
    - symmetry. apply (Z.mod_unique _ 8 (Z.pos q) r); lia. }
  destruct p as [[[p|p|]|[p|p|]|]|[[p|p|]|[p|p|]|]|]; try lia; exists p.
  - replace (Z.pos p~1~1~1) with (8 * Z.pos p + 7) by lia.
    destruct (D p 7 ltac:(lia)) as [-> ->]. split; reflexivity.
  - replace (Z.pos p~0~1~1) with (8 * Z.pos p + 3) by lia.
    destruct (D p 3 ltac:(lia)) as [-> ->]. split; reflexivity.
  - replace (Z.pos p~1~0~1) with (8 * Z.pos p + 5) by lia.
    destruct (D p 5 ltac:(lia)) as [-> ->]. split; reflexivity.
  - replace (Z.pos p~0~0~1) with (8 * Z.pos p + 1) by lia.
    destruct (D p 1 ltac:(lia)) as [-> ->]. split; reflexivity.
  - replace (Z.pos p~1~1~0) with (8 * Z.pos p + 6) by lia.
    destruct (D p 6 ltac:(lia)) as [-> ->]. split; reflexivity.
  - replace (Z.pos p~0~1~0) with (8 * Z.pos p + 2) by lia.
    destruct (D p 2 ltac:(lia)) as [-> ->]. split; reflexivity.
  - replace (Z.pos p~1~0~0) with (8 * Z.pos p + 4) by lia.
    destruct (D p 4 ltac:(lia)) as [-> ->]. split; reflexivity.
  - replace (Z.pos p~0~0~0) with (8 * Z.pos p + 0) by lia.
    destruct (D p 0 ltac:(lia)) as [-> ->]. split; reflexivity.
Qed.

Lemma of_pos_app (n : nat) :
  forall p rest, (Pos.to_nat p < n)%nat ->
    exists s, OctalString.Raw.of_pos p rest = s +:+ rest.
Proof.
  induction n as [|n IH]; intros p rest Hn; [lia|].
  destruct (Z_lt_le_dec (Z.pos p) 8) as [Hs|Hb].
  - exists (String (digit_char (Z.pos p)) EmptyString).
    rewrite of_pos_small by exact Hs. reflexivity.
  - destruct (of_pos_step p rest Hb) as (q & Hq & ->).
    destruct (IH q (String (digit_char (Z.pos p mod 8)) rest)) as [s ->].
    { assert (Z.pos q < Z.pos p) by (rewrite Hq; apply Z.div_lt; lia). lia. }
    exists (s +:+ String (digit_char (Z.pos p mod 8)) EmptyString).
    rewrite append_assoc. reflexivity.
Qed.

(** From [0o100] on, the text of a mode ends with its last three octal
    digits. *)
Lemma oct_three_digits (n : Z) :
  64 <= n ->
  exists s,
    oct n = s +:+ three_digits (n / 64 mod 8) (n / 8 mod 8) (n mod 8).
Proof.
  intros Hn. destruct n as [|p|p]; try lia.
  unfold oct, OctalString.of_Z, OctalString.of_pos, three_digits.
  destruct (of_pos_step p "" ltac:(lia)) as (q1 & Hq1 & ->).
  assert (H8 : 8 <= Z.pos q1).
  { rewrite Hq1. apply Z.div_le_lower_bound; lia. }
  destruct (of_pos_step q1 (String (digit_char (Z.pos p mod 8)) "") H8)
    as (q2 & Hq2 & ->).
  assert (H64 : Z.pos q2 = Z.pos p / 64).
  { rewrite Hq2, Hq1. rewrite Z.div_div by lia. reflexivity. }
  rewrite <- Hq1, <- H64.
  destruct (Z_lt_le_dec (Z.pos q2) 8) as [Hs|Hb].
  - exists "0o". rewrite of_pos_small by exact Hs.
    rewrite (Z.mod_small (Z.pos q2)) by lia. reflexivity.
  - destruct (of_pos_step q2
                (String (digit_char (Z.pos q1 mod 8))
                   (String (digit_char (Z.pos p mod 8)) "")) Hb)
      as (q3 & _ & ->).
    destruct (of_pos_app (S (Pos.to_nat q3)) q3
                (String (digit_char (Z.pos q2 mod 8))
                   (String (digit_char (Z.pos q1 mod 8))
                      (String (digit_char (Z.pos p mod 8)) "")))
                ltac:(lia)) as [s ->].
    exists (String "0" (String "o" s)). reflexivity.
Qed.

Lemma substring_whole (b : string) : substring 0 (String.length b) b = b.
Proof. induction b as [|c b IH]; [reflexivity|]. simpl. now rewrite IH. Qed.

Lemma substring_skip (a b : string) (n : nat) :
  substring (String.length a) n (a +:+ b) = substring 0 n b.
Proof.
  induction a as [|c a IH]; [reflexivity|]. rewrite append_cons. exact IH.
Qed.

Lemma str_last_app (a b : string) :
  str_last (String.length b) (a +:+ b) = b.
Proof.
  unfold str_last. rewrite length_append.
  replace (String.length a + String.length b - String.length b)%nat
    with (String.length a) by lia.
  rewrite substring_skip. apply substring_whole.
Qed.

Lemma three_digits_value (d2 d1 d0 : Z) :
  0 <= d2 < 8 -> 0 <= d1 < 8 -> 0 <= d0 < 8 ->
  str_strip (three_digits d2 d1 d0) = three_digits d2 d1 d0
  /\ int_base8 (three_digits d2 d1 d0) = Some (64 * d2 + 8 * d1 + d0).
Proof.
  intros H2 H1 H0.
  assert (E2 : d2 = 0 \/ d2 = 1 \/ d2 = 2 \/ d2 = 3 \/ d2 = 4 \/ d2 = 5
               \/ d2 = 6 \/ d2 = 7) by lia.
  assert (E1 : d1 = 0 \/ d1 = 1 \/ d1 = 2 \/ d1 = 3 \/ d1 = 4 \/ d1 = 5
               \/ d1 = 6 \/ d1 = 7) by lia.
  assert (E0 : d0 = 0 \/ d0 = 1 \/ d0 = 2 \/ d0 = 3 \/ d0 = 4 \/ d0 = 5
               \/ d0 = 6 \/ d0 = 7) by lia.
  clear H2 H1 H0.
  destruct E2 as [->|[->|[->|[->|[->|[->|[->| ->]]]]]]];
    destruct E1 as [->|[->|[->|[->|[->|[->|[->| ->]]]]]]];
    destruct E0 as [->|[->|[->|[->|[->|[->|[->| ->]]]]]]];
    split; reflexivity.
Qed.

(** What [int(oct(mode)[-3:], 8)] reads back: the mode itself below [0o10],
    nothing between [0o10] and [0o77] (the text is then [oNN]), and the
    last three octal digits from [0o100] on. *)
Definition read_back (mode : Z) : option Z :=
  if mode <? 8 then Some mode
  else if mode <? 64 then None
  else Some (mode mod 512).

Lemma small_modes_read_back :
  forallb
    (fun k =>
       let mode := Z.of_nat k in
       let text := str_last 3 (oct mode) in
       String.eqb (substring 0 4 text) text
       && String.eqb (str_strip text) text
       && match int_base8 text, read_back mode with
          | Some a, Some b => a =? b
          | None, None => true
          | _, _ => false
          end)
    (seq 0 64) = true.
Proof. vm_compute. reflexivity. Qed.

Lemma oct_read_back (mode : Z) :
  0 <= mode ->
  let text := str_last 3 (oct mode) in
  substring 0 4 text = text
  /\ str_strip text = text
  /\ int_base8 text = read_back mode.
Proof.
  intros Hm. cbv zeta.
  destruct (Z_lt_le_dec mode 64) as [Hs|Hb].
  - pose proof small_modes_read_back as H.
    rewrite forallb_forall in H.
    specialize (H (Z.to_nat mode)).
    rewrite Z2Nat.id in H by lia.
    assert (Hin : In (Z.to_nat mode) (seq 0 64)) by (apply in_seq; lia).
    apply H in Hin. apply andb_prop in Hin as [Hin Hv].
    apply andb_prop in Hin as [Ht Hst].
    apply String.eqb_eq in Ht, Hst. split; [exact Ht|]. split; [exact Hst|].
    destruct (int_base8 _) as [a|], (read_back mode) as [b|];
      try discriminate; [|reflexivity].
    apply Z.eqb_eq in Hv. congruence.
  - destruct (oct_three_digits mode Hb) as [s Hs].
    assert (Hlast : str_last 3 (oct mode)
                    = three_digits (mode / 64 mod 8) (mode / 8 mod 8)
                        (mode mod 8)).
    { rewrite Hs. apply (str_last_app s (three_digits _ _ _)). }
    rewrite Hlast.
    destruct (three_digits_value (mode / 64 mod 8) (mode / 8 mod 8)
                (mode mod 8)) as [Hst Hv];
      try (apply Z.mod_pos_bound; lia).
    split; [reflexivity|]. split; [exact Hst|]. rewrite Hv.
    unfold read_back.
    destruct (Z.ltb_spec mode 8); [lia|].
    destruct (Z.ltb_spec mode 64); [lia|].
    f_equal.
    pose proof (Z.div_mod mode 8 ltac:(lia)).
    pose proof (Z.div_mod (mode / 8) 8 ltac:(lia)).
    pose proof (Z.div_mod (mode / 8 / 8) 8 ltac:(lia)).
    rewrite Z.div_div in * by lia. change (8 * 8) with 64 in *.
    pose proof (Z.mod_pos_bound mode 8 ltac:(lia)).
    pose proof (Z.mod_pos_bound (mode / 8) 8 ltac:(lia)).
    pose proof (Z.mod_pos_bound (mode / 64) 8 ltac:(lia)).
    apply (Z.mod_unique _ 512 (mode / 64 / 8)); lia.
Qed.

(** ** The permissions dialog: boxes and octal entry *)

Section PermissionsDialogFacts.
Import PermissionsDialog.

(** [bool(mode & val)] *)
Definition has_bit (mode val : Z) : bool := negb (Z.land mode val =? 0).

Lemma on_check_toggled_updating (fuel : nat) (d : dialog) :
  _is_updating d = true -> on_check_toggled fuel d = Some d.
Proof. intros H. destruct fuel; simpl; rewrite H; reflexivity. Qed.

Lemma on_octal_changed_updating (fuel : nat) (d : dialog) :
  _is_updating d = true -> on_octal_changed fuel d = Some d.
Proof. intros H. destruct fuel; simpl; rewrite H; reflexivity. Qed.

Lemma with_active_same (val : Z) (c : list (Z * bool)) :
  with_active val (get_active val c) c = c.
Proof.
  induction c as [|[v a] c IH]; [reflexivity|]. simpl.
  destruct (v =? val); [reflexivity|]. now rewrite IH.
Qed.

Lemma with_active_keys (val : Z) (active : bool) (c : list (Z * bool)) :
  map fst (with_active val active c) = map fst c.
Proof.
  induction c as [|[v a] c IH]; [reflexivity|]. simpl.
  destruct (v =? val); simpl; [reflexivity|]. now rewrite IH.
Qed.

Lemma set_active_updating (fuel : nat) (val : Z) (active : bool) (d : dialog) :
  _is_updating d = true ->
  set_active (on_check_toggled fuel) val active d
  = Some (set_checks (with_active val active (checks d)) d).
Proof.
  intros H. unfold set_active.
  destruct (Bool.eqb _ _) eqn:E.
  - apply Bool.eqb_prop in E. rewrite <- E, with_active_same.
    destruct d; reflexivity.
  - apply on_check_toggled_updating. exact H.
Qed.

Lemma set_all_active_updating (fuel : nat) (mode : Z) (vals : list Z) :
  forall d, _is_updating d = true ->
    set_all_active (on_check_toggled fuel) mode vals d
    = Some (set_checks
              (fold_left (fun c val => with_active val (has_bit mode val) c)
                 vals (checks d)) d).
Proof.
  induction vals as [|val vals IH]; intros d H; simpl.
  - destruct d; reflexivity.
  - fold (has_bit mode val). rewrite set_active_updating by exact H.
    rewrite IH by exact H. reflexivity.
Qed.

Lemma set_text_updating (fuel : nat) (text : string) (d : dialog) :
  _is_updating d = true ->
  set_text (on_octal_changed fuel) text d
  = Some (set_entry_octal (substring 0 4 text) d).
Proof.
  intros H. unfold set_text. destruct d as [c t u]. simpl in H. subst u.
  cbn [entry_octal].
  assert (Hd : (if str_truthy t
                then on_octal_changed fuel
                       (set_entry_octal ""
                          {| checks := c; entry_octal := t;
                             _is_updating := true |})
                else Some {| checks := c; entry_octal := t;
                             _is_updating := true |})
               = Some {| checks := c; entry_octal := if str_truthy t then "" else t;
                         _is_updating := true |}).
  { destruct (str_truthy t); [|reflexivity].
    now rewrite on_octal_changed_updating by reflexivity. }
  rewrite Hd. cbv zeta.
  destruct (substring 0 4 text) as [|a r] eqn:E; cbn [str_truthy].
  - destruct t; reflexivity.
  - now rewrite on_octal_changed_updating by reflexivity.
Qed.

(** The nine boxes of the dialog. *)
Lemma checks_shape (c : list (Z * bool)) :
  map fst c = values ->
  exists a8 a7 a6 a5 a4 a3 a2 a1 a0,
    c = [(S_IRUSR, a8); (S_IWUSR, a7); (S_IXUSR, a6);
         (S_IRGRP, a5); (S_IWGRP, a4); (S_IXGRP, a3);
         (S_IROTH, a2); (S_IWOTH, a1); (S_IXOTH, a0)].
Proof.
  intros H.
  do 9 (destruct c as [|[? ?] c]; [discriminate|]).
  destruct c; [|discriminate].
  injection H as -> -> -> -> -> -> -> -> ->.
  repeat eexists.
Qed.

Lemma fold_with_active (mode : Z) (c : list (Z * bool)) :
  map fst c = values ->
  fold_left (fun c val => with_active val (has_bit mode val) c) values c
  = map (fun val => (val, has_bit mode val)) values.
Proof.
  intros H.
  destruct (checks_shape c H)
    as (a8 & a7 & a6 & a5 & a4 & a3 & a2 & a1 & a0 & ->).
  reflexivity.
Qed.

Lemma mode_of_checks_range (c : list (Z * bool)) :
  map fst c = values -> 0 <= mode_of_checks c < 512.
Proof.
  intros H.
  destruct (checks_shape c H)
    as (a8 & a7 & a6 & a5 & a4 & a3 & a2 & a1 & a0 & ->).
  destruct a8, a7, a6, a5, a4, a3, a2, a1, a0;
    (split; [discriminate|reflexivity]).
Qed.

Lemma has_bit_mod (mode val : Z) :
  In val values -> has_bit (mode mod 512) val = has_bit mode val.
Proof.
  intros Hin. unfold has_bit. f_equal. f_equal.
  change 512 with (2 ^ 9). rewrite <- Z.land_ones by lia.
  rewrite <- Z.land_assoc. f_equal.
  repeat (destruct Hin as [<-|Hin]; [reflexivity|]). destruct Hin.
Qed.

Lemma mode_of_checks_below_512 :
  forallb
    (fun k =>
       mode_of_checks (map (fun val => (val, has_bit (Z.of_nat k) val)) values)
       =? Z.of_nat k)
    (seq 0 512) = true.
Proof. vm_compute. reflexivity. Qed.

(** The boxes set from a mode spell its nine permission bits. *)
Lemma mode_of_checks_has_bit (mode : Z) :
  mode_of_checks (map (fun val => (val, has_bit mode val)) values)
  = mode mod 512.
Proof.
  assert (E : map (fun val => (val, has_bit mode val)) values
              = map (fun val => (val, has_bit (mode mod 512) val)) values).
  { apply map_ext_in. intros val Hin. now rewrite has_bit_mod. }
  rewrite E.
  pose proof (Z.mod_pos_bound mode 512 ltac:(lia)) as Hr.
  set (r := mode mod 512) in *.
  pose proof mode_of_checks_below_512 as H.
  rewrite forallb_forall in H. specialize (H (Z.to_nat r)).
  rewrite Z2Nat.id in H by lia.
  apply Z.eqb_eq, H, in_seq. lia.
Qed.

Lemma get_mode_of_octal (mode : Z) (d : dialog) :
  0 <= mode ->
  entry_octal d = str_last 3 (oct mode) ->
  get_mode d
  = if mode <? 8 then mode else if mode <? 64 then 0 else mode mod 512.
Proof.
  intros Hm He. unfold get_mode. rewrite He.
  destruct (oct_read_back mode Hm) as (_ & -> & ->).
  unfold read_back. destruct (mode <? 8); [reflexivity|].
  destruct (mode <? 64); reflexivity.
Qed.

(** X8. A dialog opened on a mode shows its nine permission bits in the boxes;
    the mode it gives back is the mode without its higher bits, except that a
    mode between [0o10] and [0o77] is given back as [0]: its entry text is
    [oNN], which [int] rejects. *)
Theorem permissions_dialog_gives_back (fuel : nat) (mode : Z) :
  0 <= mode ->
  exists d,
    __init__ fuel mode = Some d
    /\ checks d = map (fun val => (val, has_bit mode val)) values
    /\ entry_octal d = str_last 3 (oct mode)
    /\ _is_updating d = false
    /\ get_mode d
       = if mode <? 8 then mode else if mode <? 64 then 0 else mode mod 512.
Proof.
  intros Hm. unfold __init__, set_mode.
  rewrite set_all_active_updating by reflexivity.
  rewrite set_text_updating by reflexivity.
  destruct (oct_read_back mode Hm) as (Hsub & _ & _).
  eexists. split; [reflexivity|]. simpl.
  split; [reflexivity|].
  split; [exact Hsub|]. split; [reflexivity|].
  apply get_mode_of_octal; [exact Hm|exact Hsub].
Qed.

Lemma permissions_dialog_gives_back_witness :
  exists d,
    __init__ 0 0x89ED = Some d
    /\ checks d = map (fun val => (val, has_bit 0x89ED val)) values
    /\ entry_octal d = str_last 3 (oct 0x89ED)
    /\ _is_updating d = false
    /\ get_mode d
       = if 0x89ED <? 8 then 0x89ED
         else if 0x89ED <? 64 then 0 else 0x89ED mod 512.
Proof. apply (permissions_dialog_gives_back 0 0x89ED). lia. Defined.

(** X9. A click on a box rewrites the octal entry from the boxes. The mode the
    dialog then gives is the mode the boxes spell when an owner box is active
    or no group box is; with group boxes and no owner box it is [0]. *)
Theorem click_check_rewrites_octal (fuel : nat) (val : Z) (d : dialog) :
  _is_updating d = false ->
  map fst (checks d) = values ->
  exists d',
    click_check (S fuel) val d = Some d'
    /\ checks d'
       = with_active val (negb (get_active val (checks d))) (checks d)
    /\ _is_updating d' = false
    /\ entry_octal d' = str_last 3 (oct (mode_of_checks (checks d')))
    /\ get_mode d'
       = let mode := mode_of_checks (checks d') in
         if mode <? 8 then mode else if mode <? 64 then 0 else mode.
Proof.
  intros Hu Hk. unfold click_check, set_active.
  rewrite Bool.eqb_negb2. simpl. rewrite Hu.
  rewrite set_text_updating by reflexivity.
  set (c' := with_active val (negb (get_active val (checks d))) (checks d)).
  assert (Hk' : map fst c' = values).
  { unfold c'. rewrite with_active_keys. exact Hk. }
  pose proof (mode_of_checks_range c' Hk') as Hr.
  destruct (oct_read_back (mode_of_checks c') ltac:(lia)) as (Hsub & _ & _).
  eexists. split; [reflexivity|]. simpl. fold c'.
  split; [reflexivity|]. split; [reflexivity|]. split; [exact Hsub|].
  rewrite (get_mode_of_octal (mode_of_checks c')); [|lia|exact Hsub].
  rewrite (Z.mod_small _ 512) by lia. reflexivity.
Qed.

Lemma click_check_rewrites_octal_witness :
  exists d',
    click_check 1 S_IRGRP
      {| checks := map (fun val => (val, false)) values;
         entry_octal := "0o0"; _is_updating := false |} = Some d'
    /\ checks d'
       = with_active S_IRGRP true (map (fun val => (val, false)) values)
    /\ _is_updating d' = false
    /\ entry_octal d' = str_last 3 (oct (mode_of_checks (checks d')))
    /\ get_mode d'
       = let mode := mode_of_checks (checks d') in
         if mode <? 8 then mode else if mode <? 64 then 0 else mode.
Proof.
  apply (click_check_rewrites_octal 0 S_IRGRP
           {| checks := map (fun val => (val, false)) values;
              entry_octal := "0o0"; _is_updating := false |});
    reflexivity.
Defined.

(** X10. An edit of the octal entry that leaves a text [int] accepts sets the
    boxes to the nine permission bits of the number, which is the mode the
    dialog then gives; a text [int] rejects leaves the boxes as they were, and
    the dialog then gives [0]. *)
Theorem edit_octal_sets_checks (fuel : nat) (text : string) (d : dialog) :
  _is_updating d = false ->
  map fst (checks d) = values ->
  (String.length text <= 4)%nat ->
  text <> entry_octal d ->
  exists d',
    edit_octal (S fuel) text d = Some d'
    /\ entry_octal d' = text
    /\ _is_updating d' = false
    /\ match int_base8 (str_strip text) with
       | Some n =>
           checks d' = map (fun val => (val, has_bit n val)) values
           /\ mode_of_checks (checks d') = n mod 512
           /\ get_mode d' = n
       | None => checks d' = checks d /\ get_mode d' = 0
       end.
Proof.
  intros Hu Hk Hlen Hne. unfold edit_octal.
  assert (Hsub : substring 0 4 text = text).
  { clear -Hlen. do 5 (destruct text as [|? text]; [reflexivity|]).
    simpl in Hlen. lia. }
  rewrite Hsub.
  destruct (String.eqb_spec (entry_octal d) text) as [E|_]; [congruence|].
  simpl. rewrite Hu. simpl.
  destruct (int_base8 (str_strip text)) as [n|] eqn:En.
  - assert (Ht : str_truthy (str_strip text) = true).
    { destruct (str_strip text); [discriminate En|reflexivity]. }
    rewrite Ht. rewrite set_all_active_updating by reflexivity. simpl.
    rewrite Hk. rewrite fold_with_active by exact Hk.
    eexists. split; [reflexivity|]. simpl.
    split; [reflexivity|]. split; [reflexivity|].
    split; [reflexivity|]. split; [apply mode_of_checks_has_bit|].
    unfold get_mode. simpl. rewrite En. reflexivity.
  - destruct (str_truthy (str_strip text));
      (eexists; split; [reflexivity|]; simpl;
       split; [reflexivity|]; split; [reflexivity|];
       split; [reflexivity|]; unfold get_mode; simpl; rewrite En;
       reflexivity).
Qed.

Lemma edit_octal_sets_checks_witness :
  exists d',
    edit_octal 1 "4755"
      {| checks := map (fun val => (val, false)) values;
         entry_octal := "0o0"; _is_updating := false |} = Some d'
    /\ entry_octal d' = "4755"
    /\ _is_updating d' = false
    /\ match int_base8 (str_strip "4755") with
       | Some n =>
           checks d' = map (fun val => (val, has_bit n val)) values
           /\ mode_of_checks (checks d') = n mod 512
           /\ get_mode d' = n
       | None =>
           checks d' = map (fun val => (val, false)) values /\ get_mode d' = 0
       end.
Proof.
  apply (edit_octal_sets_checks 0 "4755"
           {| checks := map (fun val => (val, false)) values;
              entry_octal := "0o0"; _is_updating := false |});
    [reflexivity | reflexivity | simpl; lia | discriminate].
Defined.
End PermissionsDialogFacts.

(** ** [InputDialog]: the text handed to the callback *)

Definition validated (d : InputDialog.dialog) : Prop :=
  InputDialog.ok_button_sensitive d
  = (0 <? String.length (str_strip (InputDialog.entry d)))%nat.

Lemma step_validated (a : InputDialog.action) (d d' : InputDialog.dialog) :
  validated d -> InputDialog.step a d = inl d' -> validated d'.
Proof.
  intros Hv Hs. destruct a; simpl in Hs.
  - destruct (String.eqb _ _); injection Hs as <-; [exact Hv|reflexivity].
  - destruct (InputDialog.ok_button_sensitive d); [discriminate|].
    injection Hs as <-. exact Hv.
  - destruct (InputDialog.ok_button_sensitive d); [discriminate|].
    injection Hs as <-. exact Hv.
  - discriminate.
Qed.

Lemma run_async_validated (actions : list InputDialog.action) :
  forall d text,
    validated d ->
    InputDialog.run_async actions d = Some (Some text) ->
    str_truthy text = true.
Proof.
  induction actions as [|a actions IH]; intros d text Hv Hr; [discriminate|].
  simpl in Hr. destruct (InputDialog.step a d) as [d'|response] eqn:Es.
  - apply (IH d' text); [eapply step_validated; eauto|exact Hr].
  - assert (Hok : response = InputDialog.OK ->
                  InputDialog.ok_button_sensitive d = true).
    { intros ->. destruct a; simpl in Es;
        try (destruct (InputDialog.ok_button_sensitive d);
             [reflexivity|discriminate]);
        try discriminate.
      destruct (String.eqb _ _); discriminate. }
    destruct response; [|discriminate].
    injection Hr as <-. specialize (Hok eq_refl).
    rewrite Hv in Hok. apply Nat.ltb_lt in Hok.
    unfold InputDialog.get_text.
    destruct (str_strip (InputDialog.entry d)); [simpl in Hok; lia|reflexivity].
Qed.

(** X11. Whatever the user does with an input dialog, whatever text it was
    opened with, its callback is called with [None] or with a text that is not
    empty: [OK] can only be given while the entry holds more than white space.
    *)
Theorem input_dialog_text_is_not_empty (default_text : string)
    (actions : list InputDialog.action) (text : string) :
  InputDialog.run_async actions (InputDialog.__init__ default_text)
  = Some (Some text) ->
  str_truthy text = true.
Proof. apply run_async_validated. reflexivity. Qed.

Lemma input_dialog_text_is_not_empty_witness :
  str_truthy "bob" = true.
Proof.
  apply (input_dialog_text_is_not_empty ""
           [InputDialog.activate; InputDialog.edit "  ";
            InputDialog.click_ok; InputDialog.edit " bob ";
            InputDialog.activate] "bob").
  reflexivity.
Defined.

(** ** Running a method of the widget step by step *)

Definition gcontinue {A B} (k : A -> G B) (run : completion A * gui)
  : completion B * gui :=
  match run with
  | (Returns a, g') => k a g'
  | (Throws e, g') => (Throws e, g')
  | (OutOfFuel, g') => (OutOfFuel, g')
  end.

Definition ghandle {A} (handler : exn -> G A) (run : completion A * gui)
  : completion A * gui :=
  match run with
  | (Throws e, g') => handler e g'
  | _ => run
  end.

Lemma grun_bind {A B} (m : G A) (k : A -> G B) (g : gui) :
  gbind m k g = gcontinue k (m g).
Proof. reflexivity. Qed.

Lemma grun_try_except {A} (m : G A) (handler : exn -> G A) (g : gui) :
  gtry_except m handler g = ghandle handler (m g).
Proof. unfold gtry_except, ghandle. destruct (m g) as [[] ?]; reflexivity. Qed.

Lemma grun_ret {A} (a : A) (g : gui) : gret a g = (Returns a, g).
Proof. reflexivity. Qed.

Lemma grun_raise {A} (e : exn) (g : gui) : @graise A e g = (Throws e, g).
Proof. reflexivity. Qed.

Lemma grun_out_of_fuel {A} (g : gui) : @gout_of_fuel A g = (OutOfFuel, g).
Proof. reflexivity. Qed.

Lemma grun_gets {A} (f : gui -> A) (g : gui) : ggets f g = (Returns (f g), g).
Proof. reflexivity. Qed.

Lemma grun_the_engine {A} (f : widget -> A) (g : gui) :
  the_engine f g = (Returns (f (engine g)), g).
Proof. reflexivity. Qed.

Lemma grun_modify (f : gui -> gui) (g : gui) : gmodify f g = (Returns tt, f g).
Proof. reflexivity. Qed.

Lemma grun_queue_put (item : queued) (g : gui) :
  queue_put item g = (Returns tt, set_work (work g ++ [item]) g).
Proof. reflexivity. Qed.

Lemma grun_log_message (message : string) (is_error : bool) (g : gui) :
  log_message message is_error g
  = (Returns tt,
     set_work (work g ++ [engine_work (append_log message is_error)]) g).
Proof. reflexivity. Qed.

Lemma grun_perform (ev : sys_event) (g : gui) :
  perform ev g = (Returns tt, set_performed (performed g ++ [ev]) g).
Proof. reflexivity. Qed.

Lemma grun_start_thread (t : thread_target) (g : gui) :
  start_thread t g = (Returns tt, set_threads (threads g ++ [t]) g).
Proof. reflexivity. Qed.

Lemma grun_present (d : presented) (g : gui) :
  present d g = (Returns tt, set_dialogs (dialogs g ++ [d]) g).
Proof. reflexivity. Qed.

Lemma gcontinue_returns {A B} (k : A -> G B) (a : A) (g : gui) :
  gcontinue k (Returns a, g) = k a g.
Proof. reflexivity. Qed.

Lemma gcontinue_throws {A B} (k : A -> G B) (e : exn) (g : gui) :
  gcontinue k (Throws e, g) = (Throws e, g).
Proof. reflexivity. Qed.

Lemma gcontinue_out_of_fuel {A B} (k : A -> G B) (g : gui) :
  gcontinue k (OutOfFuel, g) = (OutOfFuel, g).
Proof. reflexivity. Qed.

Lemma ghandle_returns {A} (handler : exn -> G A) (a : A) (g : gui) :
  ghandle handler (Returns a, g) = (Returns a, g).
Proof. reflexivity. Qed.

Lemma ghandle_throws {A} (handler : exn -> G A) (e : exn) (g : gui) :
  ghandle handler (Throws e, g) = handler e g.
Proof. reflexivity. Qed.

Lemma ghandle_out_of_fuel {A} (handler : exn -> G A) (g : gui) :
  ghandle handler (@OutOfFuel A, g) = (OutOfFuel, g).
Proof. reflexivity. Qed.

Create Rewrite HintDb grun.
#[local] Hint Rewrite @grun_bind @grun_try_except @grun_ret @grun_raise
  @grun_out_of_fuel @grun_gets @grun_the_engine grun_modify grun_queue_put
  grun_log_message grun_perform grun_start_thread grun_present
  @gcontinue_returns @gcontinue_throws @gcontinue_out_of_fuel
  @ghandle_returns @ghandle_throws @ghandle_out_of_fuel : grun.

Ltac grun :=
  repeat (autorewrite with grun in *;
          cbn [fst snd engine work local_store remote_store local_path_entry
               remote_path_entry remote_sort_column button_box_sensitive
               log_buffer last_clicked_view threads dialogs performed
               set_engine set_work set_local_store set_remote_store
               set_local_path_entry set_remote_path_entry
               set_remote_sort_column set_button_box_sensitive set_log_buffer
               set_last_clicked_view set_threads set_dialogs set_performed
               issued ui_queue sftp_client ssh_client file_monitors
               temp_dir host_config secret_service current_local_path
               current_remote_path set_issued set_ui_queue set_file_monitors
               set_sftp_client set_ssh_client set_current_local_path
               set_current_remote_path] in *).

(** ** Starting the connection *)

(** X12. The connection of a host entry whose [host] names the user starts a
    pass at once; without a user in [host] the widget asks for one, and the
    answer of the dialog, which is [None] or a text that is not empty, either
    cancels the connection or starts a pass that has its user: no pass started
    this way ends with [Username is missing]. *)
Theorem connection_starts_with_a_user (desk : Desktop) (g : gui)
    (host_str : string) :
  IS_PARAMIKO_AVAILABLE desk = true ->
  cfg_host (host_config (engine g)) = Some host_str ->
  str_truthy host_str = true ->
  let connecting :=
    engine_work
      (append_log
         ("Connecting to "
            +:+ str_of_optional (cfg_name (host_config (engine g))) +:+ "...")
         false) in
  (str_contains at_sign host_str = true ->
   _connect_sftp desk g
   = (Returns tt,
      set_threads (threads g ++ [target_sftp_connect_worker None None None])
        (set_work (work g ++ [connecting]) g))
   /\ user_and_host host_str None <> None)
  /\ (str_contains at_sign host_str = false ->
      let g1 := set_dialogs (dialogs g ++ [username_dialog host_str]) g in
      _connect_sftp desk g = (Returns tt, g1)
      /\ on_username_entered None g1
         = (Returns tt,
            set_work
              (work g1
                 ++ [engine_work
                       (append_log
                          "SFTP connection canceled (no username provided)."
                          false)]) g1)
      /\ forall username,
           str_truthy username = true ->
           on_username_entered (Some username) g1
           = (Returns tt,
              set_threads
                (threads g1
                   ++ [target_sftp_connect_worker (Some username) None None])
                (set_work (work g1 ++ [connecting]) g1))
           /\ user_and_host host_str (Some username)
              = Some (username, host_str)).
Proof.
  intros Hp Hh Ht. cbv zeta.
  assert (Hc : forall g', engine g' = engine g ->
             _connect_sftp desk g'
             = if str_contains at_sign host_str
               then _start_sftp_worker_with_user None None None g'
               else present (username_dialog host_str) g').
  { intros g' Hg. unfold _connect_sftp. rewrite Hp. cbn [negb]. grun.
    rewrite Hg, Hh. cbn [opt_truthy]. rewrite Ht. cbn [negb].
    change (default "" (Some host_str)) with host_str.
    destruct (str_contains at_sign host_str); reflexivity. }
  assert (Hs : forall g' u k a,
             engine g' = engine g ->
             (u = None -> str_contains at_sign host_str = true) ->
             _start_sftp_worker_with_user u k a g'
             = (Returns tt,
                set_threads (threads g' ++ [target_sftp_connect_worker u k a])
                  (set_work
                     (work g'
                        ++ [engine_work
                              (append_log
                                 ("Connecting to "
                                    +:+ str_of_optional
                                          (cfg_name (host_config (engine g)))
                                    +:+ "...") false)]) g'))).
  { intros g' u k a Hg Hu. unfold _start_sftp_worker_with_user. grun.
    rewrite Hg, Hh. destruct u as [u|]; grun.
    - rewrite Hg. reflexivity.
    - rewrite (Hu eq_refl). cbn [negb]. grun. rewrite Hg. reflexivity. }
  split.
  - intros Hat. split.
    + rewrite Hc by reflexivity. rewrite Hat. apply Hs; auto.
    + unfold user_and_host. rewrite Hat.
      clear -Hat. induction host_str as [|a s IH]; [discriminate|].
      simpl in *. destruct (Ascii.eqb a at_sign); [discriminate|].
      simpl in Hat. specialize (IH Hat).
      destruct (split_once at_sign s) as [[u v]|]; [discriminate|].
      exfalso. apply IH. reflexivity.
  - intros Hat. split; [|split].
    + rewrite Hc by reflexivity. rewrite Hat. reflexivity.
    + unfold on_username_entered, _start_sftp_worker_with_user. grun.
      rewrite Hh. grun. rewrite Hat. cbn [negb]. grun. reflexivity.
    + intros username Hu. split.
      * unfold on_username_entered. apply Hs; [reflexivity|discriminate].
      * unfold user_and_host. rewrite Hat, Hu. reflexivity.
Qed.

Lemma connection_starts_with_a_user_witness :
  let g := gui_of bare_widget in
  let g1 := set_dialogs (dialogs g ++ [username_dialog "h"]) g in
  _connect_sftp calm_desk g = (Returns tt, g1)
  /\ user_and_host "h" (Some "me") = Some ("me", "h").
Proof.
  cbv zeta.
  destruct (connection_starts_with_a_user calm_desk (gui_of bare_widget) "h"
              eq_refl eq_refl eq_refl) as [_ H].
  destruct (H eq_refl) as (H1 & _ & H3).
  split; [exact H1|exact (proj2 (H3 "me" eq_refl))].
Defined.

(** ** Parent directories *)

Definition is_slash (c : ascii) : bool := Ascii.eqb c slash.

Lemma os_path_dirname_eq (p : string) :
  os_path_dirname p
  = let head := head_to_last_slash p in
    if str_truthy head && negb (all_slashes head)
    then drop_while_end is_slash head else head.
Proof. reflexivity. Qed.

Lemma head_and_basename (p : string) :
  p = head_to_last_slash p +:+ os_path_basename p.
Proof.
  induction p as [|a p IH]; [reflexivity|].
  cbn [head_to_last_slash os_path_basename].
  destruct (str_contains slash (String a p)) eqn:Ec; [|reflexivity].
  rewrite append_cons.
  destruct (Ascii.eqb a slash && negb (str_contains slash p)) eqn:E.
  - apply andb_prop in E as [_ E]. apply negb_true_iff in E.
    destruct p as [|b p]; [reflexivity|].
    cbn [head_to_last_slash]. rewrite E. reflexivity.
  - f_equal. exact IH.
Qed.

Lemma all_slashes_head (p : string) :
  all_slashes p = true -> head_to_last_slash p = p.
Proof.
  induction p as [|a p IH]; [reflexivity|]. simpl.
  intros H. apply andb_prop in H as [Ha Hp]. rewrite Ha. simpl.
  now rewrite IH.
Qed.

Lemma head_ends_with_slash (p : string) :
  str_truthy (head_to_last_slash p) = true ->
  ends_with_slash (head_to_last_slash p) = true.
Proof.
  induction p as [|a p IH]; [discriminate|].
  cbn [head_to_last_slash].
  destruct (str_contains slash (String a p)) eqn:Ec; [|discriminate].
  intros _. simpl in Ec.
  destruct (head_to_last_slash p) as [|b h] eqn:Eh.
  - destruct p as [|b p]; simpl in *.
    + rewrite orb_false_r in Ec. exact Ec.
    + destruct (Ascii.eqb b slash || str_contains slash p) eqn:E2;
        [discriminate|].
      rewrite orb_false_r in Ec. exact Ec.
  - specialize (IH eq_refl). exact IH.
Qed.

Lemma length_drop_while_end (f : ascii -> bool) (s : string) :
  (String.length (drop_while_end f s) <= String.length s)%nat.
Proof.
  induction s as [|c s IH]; simpl; [lia|].
  destruct (drop_while_end f s); [destruct (f c)|]; simpl in *; lia.
Qed.

Lemma drop_while_end_shortens (s : string) :
  ends_with_slash s = true ->
  (String.length (drop_while_end is_slash s) < String.length s)%nat.
Proof.
  induction s as [|c s IH]; [discriminate|].
  intros He. simpl.
  destruct s as [|b s].
  - simpl in *. unfold is_slash. rewrite He. simpl. lia.
  - specialize (IH He).
    destruct (drop_while_end is_slash (String b s)) eqn:E.
    + destruct (is_slash c); simpl; lia.
    + simpl in *. lia.
Qed.

(** The parent of a path is the path itself when the path is empty or made
    of slashes, and shorter than the path otherwise. *)
Lemma dirname_fixed_or_shorter (p : string) :
  if all_slashes p then os_path_dirname p = p
  else (String.length (os_path_dirname p) < String.length p)%nat.
Proof.
  destruct (all_slashes p) eqn:Ea.
  - rewrite os_path_dirname_eq. cbv zeta. rewrite (all_slashes_head p Ea), Ea.
    rewrite andb_false_r. reflexivity.
  - rewrite os_path_dirname_eq. cbv zeta.
    pose proof (head_and_basename p) as Hp.
    assert (Hlen : (String.length (head_to_last_slash p) <= String.length p)%nat).
    { rewrite Hp at 2. rewrite length_append. lia. }
    destruct (str_truthy (head_to_last_slash p)) eqn:Et; cbn [andb].
    + destruct (all_slashes (head_to_last_slash p)) eqn:Eh; cbn [negb].
      * destruct (os_path_basename p) as [|b r] eqn:Eb.
        -- rewrite append_nil_r in Hp. rewrite <- Hp in Eh. congruence.
        -- rewrite Hp at 2. rewrite length_append. simpl. lia.
      * pose proof (drop_while_end_shortens _ (head_ends_with_slash p Et)).
        lia.
    + destruct (head_to_last_slash p); [|discriminate]. simpl.
      destruct p; [discriminate|]. simpl. lia.
Qed.

(** X13. [Up] in either panel does nothing at a path that is empty or made of
    slashes; anywhere else it lists the parent, a shorter path. *)
Theorem up_lists_a_shorter_path (env : Env) (desk : Desktop) (g : gui)
    (current : string) :
  (current_remote_path (engine g) = Some current ->
   if all_slashes current then on_remote_up_clicked g = (Returns tt, g)
   else
     on_remote_up_clicked g
     = _load_remote_directory_threaded (Some (os_path_dirname current)) g
     /\ (String.length (os_path_dirname current) < String.length current)%nat)
  /\ (current_local_path (engine g) = current ->
      if all_slashes current then
        on_local_up_clicked env desk g = (Returns tt, g)
      else
        on_local_up_clicked env desk g
        = _load_local_directory env desk (os_path_dirname current) g
        /\ (String.length (os_path_dirname current) < String.length current)%nat).
Proof.
  pose proof (dirname_fixed_or_shorter current) as Hd.
  split; intros Hc.
  - unfold on_remote_up_clicked. grun. rewrite Hc.
    destruct (all_slashes current) eqn:Ea.
    + rewrite Hd, String.eqb_refl. destruct (str_truthy current); reflexivity.
    + destruct current as [|c s]; [discriminate|]. cbn [str_truthy negb].
      destruct (String.eqb_spec (os_path_dirname (String c s)) (String c s))
        as [E|_]; [rewrite E in Hd; lia|].
      cbn [negb]. auto.
  - unfold on_local_up_clicked. grun. rewrite Hc.
    destruct (all_slashes current) eqn:Ea.
    + rewrite Hd, String.eqb_refl. reflexivity.
    + destruct (String.eqb_spec (os_path_dirname current) current)
        as [E|_]; [rewrite E in Hd; lia|].
      cbn [negb]. auto.
Qed.

Lemma up_lists_a_shorter_path_witness :
  let g := gui_of connected_widget in
  on_remote_up_clicked g
  = _load_remote_directory_threaded (Some (os_path_dirname "/home/user")) g
  /\ (String.length (os_path_dirname "/home/user")
      < String.length "/home/user")%nat.
Proof.
  cbv zeta.
  exact (proj1 (up_lists_a_shorter_path calm_env calm_desk
                  (gui_of connected_widget) "/home/user") eq_refl).
Defined.

(** ** Paths built from a directory and a name *)

(** A directory path as [dirname], [normalize] and the rows of a listing
    give it: made of slashes, or without a slash at its end. *)
Definition tidy (dir : string) : Prop :=
  all_slashes dir = true \/ ends_with_slash dir = false.

Lemma head_without_slash (n : string) :
  str_contains slash n = false -> head_to_last_slash n = "".
Proof. intros H. destruct n as [|a n]; [reflexivity|]. simpl in *. now rewrite H. Qed.

Lemma head_append (s n : string) :
  s = "" \/ ends_with_slash s = true ->
  str_contains slash n = false ->
  head_to_last_slash (s +:+ n) = s.
Proof.
  intros Hs Hn. induction s as [|a s IH].
  - rewrite append_nil_l. now apply head_without_slash.
  - destruct Hs as [Hs|Hs]; [discriminate|].
    rewrite append_cons. cbn [head_to_last_slash].
    assert (Hc : str_contains slash (String a (s +:+ n)) = true).
    { rewrite <- append_cons, str_contains_append.
      rewrite (ends_with_slash_contains _ Hs). reflexivity. }
    rewrite Hc. f_equal. apply IH.
    destruct s as [|b s]; [now left|right]. exact Hs.
Qed.

Lemma basename_append (s n : string) :
  s = "" \/ ends_with_slash s = true ->
  str_contains slash n = false ->
  os_path_basename (s +:+ n) = n.
Proof.
  intros Hs Hn. pose proof (head_and_basename (s +:+ n)) as H.
  rewrite (head_append s n Hs Hn) in H.
  symmetry. exact (append_inj_l _ _ _ H).
Qed.

Lemma drop_while_end_snoc (f : ascii -> bool) (d : string) (c : ascii) :
  f c = true ->
  drop_while_end f (d +:+ String c "") = drop_while_end f d.
Proof.
  intros Hc. induction d as [|a d IH].
  - rewrite append_nil_l. simpl. now rewrite Hc.
  - rewrite append_cons. simpl. now rewrite IH.
Qed.

Lemma drop_while_end_id (d : string) :
  ends_with_slash d = false -> drop_while_end is_slash d = d.
Proof.
  induction d as [|a d IH]; [reflexivity|].
  intros He. simpl. destruct d as [|b d].
  - simpl in *. unfold is_slash. now rewrite He.
  - rewrite (IH He). reflexivity.
Qed.

Lemma drop_while_end_no_trailing_slash (s : string) :
  ends_with_slash (drop_while_end is_slash s) = false.
Proof.
  induction s as [|a s IH]; [reflexivity|]. simpl.
  destruct (drop_while_end is_slash s) as [|b r] eqn:E.
  - destruct (is_slash a) eqn:Ea; [reflexivity|]. simpl. exact Ea.
  - exact IH.
Qed.

Lemma all_slashes_append (a b : string) :
  all_slashes (a +:+ b) = all_slashes a && all_slashes b.
Proof.
  induction a as [|x a IH]; [reflexivity|].
  rewrite append_cons. simpl. now rewrite IH, andb_assoc.
Qed.

Lemma all_slashes_ends (d : string) :
  all_slashes d = true -> str_truthy d = true -> ends_with_slash d = true.
Proof.
  induction d as [|a d IH]; [discriminate|].
  simpl. intros H _. apply andb_prop in H as [Ha Hd].
  destruct d as [|b d]; [exact Ha|]. apply IH; [exact Hd|reflexivity].
Qed.

Lemma dirname_tidy (p : string) : tidy (os_path_dirname p).
Proof.
  rewrite os_path_dirname_eq. cbv zeta.
  destruct (str_truthy (head_to_last_slash p)) eqn:Et; cbn [andb].
  - destruct (all_slashes (head_to_last_slash p)) eqn:Ea; cbn [negb].
    + now left.
    + right. apply drop_while_end_no_trailing_slash.
  - left. destruct (head_to_last_slash p); [reflexivity|discriminate].
Qed.

Lemma no_slash_no_leading_slash (n : string) :
  str_contains slash n = false -> starts_with_slash n = false.
Proof.
  destruct n as [|a n]; [reflexivity|]. simpl.
  intros H. apply orb_false_iff in H as [Ha _]. exact Ha.
Qed.

(** A name joined to a tidy directory: the parent of the path is the
    directory, its last component the name. *)
Lemma dirname_basename_join (d n : string) :
  tidy d -> str_contains slash n = false ->
  os_path_dirname (os_path_join d n) = d
  /\ os_path_basename (os_path_join d n) = n.
Proof.
  intros Hd Hn. unfold os_path_join.
  rewrite (no_slash_no_leading_slash n Hn).
  destruct (str_truthy d) eqn:Et; cbn [negb orb].
  - destruct (ends_with_slash d) eqn:Ee.
    + destruct Hd as [Ha|Hd]; [|congruence].
      split; [|apply basename_append; auto].
      rewrite os_path_dirname_eq. cbv zeta.
      rewrite (head_append d n (or_intror Ee) Hn), Ha, andb_false_r.
      reflexivity.
    + assert (Hs : ends_with_slash (d +:+ "/") = true).
      { now rewrite ends_with_slash_append. }
      rewrite <- (append_assoc d "/" n).
      split; [|apply basename_append; auto].
      rewrite os_path_dirname_eq. cbv zeta.
      rewrite (head_append (d +:+ "/") n (or_intror Hs) Hn).
      assert (Ha : all_slashes d = false).
      { destruct (all_slashes d) eqn:Ea; [|reflexivity].
        rewrite (all_slashes_ends d Ea Et) in Ee. discriminate. }
      rewrite all_slashes_append, Ha.
      replace (str_truthy (d +:+ "/")) with true
        by (destruct d; [discriminate|reflexivity]).
      cbn [andb negb].
      rewrite (drop_while_end_snoc is_slash d "/"%char eq_refl).
      now apply drop_while_end_id.
  - destruct d; [|discriminate]. rewrite append_nil_l.
    split; [|apply (basename_append "" n); auto].
    rewrite os_path_dirname_eq. cbv zeta.
    now rewrite (head_without_slash n Hn).
Qed.

(** ** Renaming *)

(** A rename that is cancelled, or that gives the name the entry has,
    does nothing. *)
Lemma rename_to_nothing_new (g : gui) (old_path : string) :
  _execute_rename old_path None g = (Returns tt, g)
  /\ _execute_rename old_path (Some "") g = (Returns tt, g)
  /\ _execute_rename old_path (Some (os_path_basename old_path)) g
     = (Returns tt, g).
Proof.
  unfold _execute_rename. split; [reflexivity|]. split; [reflexivity|].
  cbn [opt_truthy]. change (default "" (Some ?n)) with n.
  rewrite String.eqb_refl, orb_true_r. reflexivity.
Qed.

(** X14. A new name without a slash starts one rename task, and nothing else;
    the target of the task lies in the directory of the old path and has the
    new name as its last component. *)
Theorem rename_stays_in_the_directory (g : gui) (old_path name : string)
    (v : view) :
  str_truthy name = true ->
  name <> os_path_basename old_path ->
  str_contains slash name = false ->
  last_clicked_view g = Some v ->
  let new_path := os_path_join (os_path_dirname old_path) name in
  _execute_rename old_path (Some name) g
  = (Returns tt,
     set_threads
       (threads g
          ++ [target_rename_task old_path new_path name
                (view_eqb v local_view)]) g)
  /\ os_path_dirname new_path = os_path_dirname old_path
  /\ os_path_basename new_path = name.
Proof.
  intros Ht Hne Hs Hv. cbv zeta. split.
  - unfold _execute_rename. cbn [opt_truthy].
    change (default "" (Some name)) with name. rewrite Ht.
    destruct (String.eqb_spec (os_path_basename old_path) name) as [E|_];
      [congruence|].
    cbn [negb orb]. unfold the_last_clicked_view. grun. rewrite Hv. grun.
    reflexivity.
  - apply dirname_basename_join; [apply dirname_tidy|exact Hs].
Qed.

Lemma rename_stays_in_the_directory_witness :
  let g := clicked remote_view (gui_of connected_widget) in
  let new_path := os_path_join (os_path_dirname "/home/user/notes.txt")
                    "todo.txt" in
  _execute_rename "/home/user/notes.txt" (Some "todo.txt") g
  = (Returns tt,
     set_threads
       (threads g
          ++ [target_rename_task "/home/user/notes.txt" new_path "todo.txt"
                (view_eqb remote_view local_view)]) g)
  /\ os_path_dirname new_path = os_path_dirname "/home/user/notes.txt"
  /\ os_path_basename new_path = "todo.txt".
Proof.
  cbv zeta.
  apply (rename_stays_in_the_directory
           (clicked remote_view (gui_of connected_widget))
           "/home/user/notes.txt" "todo.txt" remote_view);
    [reflexivity|vm_compute; discriminate|reflexivity|reflexivity].
Defined.

(** ** Editing a remote file *)

Lemma log_progress_run (name : string) (percents : list Z) (w : widget) :
  log_progress name percents w
  = (Returns tt,
     set_ui_queue
       (ui_queue w
          ++ map (fun p => append_log (progress_message name p) false) percents)
       w).
Proof.
  unfold log_progress. revert w.
  induction percents as [|p ps IH]; intros w; simpl.
  - unfold ret. rewrite app_nil_r. destruct w; reflexivity.
  - run. rewrite IH. run. rewrite <- app_assoc. reflexivity.
Qed.

(** The calls of the upload of one file. *)
Definition copies (local_path remote_path : string) (ev : event) : Prop :=
  ev_call ev = OsGetsize local_path
  \/ ev_call ev = SftpPut local_path remote_path.

Lemma upload_single_file_copies (env : Env)
    (local_path remote_path basename : string) (w : widget) :
  exists new,
    issued (snd (upload_single_file env local_path remote_path basename w))
    = (issued w ++ new)%list
    /\ Forall (copies local_path remote_path) new.
Proof.
  unfold upload_single_file, getsize, put, transfer, the_sftp_client. run.
  destruct (os_getsize env (issued w) local_path) as [size|e]; run.
  - destruct (sftp_client w) as [client|]; run.
    + destruct (sftp_put env _ local_path remote_path) as [reports failure].
      destruct (run_progress _ reports) as [percents cb_failure].
      run. rewrite log_progress_run. run.
      destruct cb_failure as [e|]; [|destruct failure as [e|]]; run;
        (match goal with |- exists new, ((?a ++ ?b) ++ ?c)%list = _ /\ _ =>
           exists (b ++ c)%list; split; [symmetry; apply app_assoc|] end;
         cbn [app];
         constructor; [now left|constructor; [now right|constructor]]).
    + eexists. split; [reflexivity|]. constructor; [now left|constructor].
  - eexists. split; [reflexivity|]. constructor; [now left|constructor].
Qed.

(** X15. A remote file opened from a listing is copied to the scratch directory
    under its own name; when its copy has changed, the upload that is started
    copies it to the remote path it came from, and calls nothing else on the
    server. *)
Theorem edited_file_goes_back_to_its_path (env : Env) (g : gui)
    (dir name : string) :
  wf_name name ->
  tidy dir ->
  str_contains backslash dir = false ->
  let remote_path := os_path_join dir name in
  let local_temp_path :=
    os_path_join (temp_dir (engine g)) (os_path_basename remote_path) in
  on_temp_file_changed CHANGES_DONE_HINT local_temp_path remote_path g
  = (Returns tt,
     set_threads
       (threads g
          ++ [target_upload_worker local_temp_path
                (Some (os_path_dirname remote_path)) false])
       (set_work
          (work g
             ++ [engine_work
                   (append_log
                      ("Detected changes in " +:+ name
                         +:+ ". Uploading back to server...") false)]) g))
  /\ forall w,
       exists new,
         issued (snd (_upload_worker env local_temp_path
                        (Some (os_path_dirname remote_path)) false w))
         = (issued w ++ new)%list
         /\ Forall (copies local_temp_path remote_path) new.
Proof.
  intros Hn Hd Hb. cbv zeta.
  destruct Hn as (Ht & Hs & Hbn).
  destruct (dirname_basename_join dir name Hd Hs) as [Edir Ebase].
  rewrite Ebase.
  assert (Etmp : os_path_basename (os_path_join (temp_dir (engine g)) name)
                 = name).
  { unfold os_path_join. rewrite (no_slash_no_leading_slash name Hs).
    destruct (negb (str_truthy (temp_dir (engine g)))
              || ends_with_slash (temp_dir (engine g))) eqn:E.
    - apply basename_append; [|exact Hs].
      destruct (temp_dir (engine g)); [now left|right]. exact E.
    - rewrite <- (append_assoc _ "/" name).
      apply basename_append; [right|exact Hs].
      now rewrite ends_with_slash_append. }
  split.
  - unfold on_temp_file_changed. grun. rewrite Etmp. reflexivity.
  - intros w. unfold _upload_worker. rewrite Etmp, Edir. run.
    assert (Er : remote_join dir name = os_path_join dir name).
    { unfold remote_join. apply replace_backslash_clean.
      unfold os_path_join. rewrite (no_slash_no_leading_slash name Hs).
      destruct (negb (str_truthy dir) || ends_with_slash dir);
        rewrite !str_contains_append, Hb, Hbn; reflexivity. }
    destruct (sftp_client w) as [client|]; run.
    + cbn [remote_join_optional]. run. rewrite Er. cbn [negb].
      destruct (upload_single_file_copies env
                  (os_path_join (temp_dir (engine g)) name)
                  (os_path_join dir name) name w) as (new & Hi & Hc).
      destruct (upload_single_file env _ _ name w) as [[[]|e|] w1]; run;
        simpl in Hi; exists new; auto.
    + exists []. rewrite app_nil_r. split; [reflexivity|constructor].
Qed.

Lemma edited_file_goes_back_to_its_path_witness :
  let g := gui_of connected_widget in
  let remote_path := os_path_join "/home/user" "notes.txt" in
  let local_temp_path :=
    os_path_join (temp_dir (engine g)) (os_path_basename remote_path) in
  on_temp_file_changed CHANGES_DONE_HINT local_temp_path remote_path g
  = (Returns tt,
     set_threads
       (threads g
          ++ [target_upload_worker local_temp_path
                (Some (os_path_dirname remote_path)) false])
       (set_work
          (work g
             ++ [engine_work
                   (append_log
                      ("Detected changes in " +:+ "notes.txt"
                         +:+ ". Uploading back to server...") false)]) g))
  /\ forall w,
       exists new,
         issued (snd (_upload_worker calm_env local_temp_path
                        (Some (os_path_dirname remote_path)) false w))
         = (issued w ++ new)%list
         /\ Forall (copies local_temp_path remote_path) new.
Proof.
  cbv zeta.
  apply (edited_file_goes_back_to_its_path calm_env (gui_of connected_widget)
           "/home/user" "notes.txt");
    [repeat split; reflexivity|right; reflexivity|reflexivity].
Defined.

(** ** Teardown ends in an exception *)

(** X16. The loop over the watches binds [_], the name of the translation
    function, as a local variable of [on_widget_destroy]: the last line of the
    handler, which calls [_], raises. The handler never returns, and [SFTP
    connection closed.] is never logged. *)
Theorem teardown_ends_in_an_exception (env : Env) (w : widget) :
  let run := on_widget_destroy env w in
  exists e,
    fst run = Throws e
    /\ ((exists c, is_close (Ev c (Raised e))
                   /\ last (issued (snd run)) = Some (Ev c (Raised e)))
        \/ (file_monitors w = [] /\ exn_cls e = UnboundLocalError)
        \/ (file_monitors w <> [] /\ exn_cls e = TypeError)).
Proof.
  cbv zeta.
  assert (Hu : forall (v : widget),
             exists e,
               fst (continue (fun message => _log_message message false)
                      (call_underscore (file_monitors w) v)) = Throws e
               /\ ((file_monitors w = [] /\ exn_cls e = UnboundLocalError)
                   \/ (file_monitors w <> [] /\ exn_cls e = TypeError))).
  { intros v. unfold call_underscore.
    destruct (file_monitors w) as [|m ms] eqn:Em.
    - run. eexists. split; [reflexivity|]. left. auto.
    - destruct (last (m :: ms)) eqn:El.
      + run. eexists. split; [reflexivity|]. right. split; [discriminate|].
        reflexivity.
      + apply last_None in El. discriminate. }
  destruct (on_widget_destroy env w) as [r w'] eqn:E.
  unfold on_widget_destroy, rmtree in E. run.
  destruct (sftp_client w) as [sftp|] eqn:Es; run.
  - destruct (sftp_close env (issued w)) as [e1|] eqn:Ec1; run.
    + injection E as <- <-. exists e1. split; [reflexivity|]. left.
      exists SftpClose. split; [now left|]. run. apply last_snoc.
    + destruct (ssh_client w) as [ssh|] eqn:Eh; run.
      * destruct (ssh_close env _) as [e2|] eqn:Ec2; run.
        -- injection E as <- <-. exists e2. split; [reflexivity|]. left.
           exists SshClose. split; [now right|]. run. apply last_snoc.
        -- rewrite cancel_all in E. run. split_run E.
           match goal with |- context [call_underscore _ ?v] =>
             destruct (Hu v) as (e & He & Hcases) end.
           exists e. split; [exact He|]. right. exact Hcases.
      * rewrite cancel_all in E. run. split_run E.
        match goal with |- context [call_underscore _ ?v] =>
          destruct (Hu v) as (e & He & Hcases) end.
        exists e. split; [exact He|]. right. exact Hcases.
  - destruct (ssh_client w) as [ssh|] eqn:Eh; run.
    + destruct (ssh_close env _) as [e2|] eqn:Ec2; run.
      * injection E as <- <-. exists e2. split; [reflexivity|]. left.
        exists SshClose. split; [now right|]. run. apply last_snoc.
      * rewrite cancel_all in E. run. split_run E.
        match goal with |- context [call_underscore _ ?v] =>
          destruct (Hu v) as (e & He & Hcases) end.
        exists e. split; [exact He|]. right. exact Hcases.
    + rewrite cancel_all in E. run. split_run E.
      match goal with |- context [call_underscore _ ?v] =>
        destruct (Hu v) as (e & He & Hcases) end.
      exists e. split; [exact He|]. right. exact Hcases.
Qed.

(** ** Watches on edited files *)

(** The monitors the dictionary names. *)
Definition watched (d : list (string * (nat * string))) : list nat :=
  map (fun entry => fst (snd entry)) d.

Lemma watched_dict_set (key : string) (m : nat) (remote_path : string)
    (d : list (string * (nat * string))) (x : nat) :
  In x (watched (dict_set key (m, remote_path) d)) ->
  x = m \/ In x (watched d).
Proof.
  induction d as [|[k0 [m0 r0]] d IH]; simpl.
  - intros [<-|[]]. now left.
  - destruct (String.eqb k0 key); simpl.
    + intros [<-|Hin]; [now left|right; now right].
    + intros [<-|Hin]; [right; now left|].
      destruct (IH Hin); [now left|right; now right].
Qed.

(** After [d[key] = (m0, _)] and [d[key] = (m, _)] the dictionary names
    [m0] only if it named it before. *)
Lemma dict_set_twice (key : string) (m m0 : nat) (r r0 : string)
    (d : list (string * (nat * string))) :
  dict_set key (m, r) (dict_set key (m0, r0) d) = dict_set key (m, r) d.
Proof.
  induction d as [|[k0 v0] d IH]; simpl.
  - rewrite String.eqb_refl. reflexivity.
  - destruct (String.eqb k0 key) eqn:E; simpl; rewrite E; [reflexivity|].
    now rewrite IH.
Qed.

Lemma monitors_made_app (h l : list sys_event) :
  monitors_made (h ++ l) = (monitors_made h + monitors_made l)%nat.
Proof. unfold monitors_made. now rewrite List.filter_app, length_app. Qed.

(** The closure [open_and_monitor] when the file opens and the monitor is
    made. *)
Lemma open_and_monitor_run (desk : Desktop)
    (local_temp_path remote_path basename : string) (g : gui) :
  launch desk (performed g) local_temp_path = None ->
  monitor_file desk (performed g ++ [Launch local_temp_path None])
    local_temp_path = None ->
  let m := monitors_made (performed g) in
  run_open_and_monitor desk local_temp_path remote_path basename g
  = (Returns tt,
     set_work
       (work g
          ++ [engine_work
                (append_log ("Now monitoring " +:+ basename +:+ " for changes.")
                   false)])
       (set_engine
          (set_file_monitors
             (dict_set local_temp_path (m, remote_path)
                (file_monitors (engine g))) (engine g))
          (set_performed
             (performed g
                ++ [Launch local_temp_path None;
                    MonitorFile local_temp_path (inl m)]) g))).
Proof.
  intros Hl Hm. cbv zeta.
  unfold run_open_and_monitor, launch_file, make_monitor. grun.
  rewrite Hl. grun. rewrite Hm. grun.
  rewrite monitors_made_app, Nat.add_0_r, <- app_assoc. reflexivity.
Qed.

(** X17. Two remote files with the same name, opened one after the other, are
    copied to the same scratch path. Each gets its monitor, but the dictionary
    of watches keeps one entry for the path: it names the second monitor and
    not the first, which no teardown can then cancel. *)
Theorem second_watch_replaces_the_first (desk : Desktop) (g : gui)
    (remote_path1 remote_path2 : string) :
  os_path_basename remote_path1 = os_path_basename remote_path2 ->
  (forall h path, launch desk h path = None) ->
  (forall h path, monitor_file desk h path = None) ->
  Forall (fun m => (m < monitors_made (performed g))%nat)
    (watched (file_monitors (engine g))) ->
  let basename := os_path_basename remote_path1 in
  let local_temp_path := os_path_join (temp_dir (engine g)) basename in
  let first := monitors_made (performed g) in
  let g1 := snd (run_open_and_monitor desk local_temp_path remote_path1
                   basename g) in
  let g2 := snd (run_open_and_monitor desk
                   (os_path_join (temp_dir (engine g1))
                      (os_path_basename remote_path2))
                   remote_path2 (os_path_basename remote_path2) g1) in
  performed g2
  = (performed g
       ++ [Launch local_temp_path None; MonitorFile local_temp_path (inl first);
           Launch local_temp_path None;
           MonitorFile local_temp_path (inl (S first))])%list
  /\ file_monitors (engine g2)
     = dict_set local_temp_path (S first, remote_path2)
         (file_monitors (engine g))
  /\ ~ In first (watched (file_monitors (engine g2))).
Proof.
  intros Hb Hl Hm Hold. cbv zeta.
  rewrite (open_and_monitor_run desk _ remote_path1 _ g (Hl _ _) (Hm _ _)).
  cbn [snd]. grun. rewrite <- Hb.
  rewrite (open_and_monitor_run desk _ remote_path2 _ _ (Hl _ _) (Hm _ _)).
  cbn [snd]. grun.
  rewrite dict_set_twice.
  rewrite monitors_made_app. cbn [monitors_made List.filter length].
  rewrite Nat.add_1_r, <- app_assoc.
  split; [reflexivity|]. split; [reflexivity|].
  intros Hin. apply watched_dict_set in Hin as [Hin|Hin]; [lia|].
  rewrite Forall_forall in Hold. apply list_elem_of_In in Hin.
  specialize (Hold _ Hin). lia.
Qed.

Lemma second_watch_replaces_the_first_witness :
  let g := gui_of bare_widget in
  let local_temp_path := os_path_join (temp_dir (engine g)) "notes.txt" in
  let g1 := snd (run_open_and_monitor calm_desk local_temp_path
                   "/srv/a/notes.txt" "notes.txt" g) in
  let g2 := snd (run_open_and_monitor calm_desk local_temp_path
                   "/srv/b/notes.txt" "notes.txt" g1) in
  performed g2
  = [Launch local_temp_path None; MonitorFile local_temp_path (inl 0%nat);
     Launch local_temp_path None; MonitorFile local_temp_path (inl 1%nat)]
  /\ file_monitors (engine g2) = [(local_temp_path, (1%nat, "/srv/b/notes.txt"))]
  /\ ~ In 0%nat (watched (file_monitors (engine g2))).
Proof.
  cbv zeta.
  apply (second_watch_replaces_the_first calm_desk (gui_of bare_widget)
           "/srv/a/notes.txt" "/srv/b/notes.txt");
    [reflexivity|reflexivity|reflexivity|constructor].
Defined.

(** X18. A remote file opened for editing is first copied to the scratch
    directory. When the copy fails nothing is opened or watched: the worker
    logs the failure and ends. When it succeeds the worker leaves the opening
    to the main loop. In both cases the worker returns. *)
Theorem remote_edit_downloads_first (env : Env) (desk : Desktop) (g : gui)
    (remote_path : string) :
  is_Some (sftp_client (engine g)) ->
  ui_queue (engine g) = [] ->
  let basename := os_path_basename remote_path in
  let local_temp_path := os_path_join (temp_dir (engine g)) basename in
  let downloading :=
    engine_work
      (append_log ("Downloading " +:+ basename +:+ " to temporary location...")
         false) in
  let run := _remote_edit_worker env remote_path g in
  fst run = Returns tt
  /\ match snd (sftp_get env (issued (engine g)) remote_path local_temp_path)
     with
     | None =>
         work (snd run)
         = (work g
              ++ [downloading;
                  open_and_monitor local_temp_path remote_path basename])%list
         /\ issued (engine (snd run))
            = (issued (engine g)
                 ++ [Ev (SftpGet remote_path local_temp_path)
                       (Returned VNone)])%list
     | Some e =>
         work (snd run)
         = (work g
              ++ [downloading;
                  engine_work
                    (append_log
                       ("Failed to download file for editing: " +:+ exn_str e)
                       true)])%list
         /\ issued (engine (snd run))
            = (issued (engine g)
                 ++ [Ev (SftpGet remote_path local_temp_path) (Raised e)])%list
     end.
Proof.
  intros [client Hc] Hq. cbv zeta.
  unfold _remote_edit_worker. grun. rewrite Hc. grun.
  unfold engine_run, get_without_callback, the_sftp_client. cbn [engine set_work].
  run. rewrite Hc. run.
  destruct (snd (sftp_get env (issued (engine g)) remote_path
                   (os_path_join (temp_dir (engine g))
                      (os_path_basename remote_path)))) as [e|]; run; grun;
    rewrite Hq; cbn [map]; rewrite app_nil_r, <- app_assoc;
    repeat split.
Qed.

Lemma remote_edit_downloads_first_witness :
  let g := gui_of connected_widget in
  let remote_path := "/home/user/notes.txt" in
  let local_temp_path := os_path_join (temp_dir (engine g)) "notes.txt" in
  let run := _remote_edit_worker calm_env remote_path g in
  fst run = Returns tt
  /\ work (snd run)
     = [engine_work
          (append_log
             ("Downloading " +:+ "notes.txt" +:+ " to temporary location...")
             false);
        open_and_monitor local_temp_path remote_path "notes.txt"]
     /\ issued (engine (snd run))
        = [Ev (SftpGet remote_path local_temp_path) (Returned VNone)].
Proof.
  cbv zeta.
  apply (remote_edit_downloads_first calm_env calm_desk
           (gui_of connected_widget) "/home/user/notes.txt");
    [eexists; reflexivity|reflexivity].
Defined.

(** ** The UI queue is emptied *)

(** A loop whose steps keep a property of the widget keeps it, however it
    ends, and does not run out of fuel when its steps do not. *)
Lemma gfor_each_keeps {A} (P : gui -> Prop) (body : A -> G unit) (l : list A) :
  (forall x g, P g -> P (snd (body x g)) /\ fst (body x g) <> OutOfFuel) ->
  forall g, P g ->
    P (snd (gfor_each l body g)) /\ fst (gfor_each l body g) <> OutOfFuel.
Proof.
  intros Hb. induction l as [|x l IH]; intros g Hg; [now split|].
  simpl. grun. destruct (Hb x g Hg) as [Hp Hf].
  destruct (body x g) as [[[]|e|] g1]; grun; simpl in *; auto.
Qed.

Lemma load_local_directory_keeps_work (env : Env) (desk : Desktop)
    (path : string) (g : gui) :
  work (snd (_load_local_directory env desk path g)) = work g
  /\ fst (_load_local_directory env desk path g) <> OutOfFuel.
Proof.
  unfold _load_local_directory. grun.
  destruct (os_listdir desk (performed g) path) as [names|[t|t|t]]; grun;
    try (split; [reflexivity|discriminate]).
  match goal with |- context [gfor_each names ?body ?g0] =>
    apply (gfor_each_keeps (fun g' => work g' = work g) body names);
      [|reflexivity] end.
  intros x g1 Hg1. unfold load_local_entry. grun.
  destruct (os_stat desk (performed g1) (os_path_join path x)) as [st|f]; grun;
    [|split; [exact Hg1|discriminate]].
  destruct (local_row env desk path x st) as [r|e]; grun;
    [split; [exact Hg1|discriminate]|].
  destruct (is_OSError e); grun; (split; [exact Hg1|discriminate]).
Qed.

Lemma update_ui_run (rows_to_add : list row) (path : string) (g : gui) :
  run_update_ui rows_to_add path g
  = (Returns tt,
     set_remote_sort_column (Some (1, true))
       (set_remote_path_entry path
          (set_engine (set_current_remote_path (Some path) (engine g))
             (set_remote_store rows_to_add g)))).
Proof.
  unfold run_update_ui. grun.
  assert (H : forall rows g0,
             gfor_each rows
               (fun r => gmodify (fun g => set_remote_store (remote_store g ++ [r]) g))
               g0
             = (Returns tt, set_remote_store (remote_store g0 ++ rows) g0)).
  { induction rows as [|r rows IH]; intros g0; simpl.
    - rewrite app_nil_r. destruct g0; reflexivity.
    - grun. rewrite IH. grun. rewrite <- app_assoc. reflexivity. }
  rewrite H. grun. reflexivity.
Qed.

(** The closures a queued closure stands for: itself, and the log line it
    may enqueue in its turn. *)
Definition closures_of (item : queued) : nat :=
  match item with
  | engine_work refresh_remote_view | open_and_monitor _ _ _ => 2
  | _ => 1
  end.

Definition pending (q : list queued) : nat := list_sum (map closures_of q).

Lemma pending_app (a b : list queued) :
  pending (a ++ b) = (pending a + pending b)%nat.
Proof. unfold pending. now rewrite map_app, list_sum_app. Qed.

Lemma pending_le (q : list queued) : (pending q <= 2 * length q)%nat.
Proof.
  induction q as [|item q IH]; [cbv; lia|].
  change (pending (item :: q)) with (closures_of item + pending q)%nat.
  cbn [length]. destruct item as [[]|]; cbn [closures_of]; lia.
Qed.

Lemma pending_log (message : string) (is_error : bool) :
  pending [engine_work (append_log message is_error)] = 1%nat.
Proof. reflexivity. Qed.

Ltac pending_one := rewrite ?pending_log.

Lemma run_callback_pending (env : Env) (desk : Desktop) (callback : queued)
    (g : gui) :
  (pending (work (snd (run_callback env desk callback g))) + 1
   <= pending (work g) + closures_of callback)%nat
  /\ fst (run_callback env desk callback g) <> OutOfFuel.
Proof.
  destruct callback as [[message is_error|rows path| | |]|ltp rp base];
    cbn [run_callback closures_of].
  - unfold run_append_log. grun.
    destruct (scroll_adjustment desk (performed g)) as [[value upper] page].
    grun. destruct (is_at_bottom value upper page); grun;
      (split; [lia|discriminate]).
  - rewrite update_ui_run. grun. split; [lia|discriminate].
  - grun. split; [lia|discriminate].
  - grun. unfold _load_remote_directory_threaded. grun.
    destruct (sftp_client (engine g)); grun;
      (split; [rewrite ?pending_app; pending_one; lia|discriminate]).
  - grun.
    destruct (load_local_directory_keeps_work env desk
                (current_local_path (engine g)) g) as [-> Hf].
    split; [lia|exact Hf].
  - unfold run_open_and_monitor, launch_file, make_monitor. grun.
    destruct (launch desk (performed g) ltp) as [e|]; grun;
      [split; [rewrite pending_app; pending_one; lia|discriminate]|].
    destruct (monitor_file desk _ ltp) as [e|]; grun;
      (split; [rewrite pending_app; pending_one; lia|discriminate]).
Qed.

(** While the worker threads put nothing, a look at the queue changes
    nothing of the widget but the record of what it did. *)
Lemma absorb_nothing (desk : Desktop) (g : gui) :
  (forall h, thread_puts desk h = []) ->
  exists g',
    absorb_thread_puts desk g = (Returns tt, g')
    /\ work g' = work g /\ engine g' = engine g
    /\ remote_store g' = remote_store g /\ local_store g' = local_store g
    /\ remote_path_entry g' = remote_path_entry g
    /\ remote_sort_column g' = remote_sort_column g
    /\ threads g' = threads g.
Proof.
  intros Hno. unfold absorb_thread_puts. grun. rewrite Hno.
  eexists. split; [reflexivity|]. cbn. rewrite app_nil_r. repeat split.
Qed.

(** X19. [_process_ui_queue] returns only [True], and only with an empty queue.
    While the worker threads put nothing on the queue, a run with room for
    twice the closures queued does not stop before the queue is empty. *)
Theorem process_ui_queue_empties_the_queue (env : Env) (desk : Desktop)
    (fuel : nat) (g : gui) :
  let run := _process_ui_queue env desk fuel g in
  (forall b, fst run = Returns b -> b = true /\ work (snd run) = [])
  /\ ((forall h, thread_puts desk h = []) ->
      (2 * length (work g) <= fuel)%nat ->
      fst run <> OutOfFuel).
Proof.
  cbv zeta. split.
  - revert g. induction fuel as [|fuel IH]; intros g b.
    + simpl. unfold absorb_thread_puts. grun.
      destruct (work g ++ thread_puts desk (performed g))%list eqn:Ew; grun;
        [|discriminate].
      intros [= <-]. split; reflexivity.
    + simpl. unfold absorb_thread_puts. grun.
      destruct (work g ++ thread_puts desk (performed g))%list
        as [|item q] eqn:Ew; grun.
      * intros [= <-]. split; reflexivity.
      * match goal with |- context [run_callback env desk item ?g0] =>
          destruct (run_callback env desk item g0) as [[[]|e|] g1] end;
          grun; [apply IH|discriminate|discriminate].
  - intros Hno Hf. assert (Hp : (pending (work g) <= fuel)%nat).
    { pose proof (pending_le (work g)). lia. }
    clear Hf. revert g Hp.
    induction fuel as [|fuel IH]; intros g Hp.
    + destruct (absorb_nothing desk g Hno) as (g' & Ea & Hw & _).
      simpl. grun. rewrite Ea. grun. rewrite Hw.
      destruct (work g) as [|item q] eqn:Ew; grun; [discriminate|].
      exfalso. change (pending (item :: q)) with
        (closures_of item + pending q)%nat in Hp.
      destruct item as [[]|]; simpl in Hp; lia.
    + destruct (absorb_nothing desk g Hno) as (g' & Ea & Hw & _).
      simpl. grun. rewrite Ea. grun. rewrite Hw.
      destruct (work g) as [|item q] eqn:Ew; grun; [discriminate|].
      change (pending (item :: q)) with (closures_of item + pending q)%nat in Hp.
      pose proof (run_callback_pending env desk item (set_work q g')) as [Hw' Hn].
      cbn [work set_work] in Hw'.
      destruct (run_callback env desk item (set_work q g')) as [[[]|e|] g1];
        grun; simpl in *; [|discriminate|congruence].
      apply IH. lia.
Qed.

Lemma process_ui_queue_empties_the_queue_witness :
  let g := set_work
             [engine_work (append_log "Connecting to box..." false);
              engine_work (update_ui [] "/home/user")]
             (gui_of bare_widget) in
  let run := _process_ui_queue calm_env calm_desk 4 g in
  (forall b, fst run = Returns b -> b = true /\ work (snd run) = [])
  /\ ((forall h, thread_puts calm_desk h = []) ->
      (2 * length (work g) <= 4)%nat ->
      fst run <> OutOfFuel).
Proof.
  cbv zeta.
  apply (process_ui_queue_empties_the_queue calm_env calm_desk 4
           (set_work
              [engine_work (append_log "Connecting to box..." false);
               engine_work (update_ui [] "/home/user")]
              (gui_of bare_widget))).
Defined.

(** ** From the listing to the remote panel *)

(** The closure [append_log] writes to the log buffer and touches nothing
    of the panels, the engine or the queue. *)
Lemma append_log_run (desk : Desktop) (message : string) (g : gui) :
  exists g',
    run_append_log desk message g = (Returns tt, g')
    /\ work g' = work g /\ engine g' = engine g
    /\ remote_store g' = remote_store g /\ local_store g' = local_store g
    /\ remote_path_entry g' = remote_path_entry g
    /\ remote_sort_column g' = remote_sort_column g
    /\ threads g' = threads g.
Proof.
  unfold run_append_log. grun.
  destruct (scroll_adjustment desk (performed g)) as [[value upper] page].
  grun. destruct (is_at_bottom value upper page); grun;
    (eexists; split; [reflexivity|]; repeat split).
Qed.

(** X20. A listing that succeeds, followed by a run of the UI queue during
    which the worker threads put nothing more, puts the rows of the listing in
    the remote store in their order, and makes the listed path the current
    remote path and the text of the path entry. *)
Theorem listing_reaches_the_remote_panel (env : Env) (desk : Desktop)
    (g : gui) (path : string) (items : list SFTPAttributes) (rows : list row) :
  is_Some (sftp_client (engine g)) ->
  ui_queue (engine g) = [] ->
  work g = [] ->
  sftp_listdir_attr env (issued (engine g)) path = Ok items ->
  rows_of_listing env path items = Ok rows ->
  (forall h, thread_puts desk h = []) ->
  let g1 := snd (engine_run (_load_remote_directory env path) g) in
  let run := _process_ui_queue env desk 3 g1 in
  fst run = Returns true
  /\ work (snd run) = []
  /\ remote_store (snd run) = rows
  /\ current_remote_path (engine (snd run)) = Some path
  /\ remote_path_entry (snd run) = path
  /\ remote_sort_column (snd run) = Some (1, true).
Proof.
  intros [client Hc] Hq Hw Hl Hr Hno. cbv zeta.
  unfold engine_run, _load_remote_directory, listdir_attr, the_sftp_client.
  run. rewrite Hc. run. rewrite Hl. run. rewrite Hr. run.
  cbn [snd]. rewrite Hq, Hw. cbn [app map].
  cbn [_process_ui_queue]. grun.
  match goal with |- context [absorb_thread_puts desk ?g0] =>
    destruct (absorb_nothing desk g0 Hno)
      as (ga & -> & Hwa & Hea & _ & _ & _ & _ & _) end.
  grun. rewrite Hwa. cbn [work]. grun. cbn [run_callback].
  match goal with |- context [run_append_log desk ?m ?g0] =>
    destruct (append_log_run desk m g0)
      as (g2 & -> & Hw2 & He2 & _ & _ & _ & _ & _) end.
  grun.
  match goal with |- context [absorb_thread_puts desk ?g0] =>
    destruct (absorb_nothing desk g0 Hno)
      as (gb & -> & Hwb & Heb & _ & _ & _ & _ & _) end.
  grun. rewrite Hwb, Hw2. cbn [work set_work]. grun. cbn [run_callback].
  rewrite update_ui_run. grun.
  match goal with |- context [absorb_thread_puts desk ?g0] =>
    destruct (absorb_nothing desk g0 Hno)
      as (gc & -> & Hwc & Hec & Hsc & _ & Hpc & Hcc & _) end.
  grun. rewrite Hwc. cbn [work set_work set_remote_sort_column
    set_remote_path_entry set_engine set_remote_store]. grun.
  cbn [run_callback].
  match goal with |- context [run_append_log desk ?m ?g0] =>
    destruct (append_log_run desk m g0)
      as (g3 & -> & Hw3 & He3 & Hs3 & _ & Hp3 & Hc3 & _) end.
  grun.
  match goal with |- context [absorb_thread_puts desk ?g0] =>
    destruct (absorb_nothing desk g0 Hno)
      as (gd & -> & Hwd & Hed & Hsd & _ & Hpd & Hcd & _) end.
  grun. rewrite Hwd, Hw3. cbn [work set_work]. grun.
  rewrite Hed, Hsd, Hpd, Hcd, He3, Hs3, Hp3, Hc3. cbn.
  rewrite Hec, Hsc, Hpc, Hcc. cbn. repeat split. congruence.
Qed.

Lemma listing_reaches_the_remote_panel_witness :
  let g := gui_of connected_widget in
  let g1 := snd (engine_run (_load_remote_directory mixed_env "/home/user/docs")
                   g) in
  let run := _process_ui_queue mixed_env calm_desk 3 g1 in
  fst run = Returns true
  /\ work (snd run) = []
  /\ remote_store (snd run) = mixed_rows
  /\ current_remote_path (engine (snd run)) = Some "/home/user/docs"
  /\ remote_path_entry (snd run) = "/home/user/docs"
  /\ remote_sort_column (snd run) = Some (1, true).
Proof.
  cbv zeta.
  apply (listing_reaches_the_remote_panel mixed_env calm_desk
           (gui_of connected_widget) "/home/user/docs" docs_listing
           mixed_rows);
    [eexists; reflexivity|reflexivity|reflexivity|reflexivity
    |vm_compute; reflexivity|reflexivity].
Defined.

(** ** The local panel *)

(** X21. A directory that cannot be listed leaves the local panel empty and
    pointing at it. A [PermissionError] or [FileNotFoundError] goes to the log
    of the application and not to the log of the widget; another [OSError] is
    raised to the caller. *)
Theorem unlistable_directory_empties_the_panel (env : Env) (desk : Desktop)
    (g : gui) (path : string) (f : os_error) :
  os_listdir desk (performed g) path = FsRaise f ->
  let run := _load_local_directory env desk path g in
  local_store (snd run) = []
  /\ current_local_path (engine (snd run)) = path
  /\ local_path_entry (snd run) = path
  /\ work (snd run) = work g
  /\ match f with
     | PermissionError t | FileNotFoundError t =>
         fst run = Returns tt
         /\ performed (snd run)
            = (performed g
                 ++ [Listdir path (FsRaise f);
                     LoggingError
                       ("Error loading local directory '" +:+ path +:+ "': "
                          +:+ t)])%list
     | OtherOSError t =>
         fst run = Throws (Exn OSError t)
         /\ performed (snd run)
            = (performed g ++ [Listdir path (FsRaise f)])%list
     end.
Proof.
  intros Hl. cbv zeta. unfold _load_local_directory. grun. rewrite Hl.
  destruct f as [t|t|t]; grun; rewrite <- ?app_assoc; repeat split.
Qed.

Lemma unlistable_directory_empties_the_panel_witness :
  let g := gui_of bare_widget in
  let run := _load_local_directory calm_env locked_desk "/root" g in
  local_store (snd run) = []
  /\ current_local_path (engine (snd run)) = "/root"
  /\ local_path_entry (snd run) = "/root"
  /\ work (snd run) = work g
  /\ fst run = Returns tt
  /\ performed (snd run)
     = (performed g
          ++ [Listdir "/root"
                (FsRaise (PermissionError "[Errno 13] Permission denied"));
              LoggingError
                ("Error loading local directory '" +:+ "/root" +:+ "': "
                   +:+ "[Errno 13] Permission denied")])%list.
Proof.
  cbv zeta.
  apply (unlistable_directory_empties_the_panel calm_env locked_desk
           (gui_of bare_widget) "/root"
           (PermissionError "[Errno 13] Permission denied")).
  reflexivity.
Defined.

Lemma local_row_names (env : Env) (desk : Desktop) (path filename : string)
    (st : LocalStat.t) (r : row) :
  local_row env desk path filename st = Ok r ->
  COL_NAME r = filename /\ COL_FULL_PATH r = os_path_join path filename.
Proof.
  unfold local_row.
  destruct (S_ISDIR (LocalStat.st_mode st));
    [|destruct (_format_size _ _); [|discriminate]];
    (destruct (strftime_of_float desk _); [|discriminate]);
    (destruct (int_of_float _); [|discriminate]);
    intros [= <-]; split; reflexivity.
Qed.

Lemma load_local_entry_run (env : Env) (desk : Desktop)
    (path filename : string) (g : gui) :
  load_local_entry env desk path filename g
  = let full_path := os_path_join path filename in
    let answer := os_stat desk (performed g) full_path in
    let g1 := set_performed (performed g ++ [Stat full_path answer]) g in
    match answer with
    | FsRaise _ => (Returns tt, g1)
    | FsOk st =>
        match local_row env desk path filename st with
        | Ok r => (Returns tt, set_local_store (local_store g1 ++ [r]) g1)
        | Raise e => if is_OSError e then (Returns tt, g1) else (Throws e, g1)
        end
    end.
Proof.
  unfold load_local_entry. grun. cbv zeta.
  destruct (os_stat desk (performed g) (os_path_join path filename)); grun;
    [|reflexivity].
  destruct (local_row env desk path filename a); grun; [reflexivity|].
  destruct (is_OSError e); reflexivity.
Qed.

(** The row that an examined entry gets: none when [os.stat] raised, and
    none when making the row raised. *)
Definition examined_row (env : Env) (desk : Desktop) (path filename : string)
    (answer : fs_result LocalStat.t) : option row :=
  match answer with
  | FsOk st =>
      match local_row env desk path filename st with
      | Ok r => Some r
      | Raise _ => None
      end
  | FsRaise _ => None
  end.

(** The rows of the names examined, given what [os.stat] answered for
    each. *)
Fixpoint rows_examined (env : Env) (desk : Desktop) (path : string)
    (names : list string) (answers : list (fs_result LocalStat.t))
  : list row :=
  match names, answers with
  | name :: names, answer :: answers =>
      match examined_row env desk path name answer with
      | Some r => r :: rows_examined env desk path names answers
      | None => rows_examined env desk path names answers
      end
  | _, _ => []
  end.

(** The calls of [os.stat] for the names examined. *)
Fixpoint stats (path : string) (names : list string)
    (answers : list (fs_result LocalStat.t)) : list sys_event :=
  match names, answers with
  | name :: names, answer :: answers =>
      Stat (os_path_join path name) answer :: stats path names answers
  | _, _ => []
  end.

(** How the loop over [names] ended, [answers] being what [os.stat]
    answered: every name was examined, or making the row of the last name
    examined raised an exception that is not an [OSError]. *)
Definition listing_ended (env : Env) (desk : Desktop) (path : string)
    (names : list string) (answers : list (fs_result LocalStat.t))
    (r : completion unit) : Prop :=
  (r = Returns tt /\ length answers = length names)
  \/ exists e earlier name st,
       r = Throws e /\ is_OSError e = false
       /\ answers = (earlier ++ [FsOk st])%list
       /\ names !! length earlier = Some name
       /\ local_row env desk path name st = Raise e.

Lemma rows_examined_names (env : Env) (desk : Desktop) (path : string)
    (names : list string) :
  forall answers,
    sublist (map COL_NAME (rows_examined env desk path names answers)) names
    /\ Forall (fun r => COL_FULL_PATH r = os_path_join path (COL_NAME r))
         (rows_examined env desk path names answers).
Proof.
  induction names as [|name names IH]; intros answers;
    [split; constructor|].
  destruct answers as [|answer answers];
    [split; [apply sublist_nil_l|constructor]|].
  destruct (IH answers) as [Hs Hf]. cbn [rows_examined].
  destruct answer as [st|f]; cbn [examined_row];
    [|split; [now constructor|exact Hf]].
  destruct (local_row env desk path name st) as [r|e] eqn:Er;
    [|split; [now constructor|exact Hf]].
  destruct (local_row_names env desk path name st r Er) as [Hn Hp].
  split; [simpl; rewrite Hn; now constructor|].
  constructor; [congruence|exact Hf].
Qed.

Lemma load_local_entries (env : Env) (desk : Desktop) (path : string)
    (names : list string) :
  forall g,
    let run := gfor_each names (load_local_entry env desk path) g in
    exists answers,
      performed (snd run) = (performed g ++ stats path names answers)%list
      /\ local_store (snd run)
         = (local_store g ++ rows_examined env desk path names answers)%list
      /\ listing_ended env desk path names answers (fst run).
Proof.
  induction names as [|name names IH]; intros g; cbv zeta.
  - exists []. simpl. rewrite !app_nil_r.
    split; [reflexivity|]. split; [reflexivity|]. left. auto.
  - cbn [gfor_each]. grun. rewrite load_local_entry_run. cbv zeta.
    set (answer := os_stat desk (performed g) (os_path_join path name)).
    assert (Hnext : forall g0 : gui,
               performed g0
               = (performed g ++ [Stat (os_path_join path name) answer])%list ->
               local_store g0
               = (local_store g
                    ++ match examined_row env desk path name answer with
                       | Some r => [r]
                       | None => []
                       end)%list ->
               exists answers,
                 performed
                   (snd (gfor_each names (load_local_entry env desk path) g0))
                 = (performed g ++ stats path (name :: names) answers)%list
                 /\ local_store
                      (snd (gfor_each names (load_local_entry env desk path) g0))
                    = (local_store g
                         ++ rows_examined env desk path (name :: names)
                              answers)%list
                 /\ listing_ended env desk path (name :: names) answers
                      (fst (gfor_each names (load_local_entry env desk path)
                              g0))).
    { intros g0 Hp Hs. destruct (IH g0) as (answers & Hp' & Hs' & He).
      exists (answer :: answers). cbn [stats rows_examined].
      split; [rewrite Hp', Hp, <- app_assoc; reflexivity|].
      split.
      - rewrite Hs', Hs, <- app_assoc.
        destruct (examined_row env desk path name answer); reflexivity.
      - destruct He as [(Hr & Hl)|(e & earlier & n & st & Hr & Ho & Ha & Hn & Hrow)].
        + left. split; [exact Hr|]. simpl. now rewrite Hl.
        + right. exists e, (answer :: earlier), n, st.
          split; [exact Hr|]. split; [exact Ho|].
          split; [rewrite Ha; reflexivity|]. split; [exact Hn|exact Hrow]. }
    destruct answer as [st|f] eqn:Ea; grun.
    + destruct (local_row env desk path name st) as [r|e] eqn:Er; grun.
      * apply Hnext; [reflexivity|].
        cbn [examined_row]. rewrite Er. reflexivity.
      * destruct (is_OSError e) eqn:Eo; grun.
        -- apply Hnext; [reflexivity|].
           cbn [examined_row]. rewrite Er. cbn. now rewrite app_nil_r.
        -- exists [FsOk st]. cbn [stats rows_examined examined_row].
           rewrite Er. destruct names; cbn; rewrite ?app_nil_r;
             (split; [reflexivity|]); (split; [reflexivity|]);
             right; exists e, [], name, st; repeat split; auto.
    + apply Hnext; [reflexivity|].
      cbn. now rewrite app_nil_r.
Qed.

(** X22. The local panel after a listing of [path] that gave [names]: the names
    are examined in that order, each with one call of [os.stat], and the rows
    of the panel are exactly the rows of the names examined for which [os.stat]
    answered and whose row could be made, in that order and under their paths.
    A name for which [os.stat] raised, or the making of whose row raised an
    [OSError], has no row, and the listing goes on with the next name. The
    listing returns when every name has been examined; it raises only an
    exception that is not an [OSError], raised while the row of the last name
    examined was made. *)
Theorem local_listing_leaves_out_unreadable_entries (env : Env)
    (desk : Desktop) (g : gui) (path : string) (names : list string) :
  os_listdir desk (performed g) path = FsOk names ->
  let run := _load_local_directory env desk path g in
  sublist (map COL_NAME (local_store (snd run))) names
  /\ Forall (fun r => COL_FULL_PATH r = os_path_join path (COL_NAME r))
       (local_store (snd run))
  /\ current_local_path (engine (snd run)) = path
  /\ (fst run = Returns tt
      \/ exists e, fst run = Throws e /\ is_OSError e = false)
  /\ exists answers,
       performed (snd run)
       = (performed g ++ Listdir path (FsOk names) :: stats path names answers)%list
       /\ local_store (snd run) = rows_examined env desk path names answers
       /\ listing_ended env desk path names answers (fst run).
Proof.
  intros Hl. cbv zeta. unfold _load_local_directory. grun. rewrite Hl. grun.
  assert (Hstep : forall x g1,
             current_local_path (engine g1) = path ->
             current_local_path
               (engine (snd (load_local_entry env desk path x g1))) = path
             /\ fst (load_local_entry env desk path x g1) <> OutOfFuel).
  { intros x g1 Hg1. rewrite load_local_entry_run. cbv zeta.
    destruct (os_stat desk (performed g1) (os_path_join path x)) as [st|f0];
      grun; [|split; [exact Hg1|discriminate]].
    destruct (local_row env desk path x st) as [r|e]; grun;
      [split; [exact Hg1|discriminate]|].
    destruct (is_OSError e); grun; (split; [exact Hg1|discriminate]). }
  match goal with |- context [gfor_each names _ ?g0] =>
    destruct (load_local_entries env desk path names g0)
      as (answers & Hp' & Hs & He);
    pose proof (proj1 (gfor_each_keeps
                         (fun g' => current_local_path (engine g') = path)
                         (load_local_entry env desk path) names
                         Hstep g0 eq_refl)) as Hp
  end.
  cbn [local_store performed set_performed set_local_path_entry set_engine
       set_local_store] in Hs, Hp'.
  destruct (rows_examined_names env desk path names answers) as [Hsub Hf].
  rewrite Hs. cbn [app].
  split; [exact Hsub|]. split; [exact Hf|]. split; [exact Hp|].
  split.
  - destruct He as [(Hr & _)|(e & _ & _ & _ & Hr & Ho & _)];
      [now left|right; eauto].
  - exists answers. split; [|split; [reflexivity|exact He]].
    rewrite Hp', <- app_assoc. reflexivity.
Qed.

Lemma local_listing_leaves_out_unreadable_entries_witness :
  let g := gui_of bare_widget in
  let run := _load_local_directory calm_env home_desk "/home/me" g in
  map COL_NAME (local_store (snd run)) = ["a.txt"]
  /\ sublist (map COL_NAME (local_store (snd run))) ["a.txt"; "gone"]
  /\ Forall (fun r => COL_FULL_PATH r = os_path_join "/home/me" (COL_NAME r))
       (local_store (snd run))
  /\ current_local_path (engine (snd run)) = "/home/me"
  /\ (fst run = Returns tt
      \/ exists e, fst run = Throws e /\ is_OSError e = false)
  /\ exists answers,
       performed (snd run)
       = (performed g
            ++ Listdir "/home/me" (FsOk ["a.txt"; "gone"])
                 :: stats "/home/me" ["a.txt"; "gone"] answers)%list
       /\ local_store (snd run)
          = rows_examined calm_env home_desk "/home/me" ["a.txt"; "gone"]
              answers
       /\ listing_ended calm_env home_desk "/home/me" ["a.txt"; "gone"]
            answers (fst run).
Proof.
  cbv zeta. split; [vm_compute; reflexivity|].
  apply (local_listing_leaves_out_unreadable_entries calm_env home_desk
           (gui_of bare_widget) "/home/me" ["a.txt"; "gone"]).
  reflexivity.
Defined.

(** ** The permissions dialog and the task it starts *)

(** X23. A permissions dialog opened on an entry and confirmed as it stands
    starts a task that sets the mode to the nine permission bits of the entry:
    the set-uid, set-gid and sticky bits of the entry are cleared. A dialog
    that is cancelled starts nothing. *)
Theorem confirmed_permissions_keep_nine_bits (fuel : nat) (g : gui)
    (path : string) (mode : Z) (v : view) :
  64 <= mode ->
  last_clicked_view g = Some v ->
  exists d,
    PermissionsDialog.__init__ fuel mode = Some d
    /\ _execute_chmod path (PermissionsDialog.on_response true d) g
       = (Returns tt,
          set_threads
            (threads g
               ++ [target_chmod_task path (mode mod 512)
                     (view_eqb v local_view)]) g)
    /\ _execute_chmod path (PermissionsDialog.on_response false d) g
       = (Returns tt, g).
Proof.
  intros Hm Hv. unfold PermissionsDialog.__init__, PermissionsDialog.set_mode.
  rewrite set_all_active_updating by reflexivity.
  rewrite set_text_updating by reflexivity.
  destruct (oct_read_back mode ltac:(lia)) as (Hsub & _ & _).
  eexists. split; [reflexivity|]. split; [|reflexivity].
  unfold PermissionsDialog.on_response.
  rewrite (get_mode_of_octal mode) by (try lia; exact Hsub).
  destruct (Z.ltb_spec mode 8); [lia|].
  destruct (Z.ltb_spec mode 64); [lia|].
  unfold _execute_chmod, the_last_clicked_view. grun. rewrite Hv. grun.
  reflexivity.
Qed.

Lemma confirmed_permissions_keep_nine_bits_witness :
  let g := clicked remote_view (gui_of connected_widget) in
  exists d,
    PermissionsDialog.__init__ 1 0x89ED = Some d
    /\ _execute_chmod "/home/user/run.sh"
         (PermissionsDialog.on_response true d) g
       = (Returns tt,
          set_threads
            (threads g
               ++ [target_chmod_task "/home/user/run.sh" (0x89ED mod 512)
                     (view_eqb remote_view local_view)]) g)
    /\ _execute_chmod "/home/user/run.sh"
         (PermissionsDialog.on_response false d) g
       = (Returns tt, g).
Proof.
  cbv zeta.
  apply (confirmed_permissions_keep_nine_bits 1
           (clicked remote_view (gui_of connected_widget))
           "/home/user/run.sh" 0x89ED remote_view);
    [lia|reflexivity].
Defined.

(** ** The transfer buttons *)

Definition upload_of (remote_dest_dir : option string) (r : row)
  : thread_target :=
  target_upload_worker (COL_FULL_PATH r) remote_dest_dir (COL_IS_DIR r).

Definition download_of (local_dest_dir : string) (r : row) : thread_target :=
  target_download_worker (COL_FULL_PATH r) local_dest_dir (COL_IS_DIR r).

Definition queueing (what : string) (r : row) : queued :=
  engine_work
    (append_log ("Queueing " +:+ what +:+ " for: " +:+ COL_FULL_PATH r) false).

(** X24. A click on a transfer button starts one worker for every selected row,
    in the order of the selection, each towards the directory the other panel
    shows at the click; with nothing selected it logs an error and starts
    nothing. *)
Theorem transfer_starts_a_worker_for_every_row (selected : list row)
    (g : gui) :
  (on_upload_clicked selected g
   = match selected with
     | [] =>
         (Returns tt,
          set_work
            (work g
               ++ [engine_work
                     (append_log "No local files selected for upload." true)])
            g)
     | _ =>
         (Returns tt,
          set_threads
            (threads g
               ++ map (upload_of (current_remote_path (engine g))) selected)
            (set_work (work g ++ map (queueing "upload") selected) g))
     end)
  /\ (on_download_clicked selected g
      = match selected with
        | [] =>
            (Returns tt,
             set_work
               (work g
                  ++ [engine_work
                        (append_log "No remote files selected for download."
                           true)]) g)
        | _ =>
            (Returns tt,
             set_threads
               (threads g
                  ++ map (download_of (current_local_path (engine g))) selected)
               (set_work (work g ++ map (queueing "download") selected) g))
        end).
Proof.
  assert (Hu : forall rows g0,
             engine g0 = engine g ->
             gfor_each rows
               (fun r =>
                  remote_dest_dir <- the_engine current_remote_path ;;
                  log_message ("Queueing upload for: " +:+ COL_FULL_PATH r)
                    false ;;
                  start_thread
                    (target_upload_worker (COL_FULL_PATH r) remote_dest_dir
                       (COL_IS_DIR r)))%G g0
             = (Returns tt,
                set_threads
                  (threads g0
                     ++ map (upload_of (current_remote_path (engine g))) rows)
                  (set_work (work g0 ++ map (queueing "upload") rows) g0))).
  { induction rows as [|r rows IH]; intros g0 Hg0; simpl.
    - rewrite !app_nil_r. destruct g0; reflexivity.
    - grun. rewrite IH by exact Hg0. grun. rewrite Hg0, <- !app_assoc.
      reflexivity. }
  assert (Hd : forall rows g0,
             engine g0 = engine g ->
             gfor_each rows
               (fun r =>
                  local_dest_dir <- the_engine current_local_path ;;
                  log_message ("Queueing download for: " +:+ COL_FULL_PATH r)
                    false ;;
                  start_thread
                    (target_download_worker (COL_FULL_PATH r) local_dest_dir
                       (COL_IS_DIR r)))%G g0
             = (Returns tt,
                set_threads
                  (threads g0
                     ++ map (download_of (current_local_path (engine g))) rows)
                  (set_work (work g0 ++ map (queueing "download") rows) g0))).
  { induction rows as [|r rows IH]; intros g0 Hg0; simpl.
    - rewrite !app_nil_r. destruct g0; reflexivity.
    - grun. rewrite IH by exact Hg0. grun. rewrite Hg0, <- !app_assoc.
      reflexivity. }
  split.
  - unfold on_upload_clicked. destruct selected as [|r rows]; [reflexivity|].
    apply Hu. reflexivity.
  - unfold on_download_clicked. destruct selected as [|r rows]; [reflexivity|].
    apply Hd. reflexivity.
Qed.

(** ** The passphrase prompt *)

Lemma user_in_host (host_str : string) (p : string * string) :
  user_and_host host_str None = Some p -> str_contains at_sign host_str = true.
Proof.
  unfold user_and_host. destruct (str_contains at_sign host_str); [auto|].
  discriminate.
Qed.

(** X25. A passphrase dialog that is cancelled starts the pass again without a
    passphrase; while the key file needs one, that pass ends with the
    passphrase prompt again, and connects nothing. *)
Theorem cancelled_passphrase_prompt_comes_back (env : Env) (g : gui)
    (username_from_prompt : option string) (host_str user host key : string) :
  sftp_client (engine g) = None ->
  cfg_host (host_config (engine g)) = Some host_str ->
  user_and_host host_str username_from_prompt = Some (user, host) ->
  cfg_key_path (host_config (engine g)) = Some key ->
  str_truthy key = true ->
  (forall h, exists e,
      ssh_connect env h
        (key_args user host (port_of (host_config (engine g))) (Some key) None)
      = Some e
      /\ is_PasswordRequired e = true) ->
  let g1 := snd (on_passphrase_entered username_from_prompt None g) in
  threads g1
  = (threads g
       ++ [target_sftp_connect_worker username_from_prompt None None])%list
  /\ engine g1 = engine g
  /\ let run := _sftp_connect_worker env username_from_prompt None None
                  (engine g1) in
     fst run = Returns tt
     /\ sftp_client (snd run) = None
     /\ last (issued (snd run))
        = Some (Ev (IdleAdd (prompt_for_key_password key)) (Returned VNone)).
Proof.
  intros Hnone Hhost Huser Hkey Ht Henv. cbv zeta.
  assert (Hs : on_passphrase_entered username_from_prompt None g
               = (Returns tt,
                  set_threads
                    (threads g
                       ++ [target_sftp_connect_worker username_from_prompt
                             None None])
                    (set_work
                       (work g
                          ++ [engine_work
                                (append_log
                                   ("Connecting to "
                                      +:+ str_of_optional
                                            (cfg_name (host_config (engine g)))
                                      +:+ "...") false)]) g))).
  { unfold on_passphrase_entered, _start_sftp_worker_with_user. grun.
    rewrite Hhost. destruct username_from_prompt as [u|]; grun.
    - reflexivity.
    - rewrite (user_in_host host_str _ Huser). cbn [negb]. grun. reflexivity. }
  rewrite Hs. cbn [snd]. grun. split; [reflexivity|]. split; [reflexivity|].
  destruct (Henv (issued (engine g))) as (e & Hc & Hp).
  rewrite (key_wants_passphrase env (engine g) username_from_prompt None
             host_str user host key e Hnone Hhost Huser Hkey Ht Hc Hp).
  cbn [fst snd]. run. split; [reflexivity|]. split; [exact Hnone|].
  match goal with |- last (?l ++ [?a; ?b])%list = _ =>
    change (l ++ [a; b])%list with (l ++ [a] ++ [b])%list end.
  rewrite app_assoc. apply last_snoc.
Qed.

Lemma cancelled_passphrase_prompt_comes_back_witness :
  let g := gui_of (fresh_widget (Some "h") ∅) in
  let g1 := snd (on_passphrase_entered None None g) in
  threads g1 = (threads g ++ [target_sftp_connect_worker None None None])%list
  /\ engine g1 = engine g
  /\ let run := _sftp_connect_worker encrypted_key_env None None None
                  (engine g1) in
     fst run = Returns tt
     /\ sftp_client (snd run) = None
     /\ last (issued (snd run))
        = Some (Ev (IdleAdd (prompt_for_key_password "/bad/key"))
                  (Returned VNone)).
Proof.
  cbv zeta.
  apply (cancelled_passphrase_prompt_comes_back encrypted_key_env
           (gui_of (fresh_widget (Some "h") ∅)) None "user@h" "user" "h"
           "/bad/key");
    try reflexivity.
  intros h. eexists. split; reflexivity.
Defined.

(** ** The tasks of the context menu *)

(** What a task that makes one call leaves behind: the call and, after it,
    the refresh and the line of success, or the line of failure alone; or,
    for a remote entry while there is no SFTP client, no call and the line
    of failure. *)
Definition reported (g g' : gui) (is_local : bool)
    (call : option exn -> sys_event) (done : string)
    (failed : exn -> string) : Prop :=
  (performed g' = (performed g ++ [call None])%list
   /\ work g'
      = (work g
           ++ [engine_work
                 (if is_local then refresh_local_view else refresh_remote_view);
               engine_work (append_log done false)])%list)
  \/ (exists e,
        performed g' = (performed g ++ [call (Some e)])%list
        /\ work g' = (work g ++ [engine_work (append_log (failed e) true)])%list)
  \/ (exists e,
        is_local = false /\ sftp_client (engine g) = None
        /\ exn_cls e = AttributeError
        /\ performed g' = performed g
        /\ work g' = (work g ++ [engine_work (append_log (failed e) true)])%list).

(** X26. The rename task and the permissions task always return. Each makes at
    most one call, with the arguments it was started with, on the local file
    system for an entry of the local panel and on the server for one of the
    remote panel; it queues the refresh of that panel only when the call
    succeeded, and logs the failure otherwise. Neither changes the engine. *)
Theorem file_tasks_report_and_return (desk : Desktop) (g : gui)
    (old_path new_path new_name path : string) (new_mode : Z)
    (is_local : bool) :
  (let run := rename_task desk old_path new_path new_name is_local g in
   fst run = Returns tt
   /\ engine (snd run) = engine g
   /\ reported g (snd run) is_local
        (if is_local then OsRename old_path new_path
         else SftpRename old_path new_path)
        ("Renamed '" +:+ os_path_basename old_path +:+ "' to '" +:+ new_name
           +:+ "'")
        (fun e => "Rename failed: " +:+ exn_str e))
  /\ (let run := chmod_task desk path new_mode is_local g in
      fst run = Returns tt
      /\ engine (snd run) = engine g
      /\ reported g (snd run) is_local
           (if is_local then OsChmod path new_mode
            else SftpChmod path new_mode)
           ("Permissions changed for " +:+ path +:+ " to "
              +:+ oct_without_prefix new_mode)
           (fun e =>
              "Failed to change permissions for " +:+ path +:+ ": "
                +:+ exn_str e)).
Proof.
  cbv zeta. split.
  - unfold rename_task, reported, the_client. destruct is_local; grun.
    + destruct (os_rename desk (performed g) old_path new_path) as [e|];
        grun; (split; [reflexivity|]); (split; [reflexivity|]).
      * right. left. exists e. split; reflexivity.
      * left. rewrite <- app_assoc. split; reflexivity.
    + destruct (sftp_client (engine g)) as [client|] eqn:Ec; grun.
      * destruct (sftp_rename desk (performed g) old_path new_path) as [e|];
          grun; (split; [reflexivity|]); (split; [reflexivity|]).
        -- right. left. exists e. split; reflexivity.
        -- left. rewrite <- app_assoc. split; reflexivity.
      * split; [reflexivity|]. split; [reflexivity|]. right. right.
        eexists. repeat split; reflexivity.
  - unfold chmod_task, reported, the_client. destruct is_local; grun.
    + destruct (os_chmod desk (performed g) path new_mode) as [e|];
        grun; (split; [reflexivity|]); (split; [reflexivity|]).
      * right. left. exists e. split; reflexivity.
      * left. rewrite <- app_assoc. split; reflexivity.
    + destruct (sftp_client (engine g)) as [client|] eqn:Ec; grun.
      * destruct (sftp_chmod desk (performed g) path new_mode) as [e|];
          grun; (split; [reflexivity|]); (split; [reflexivity|]).
        -- right. left. exists e. split; reflexivity.
        -- left. rewrite <- app_assoc. split; reflexivity.
      * split; [reflexivity|]. split; [reflexivity|]. right. right.
        eexists. repeat split; reflexivity.
Qed.

(** ** The delete dialog *)

(** X27. [Delete] on a selected row never presents its dialog. The list of the
    buttons names [Gtk.ResponseType.DESTRUCTIVE], which is not a member of that
    enumeration: the handler raises the [AttributeError] of that lookup before
    the dialog is made. By then it has called [os.listdir] for a directory of
    the local panel, and done nothing else: no dialog is presented, no task
    started, nothing queued, and the engine is as it was. The callback written
    for the dialog names the same attribute and raises as well, whatever the
    answer, without starting a task. With no row selected the handler returns
    and does nothing. *)
Theorem delete_raises_before_it_asks (desk : Desktop) (g : gui) (r : row)
    (v : view) :
  last_clicked_view g = Some v ->
  let is_local := view_eqb v local_view in
  let run := on_delete_activated desk (Some r) g in
  let missing :=
    Exn AttributeError (attribute_error_text desk "ResponseType" "DESTRUCTIVE") in
  fst run = Throws missing
  /\ dialogs (snd run) = dialogs g
  /\ threads (snd run) = threads g
  /\ work (snd run) = work g
  /\ engine (snd run) = engine g
  /\ performed (snd run)
     = (performed g
          ++ if COL_IS_DIR r && is_local
             then [Listdir (COL_FULL_PATH r)
                     (os_listdir desk (performed g) (COL_FULL_PATH r))]
             else [])%list
  /\ (forall response_id g',
        on_delete_response desk response_id (COL_FULL_PATH r) (COL_IS_DIR r)
          is_local g'
        = (Throws missing, g'))
  /\ on_delete_activated desk None g = (Returns tt, g).
Proof.
  intros Hv. cbv zeta.
  unfold on_delete_activated, the_last_clicked_view, on_delete_response,
    Gtk_ResponseType.
  cbn [List.find ResponseType_members fst snd String.eqb Ascii.eqb Bool.eqb].
  grun. rewrite Hv. grun.
  split; [|split; [|split; [|split; [|split; [|split; [|split]]]]]];
    try reflexivity;
    destruct (COL_IS_DIR r); cbn [andb]; try destruct (view_eqb v local_view);
    cbn [andb negb]; grun; rewrite ?app_nil_r; try reflexivity;
    destruct (os_listdir desk (performed g) (COL_FULL_PATH r)) as [[|n ns]|f];
    grun; reflexivity.
Qed.

Lemma delete_raises_before_it_asks_witness :
  let g := clicked local_view (gui_of bare_widget) in
  let run := on_delete_activated calm_desk (Some local_directory) g in
  let missing :=
    Exn AttributeError
      "type object 'ResponseType' has no attribute 'DESTRUCTIVE'" in
  last_clicked_view g = Some local_view
  /\ fst run = Throws missing
  /\ dialogs (snd run) = dialogs g
  /\ threads (snd run) = threads g
  /\ work (snd run) = work g
  /\ engine (snd run) = engine g
  /\ performed (snd run)
     = (performed g ++ [Listdir "/home/me/old" (FsOk [])])%list
  /\ (forall response_id g',
        on_delete_response calm_desk response_id "/home/me/old" true true g'
        = (Throws missing, g'))
  /\ on_delete_activated calm_desk None g = (Returns tt, g).
Proof.
  cbv zeta. split; [reflexivity|].
  apply (delete_raises_before_it_asks calm_desk
           (clicked local_view (gui_of bare_widget)) local_directory
           local_view).
  reflexivity.
Defined.

(** ** Names with a backslash *)

Lemma basename_contains (c : ascii) (p : string) :
  str_contains c (os_path_basename p) = true -> str_contains c p = true.
Proof.
  induction p as [|a p IH]; [auto|]. cbn [os_path_basename].
  destruct (str_contains slash (String a p)); [|auto].
  cbn [str_contains].
  destruct (Ascii.eqb a slash && negb (str_contains slash p)); intros H.
  - rewrite H. apply orb_true_r.
  - rewrite (IH H). apply orb_true_r.
Qed.

(** X28. The upload of one file towards a destination calls nothing but
    [os.path.getsize] on the local path and [put] towards the destination
    joined with the base name, in which every backslash has become a slash: a
    file whose name holds a backslash does not arrive under its name; the
    worker returns whatever the calls answer. Without a destination, as long as
    no remote listing has been shown, the join raises a [TypeError] outside the
    handler of the worker: with an SFTP client the worker raises it, and
    nothing is called, logged or queued. *)
Theorem uploaded_name_has_no_backslash (env : Env) (local_path : string)
    (remote_dest_dir : option string) (w : widget) :
  let basename := os_path_basename local_path in
  let run := _upload_worker env local_path remote_dest_dir false w in
  match remote_dest_dir with
  | Some dir =>
      let remote_path := remote_join dir basename in
      fst run = Returns tt
      /\ (exists new,
            issued (snd run) = (issued w ++ new)%list
            /\ Forall (copies local_path remote_path) new)
      /\ str_contains backslash remote_path = false
      /\ (str_contains backslash basename = true ->
          os_path_basename remote_path <> basename)
  | None =>
      snd run = w
      /\ match sftp_client w with
         | Some _ => exists e, fst run = Throws e /\ exn_cls e = TypeError
         | None => fst run = Returns tt
         end
  end.
Proof.
  cbv zeta. destruct remote_dest_dir as [remote_dest_dir|].
  2:{ unfold _upload_worker. run.
      destruct (sftp_client w) as [client|]; run; cbn [remote_join_optional];
        run; [|split; reflexivity].
      split; [reflexivity|]. eexists. split; reflexivity. }
  assert (Hnone : str_contains backslash
                    (remote_join remote_dest_dir (os_path_basename local_path))
                  = false) by apply replace_backslash_has_none.
  split; [|split; [|split; [exact Hnone|]]].
  - unfold _upload_worker. run.
    destruct (sftp_client w) as [client|]; run; [|reflexivity].
    cbn [remote_join_optional]. run. cbn [negb].
    match goal with |- context [upload_single_file env ?a ?b ?c w] =>
      destruct (upload_single_file env a b c w) as [[[]|e|] w1] eqn:E end;
      run; try reflexivity.
    exfalso. revert E.
    unfold upload_single_file, getsize, put, transfer, the_sftp_client. run.
    destruct (os_getsize env (issued w) local_path) as [size|e]; run;
      [|discriminate].
    destruct (sftp_client w) as [client'|]; run; [|discriminate].
    destruct (sftp_put env _ local_path _) as [reports failure].
    destruct (run_progress _ reports) as [percents cb_failure].
    run. rewrite log_progress_run. run.
    destruct cb_failure as [e|]; [|destruct failure as [e|]]; run;
      discriminate.
  - unfold _upload_worker. run.
    destruct (sftp_client w) as [client|]; run.
    + cbn [remote_join_optional]. run. cbn [negb].
      match goal with |- context [upload_single_file env ?a ?b ?c w] =>
        destruct (upload_single_file_copies env a b c w) as (new & Hi & Hc);
        destruct (upload_single_file env a b c w) as [[[]|e|] w1] end;
        run; simpl in Hi; exists new; auto.
    + exists []. rewrite app_nil_r. split; [reflexivity|constructor].
  - intros Hb E.
    assert (Hc : str_contains backslash
                   (os_path_basename
                      (remote_join remote_dest_dir
                         (os_path_basename local_path))) = true)
      by (rewrite E; exact Hb).
    apply basename_contains in Hc. congruence.
Qed.
